(** * SaltyRTC client: chunking sublayer, combined sequence numbers and
      the signaling engine

    A shallow embedding of [saltyrtc/chunkifier.ts] (classes [Chunkifier]
    and [Unchunkifier]) and of [saltyrtc/signaling.ts] (classes
    [CombinedSequence], [Responder] and [Signaling]), with the properties
    of the specification stated and settled against it.

    JavaScript numbers that the code uses as integers are [Z]; bytes are
    [byte]; a call that can throw returns a [result]; a method that mutates
    its object returns the new object next to its result, also when it
    throws. *)

From Stdlib Require Import List Arith Lia ZArith String Bool.
From Stdlib.Strings Require Import Byte.
From Stdlib Require DecimalString.
From Equations Require Import Equations.
From Equations.Prop Require Import Logic.
Import ListNotations.

Local Open Scope string_scope.
Local Open Scope list_scope.
Local Open Scope Z_scope.

(** ** Exceptions and results *)

(** What a [throw] statement carries: an [Error] object of some class with
    its message, or a bare string ([throw 'bad-receiver']). *)
Inductive exn : Type :=
| Error (message : string)
| RangeError (message : string)
| TypeError (message : string)
| Thrown (value : string).

Inductive result (A : Type) : Type :=
| Ok (a : A)
| Throw (e : exn).
Arguments Ok {A} a.
Arguments Throw {A} e.

Definition rbind {A B} (r : result A) (k : A -> result B) : result B :=
  match r with
  | Ok a => k a
  | Throw e => Throw e
  end.

Notation "x <- r ;; k" := (rbind r (fun x => k))
  (at level 61, r at next level, right associativity).

(** Decimal rendering of a non-negative number, as string concatenation
    with a number produces it. *)
Definition decimal (n : nat) : string :=
  DecimalString.NilZero.string_of_uint (Nat.to_uint n).

(** ** Typed arrays *)

(** [ArrayBuffer], [DataView] and [Uint8Array].  A [Uint8Array] is a window
    of [length] bytes at [byteOffset] into its [buffer]; [new DataView
    (array.buffer)] looks at the buffer from its own byte 0. *)
Module U8.

Record Uint8Array : Type := mk {
  buffer : list byte;
  byteOffset : nat;
  len : nat
}.

(** [array.length] as a number. *)
Definition length (a : Uint8Array) : Z := Z.of_nat (len a).

(** The elements [a[0], ..., a[length-1]]. *)
Definition bytes (a : Uint8Array) : list byte :=
  firstn (len a) (skipn (byteOffset a) (buffer a)).

(** The window lies inside the buffer (the engine guarantees it). *)
Definition wf (a : Uint8Array) : Prop :=
  (byteOffset a + len a <= List.length (buffer a))%nat.

(** [new Uint8Array(buffer)] and [Uint8Array.of(b0, b1, ...)]: the whole
    buffer. *)
Definition of_buffer (b : list byte) : Uint8Array :=
  {| buffer := b; byteOffset := 0; len := List.length b |}.

(** [new ArrayBuffer(n)]: [n] zero bytes. *)
Definition ArrayBuffer (n : Z) : result (list byte) :=
  if n <? 0 then Throw (RangeError "Invalid array buffer length")
  else Ok (repeat x00 (Z.to_nat n)).

(** [new Uint8Array(n)]. *)
Definition alloc (n : Z) : result Uint8Array :=
  b <- ArrayBuffer n ;; Ok (of_buffer b).

(** [view.getUint8(i)] on [new DataView(buffer)]. *)
Definition getUint8 (b : list byte) (i : Z) : result byte :=
  if (i <? 0) || (Z.of_nat (List.length b) <=? i)
  then Throw (RangeError "Offset is outside the bounds of the DataView")
  else match nth_error b (Z.to_nat i) with
       | Some x => Ok x
       | None => Throw (RangeError "Offset is outside the bounds of the DataView")
       end.

(** Overwrite [l] from position [k] on with [s] (which fits). *)
Definition overwrite (l : list byte) (k : nat) (s : list byte) : list byte :=
  firstn k l ++ s ++ skipn (k + List.length s) l.

(** [view.setUint8(i, v)] on [new DataView(buffer)]: the buffer after. *)
Definition setUint8 (b : list byte) (i : Z) (v : byte) : result (list byte) :=
  if (i <? 0) || (Z.of_nat (List.length b) <=? i)
  then Throw (RangeError "Offset is outside the bounds of the DataView")
  else Ok (overwrite b (Z.to_nat i) [v]).

(** A relative index of [slice]: negative counts from the end, and the
    result is clamped to [0, length]. *)
Definition relative (k : Z) (n : Z) : Z :=
  if k <? 0 then Z.max (n + k) 0 else Z.min k n.

(** [array.slice(start, end)]: a copy in a buffer of its own. *)
Definition slice (a : Uint8Array) (start end_ : Z) : Uint8Array :=
  let s := relative start (length a) in
  let e := relative end_ (length a) in
  of_buffer (firstn (Z.to_nat (e - s)) (skipn (Z.to_nat s) (bytes a))).

(** [array.slice(start)]. *)
Definition slice_from (a : Uint8Array) (start : Z) : Uint8Array :=
  slice a start (length a).

(** [array.set(src, offset)]: the array after. *)
Definition set (a src : Uint8Array) (offset : Z) : result Uint8Array :=
  if (offset <? 0) || (length a <? offset + length src)
  then Throw (RangeError "offset is out of bounds")
  else Ok {| buffer := overwrite (buffer a)
                         (byteOffset a + Z.to_nat offset) (bytes src);
             byteOffset := byteOffset a;
             len := len a |}.

End U8.

Definition Uint8Array : Type := U8.Uint8Array.

(** [list[index] = v] on a JavaScript array, for [index] up to the length:
    below the length it replaces, at the length it appends.  (Beyond the
    length JavaScript leaves holes; no store of this file goes there, see
    [ChunkifierFacts.store_at_length].) *)
Definition store {A} (l : list A) (index : Z) (v : A) : list A :=
  firstn (Z.to_nat index) l ++ [v] ++ skipn (S (Z.to_nat index)) l.

(** ** Chunkifier *)

Module Chunkifier.

(** The object: its three fields, and what the constructor has checked
    ([array.length >= 1], [chunkSize >= 2]). *)
Record t : Type := mk {
  array : Uint8Array;
  chunkSize : Z;
  chunks : option (list Uint8Array);
  array_nonempty : 1 <= U8.length array;
  chunkSize_large : 2 <= chunkSize
}.

Definition new (array : Uint8Array) (chunkSize : Z) : result t :=
  match Z_lt_dec (U8.length array) 1 with
  | left _ => Throw (RangeError "Array may not be empty")
  | right Ha =>
    match Z_lt_dec chunkSize 2 with
    | left _ => Throw (RangeError "Chunk size must be larger than 1")
    | right Hc =>
      Ok {| array := array; chunkSize := chunkSize; chunks := None;
            array_nonempty := proj1 (Z.nlt_ge _ _) Ha;
            chunkSize_large := proj1 (Z.nlt_ge _ _) Hc |}
    end
  end.

Definition offset (c : t) (chunkIndex : Z) : Z :=
  chunkIndex * (chunkSize c - 1).

Definition hasNext (c : t) (index : Z) : bool :=
  offset c index <? U8.length (array c).

(** The body of the [while] loop of [getChunks] up to the store: the
    chunk of number [index]. *)
Definition chunkAt (c : t) (index : Z) : result Uint8Array :=
  let offset_ := offset c index in
  let length := Z.min (chunkSize c) (U8.length (array c) + 1 - offset_) in
  buffer <- U8.ArrayBuffer length ;;
  (* Put more chunks indicator into buffer *)
  buffer <- U8.setUint8 buffer 0 (if hasNext c (index + 1) then x01 else x00) ;;
  (* Add array slice to buffer *)
  let array_ := U8.of_buffer buffer in
  let end_ := Z.min (offset c (index + 1)) (U8.length (array c)) in
  let chunk := U8.slice (array c) offset_ end_ in
  U8.set array_ chunk 1.

(** The [while (this.hasNext(index))] loop, from [index] on, with
    [this.chunks] as it is so far: how the loop ends, and [this.chunks]
    then. *)
Equations? getChunks_loop (c : t) (index : Z) (acc : list Uint8Array)
  : result unit * list Uint8Array
  by wf (Z.to_nat (U8.length (array c) - offset c index)) lt :=
getChunks_loop c index acc with inspect (hasNext c index) := {
  | exist _ false _ => (Ok tt, acc)
  | exist _ true Hnext with chunkAt c index := {
      | Throw e => (Throw e, acc)
      | Ok array_ => getChunks_loop c (index + 1) (store acc index array_) } }.
Proof.
  unfold hasNext in Hnext. apply Z.ltb_lt in Hnext.
  pose proof (chunkSize_large c). unfold offset in *. lia.
Qed.

(** [getChunks()]: the chunks, and the object with its cache filled. *)
Definition getChunks (c : t) : result (list Uint8Array) * t :=
  match chunks c with
  | Some l => (Ok l, c)
  | None =>
    let (r, l) := getChunks_loop c 0 [] in
    let c' := {| array := array c; chunkSize := chunkSize c;
                 chunks := Some l;
                 array_nonempty := array_nonempty c;
                 chunkSize_large := chunkSize_large c |} in
    (_ <- r ;; Ok l, c')
  end.

End Chunkifier.

(** ** Unchunkifier *)

(** What [add] hands back: its declared type is [boolean], and a bare
    [return;] hands back [undefined]. *)
Inductive value : Type :=
| JsUndefined
| JsBoolean (b : bool).

Module Unchunkifier.

Record t : Type := mk {
  chunks : list Uint8Array;
  length : Z;
  done : bool;
  merged : option Uint8Array
}.

(** [new Unchunkifier()]: the field initialisers. *)
Definition new : t :=
  {| chunks := []; length := 0; done := false; merged := None |}.

(** The object after [this.chunks.push(array); this.length +=
    array.length - 1]. *)
Definition pushed (u : t) (array : Uint8Array) : t :=
  {| chunks := chunks u ++ [array];
     length := length u + (U8.length array - 1);
     done := done u;
     merged := merged u |}.

Definition set_done (u : t) : t :=
  {| chunks := chunks u; length := length u; done := true;
     merged := merged u |}.

Definition add (u : t) (array : Uint8Array) : result value * t :=
  if done u then
    (Throw (Error "Cannot add more chunks, already complete"), u)
  else if U8.length array =? 0 then
    (Ok JsUndefined, u)
  else
    (* new DataView(array.buffer): the whole buffer, from its byte 0 *)
    let view := U8.buffer array in
    (* Add to list *)
    let u := pushed u array in
    (* More chunks? *)
    match U8.getUint8 view 0 with
    | Throw e => (Throw e, u)
    | Ok moreChunks =>
      if Byte.eqb moreChunks x00 then (Ok (JsBoolean true), set_done u)
      else if Byte.eqb moreChunks x01 then (Ok (JsBoolean false), u)
      else (Throw (Error ("Invalid chunk received: "
                          ++ decimal (Byte.to_nat moreChunks))%string), u)
    end.

(** The [for (var chunk of this.chunks)] loop of [merge]. *)
Fixpoint merge_loop (array : Uint8Array) (offset : Z)
         (chunks : list Uint8Array) : result Uint8Array :=
  match chunks with
  | [] => Ok array
  | chunk :: rest =>
    array <- U8.set array (U8.slice_from chunk 1) offset ;;
    merge_loop array (offset + (U8.length chunk - 1)) rest
  end.

Definition merge (u : t) : result Uint8Array * t :=
  (* Chunks must be complete *)
  if negb (done u) then (Throw (Error "Chunks not yet complete"), u)
  else
    (* Return cached value if available *)
    match merged u with
    | Some m => (Ok m, u)
    | None =>
      (* Add all chunks apart from the first byte *)
      match (array <- U8.alloc (length u) ;;
             merge_loop array 0 (chunks u)) with
      | Throw e => (Throw e, u)
      | Ok array =>
        (Ok array, {| chunks := chunks u; length := length u;
                      done := done u; merged := Some array |})
      end
    end.

End Unchunkifier.

(** ** Chunking and dechunking a buffer *)

(** [new Chunkifier(buf, C).getChunks()]. *)
Definition chunk (buf : Uint8Array) (C : Z) : result (list Uint8Array) :=
  c <- Chunkifier.new buf C ;; fst (Chunkifier.getChunks c).

(** [for (let chunk of chunks) { unchunkifier.add(chunk); }]: the object
    after the loop, or the exception that ended it and the object then. *)
Fixpoint feed (u : Unchunkifier.t) (chunks : list Uint8Array)
  : result unit * Unchunkifier.t :=
  match chunks with
  | [] => (Ok tt, u)
  | c :: rest =>
    match Unchunkifier.add u c with
    | (Ok _, u') => feed u' rest
    | (Throw e, u') => (Throw e, u')
    end
  end.

(** The chunks fed in order into a fresh [Unchunkifier], then [merge()]. *)
Definition dechunk (chunks : list Uint8Array) : result Uint8Array :=
  let (r, u) := feed Unchunkifier.new chunks in
  _ <- r ;; fst (Unchunkifier.merge u).

(** The arrays of the test suite, by their decimal bytes. *)
Definition u8 (l : list nat) : Uint8Array :=
  U8.of_buffer (map (fun n => match Byte.of_nat n with
                              | Some b => b
                              | None => x00
                              end) l).

(** ** CombinedSequence *)

Module CombinedSequence.

Definition SEQUENCE_NUMBER_MAX : Z := 0x100000000. (* 1<<32 *)
Definition OVERFLOW_MAX : Z := 0x100000. (* 1<<16 *)

(** The object, and also the shape of what [next()] returns. *)
Record t : Type := mk {
  sequenceNumber : Z;
  overflow : Z
}.

(** [new CombinedSequence()], given the value [randomUint32()] draws. *)
Definition new (randomUint32 : Z) : t :=
  {| sequenceNumber := randomUint32; overflow := 0 |}.

(** [next()]: the returned object or the exception, and the object
    after. *)
Definition next (c : t) : result t * t :=
  if sequenceNumber c + 1 >=? SEQUENCE_NUMBER_MAX then
    (* Sequence number overflow *)
    let c := {| sequenceNumber := 0; overflow := overflow c + 1 |} in
    if overflow c >=? OVERFLOW_MAX then
      (* Overflow overflow *)
      (Throw (Error "overflow-overflow"), c)
    else
      (Ok {| sequenceNumber := sequenceNumber c; overflow := overflow c |}, c)
  else
    let c := {| sequenceNumber := sequenceNumber c + 1;
                overflow := overflow c |} in
    (Ok {| sequenceNumber := sequenceNumber c; overflow := overflow c |}, c).

(** The lexicographic order on (overflow, sequence). *)
Definition lex_lt (a b : t) : Prop :=
  overflow a < overflow b
  \/ (overflow a = overflow b /\ sequenceNumber a < sequenceNumber b).

End CombinedSequence.

(** ** A JavaScript [Map] with number keys *)

(** Entries in insertion order, one per key: [set] on a present key
    replaces the value where it stands, on a new key appends.  The order
    is kept because the engine iterates over the keys (the order of the
    drop-responder messages). *)
Module JsMap.

Definition t (V : Type) : Type := list (Z * V).

Definition empty {V} : t V := [].

Fixpoint get {V} (m : t V) (k : Z) : option V :=
  match m with
  | [] => None
  | (k', v) :: rest => if k' =? k then Some v else get rest k
  end.

Definition has {V} (m : t V) (k : Z) : bool :=
  match get m k with Some _ => true | None => false end.

Fixpoint set {V} (m : t V) (k : Z) (v : V) : t V :=
  match m with
  | [] => [(k, v)]
  | (k', v') :: rest =>
    if k' =? k then (k', v) :: rest else (k', v') :: set rest k v
  end.

Fixpoint delete {V} (m : t V) (k : Z) : t V :=
  match m with
  | [] => []
  | (k', v') :: rest =>
    if k' =? k then rest else (k', v') :: delete rest k
  end.

Definition keys {V} (m : t V) : list Z := map fst m.

(** One entry per key. *)
Definition wf {V} (m : t V) : Prop := NoDup (keys m).

End JsMap.

(** ** The collaborators of the signaling engine

    [signaling.ts] imports cookies, nonces, key stores, boxes, message
    types, MessagePack and NaCl; none of them is among the sources.  Their
    data is modelled from the specification, and what they compute is a
    parameter of the engine ([Collaborators]). *)

(** Modelled from the spec: cookie.ts is missing.  A cookie is 16 random
    bytes, and equality is byte-wise. *)
Module Cookie.
Definition t : Type := list byte.
Definition equals (a b : t) : bool :=
  if list_eq_dec byte_eq_dec a b then true else false.
Definition asArray (c : t) : list byte := c.
End Cookie.

Module CookiePair.
Record t : Type := mk { ours : Cookie.t; theirs : Cookie.t }.
End CookiePair.

(** Modelled from the spec: nonce.ts is missing.  The fields of the 24-byte
    wire nonce: cookie, source, destination, overflow, sequence. *)
Module Nonce.
Record t : Type := mk {
  cookie : Cookie.t;
  overflow : Z;
  sequenceNumber : Z;
  source : Z;
  destination : Z
}.
End Nonce.

(** Modelled from the spec: keystore.ts is missing.  A box is the pair of a
    nonce and a ciphertext, and its wire form is nonce followed by
    ciphertext. *)
Module Box.
Record t : Type := mk { nonce : list byte; data : list byte }.
Definition toUint8Array (b : t) : list byte := nonce b ++ data b.
End Box.

(** Modelled from the spec: keystore.ts is missing.  A key store owns a
    secret key and the public key derived from it. *)
Module KeyStore.
Record t : Type := mk {
  publicKeyBytes : list byte;
  secretKeyBytes : list byte
}.
Definition publicKeyArray (k : t) : list byte := publicKeyBytes k.
End KeyStore.

(** Modelled from the spec: keystore.ts is missing.  An auth token owns a
    32-byte secret. *)
Module AuthToken.
Record t : Type := mk { keyBytes : list byte }.
End AuthToken.

(** Modelled from the spec: messages.d.ts is missing.  The message types of
    the protocol; [other_type] stands for every other string. *)
Inductive MessageType : Type :=
| T_server_hello | T_client_hello | T_client_auth | T_server_auth
| T_new_responder | T_new_initiator | T_drop_responder
| T_token | T_key | T_auth
| T_other (name : string).

(** Modelled from the spec: messages.d.ts is missing.  A decoded message
    follows the schema of its type; [Untyped] is a decoded value without a
    [type] field. *)
Inductive Message : Type :=
| ServerHello (key : list byte)
| ClientHello (key : list byte)
| ClientAuth (your_cookie : list byte)
| ServerAuth (your_cookie : list byte) (responders : option (list Z))
             (initiator_connected : option bool)
| NewResponder (id : Z)
| NewInitiator
| DropResponder (id : Z)
| Token (key : list byte)
| Key (key : list byte)
| Auth (your_cookie : list byte)
| OtherMessage (name : string)
| Untyped.

Module Msg.

(** [message.type]; [None] is [undefined]. *)
Definition type (m : Message) : option MessageType :=
  match m with
  | ServerHello _ => Some T_server_hello
  | ClientHello _ => Some T_client_hello
  | ClientAuth _ => Some T_client_auth
  | ServerAuth _ _ _ => Some T_server_auth
  | NewResponder _ => Some T_new_responder
  | NewInitiator => Some T_new_initiator
  | DropResponder _ => Some T_drop_responder
  | Token _ => Some T_token
  | Key _ => Some T_key
  | Auth _ => Some T_auth
  | OtherMessage n => Some (T_other n)
  | Untyped => None
  end.

(** [message.key]. *)
Definition key (m : Message) : option (list byte) :=
  match m with
  | ServerHello k | ClientHello k | Token k | Key k => Some k
  | _ => None
  end.

(** [message.your_cookie]. *)
Definition your_cookie (m : Message) : option (list byte) :=
  match m with
  | ClientAuth c | ServerAuth c _ _ | Auth c => Some c
  | _ => None
  end.

(** [message.type === type]. *)
Definition type_is (m : Message) (t : MessageType) : bool :=
  match type m, t with
  | Some T_server_hello, T_server_hello
  | Some T_client_hello, T_client_hello
  | Some T_client_auth, T_client_auth
  | Some T_server_auth, T_server_auth
  | Some T_new_responder, T_new_responder
  | Some T_new_initiator, T_new_initiator
  | Some T_drop_responder, T_drop_responder
  | Some T_token, T_token
  | Some T_key, T_key
  | Some T_auth, T_auth => true
  | Some (T_other a), T_other b => String.eqb a b
  | _, _ => false
  end.

End Msg.

(** [new Uint8Array(x)] of an array of numbers or [undefined] (which gives
    the empty array). *)
Definition Uint8Array_new (x : option (list byte)) : list byte :=
  match x with Some l => l | None => [] end.

(** [Uint8Array.from(x)] of an array of numbers or [undefined] (which is
    not iterable). *)
Definition Uint8Array_from (x : option (list byte)) : result (list byte) :=
  match x with
  | Some l => Ok l
  | None => Throw (TypeError "undefined is not iterable")
  end.

(** What the missing modules compute.  A [null] key is [None]. *)
Class Collaborators : Type := {
  KeyStore_encrypt :
    KeyStore.t -> list byte -> list byte -> option (list byte) -> result Box.t;
  KeyStore_decrypt :
    KeyStore.t -> Box.t -> option (list byte) -> result (list byte);
  AuthToken_encrypt : AuthToken.t -> list byte -> list byte -> result Box.t;
  AuthToken_decrypt : AuthToken.t -> Box.t -> result (list byte);
  Box_fromUint8Array : list byte -> Z -> result Box.t;
  Nonce_fromArrayBuffer : list byte -> result Nonce.t;
  Nonce_toArrayBuffer : Nonce.t -> list byte;
  Cookie_from : option (list byte) -> result Cookie.t;
  msgpack_decode : list byte -> result Message;
  msgpack_encode : Message -> list byte
}.

(** Modelled from the spec: NaCl is missing.  Both nonce lengths are 24. *)
Definition nacl_box_nonceLength : Z := 24.
Definition nacl_secretbox_nonceLength : Z := 24.

(** ** The world around the engine *)

(** The event handlers the engine registers on its WebSocket. *)
Module Listener.
Inductive t : Type :=
| onOpen | onError | onClose
| onInitServerHandshake
| onPeerHandshakeMessage
| onMessage
| recvMessageEvent_handler.

Definition eqb (a b : t) : bool :=
  match a, b with
  | onOpen, onOpen | onError, onError | onClose, onClose
  | onInitServerHandshake, onInitServerHandshake
  | onPeerHandshakeMessage, onPeerHandshakeMessage
  | onMessage, onMessage
  | recvMessageEvent_handler, recvMessageEvent_handler => true
  | _, _ => false
  end.
End Listener.

(** A WebSocket object: the listeners registered on it per event type,
    the frames handed to [send], and whether [close()] was called. *)
Module WebSocket.
Record t : Type := mk {
  listeners : list (string * Listener.t);
  sent : list (list byte);
  closed : bool
}.

Definition fresh : t := {| listeners := []; sent := []; closed := false |}.

Definition addEventListener (w : t) (type : string) (l : Listener.t) : t :=
  {| listeners :=
       if existsb (fun e => String.eqb (fst e) type && Listener.eqb (snd e) l)
                  (listeners w)
       then listeners w else listeners w ++ [(type, l)];
     sent := sent w; closed := closed w |}.

Definition removeEventListener (w : t) (type : string) (l : Listener.t) : t :=
  {| listeners :=
       filter (fun e => negb (String.eqb (fst e) type && Listener.eqb (snd e) l))
              (listeners w);
     sent := sent w; closed := closed w |}.

Definition send (w : t) (packet : list byte) : t :=
  {| listeners := listeners w; sent := sent w ++ [packet];
     closed := closed w |}.

Definition close (w : t) : t :=
  {| listeners := listeners w; sent := sent w; closed := true |}.

(** Whether a [message] event would reach listener [l]. *)
Definition handles (w : t) (l : Listener.t) : bool :=
  existsb (fun e => String.eqb (fst e) "message" && Listener.eqb (snd e) l)
          (listeners w).
End WebSocket.

(** The store of WebSocket objects by reference, the random sources with
    the number of draws made from each, and the calls the client has
    received. *)
Module World.
Record t : Type := mk {
  sockets : nat -> WebSocket.t;
  nextSocket : nat;
  uint32s : nat -> Z;
  uint32sDrawn : nat;
  cookies : nat -> Cookie.t;
  cookiesDrawn : nat;
  keyStores : nat -> KeyStore.t;
  keyStoresDrawn : nat;
  onConnectedCalls : nat
}.

Definition set_socket (w : t) (ref : nat) (s : WebSocket.t) : t :=
  {| sockets := fun r => if Nat.eqb r ref then s else sockets w r;
     nextSocket := nextSocket w;
     uint32s := uint32s w; uint32sDrawn := uint32sDrawn w;
     cookies := cookies w; cookiesDrawn := cookiesDrawn w;
     keyStores := keyStores w; keyStoresDrawn := keyStoresDrawn w;
     onConnectedCalls := onConnectedCalls w |}.

(** [new WebSocket(url, protocol)]. *)
Definition new_WebSocket (w : t) : nat * t :=
  (nextSocket w,
   {| sockets := fun r => if Nat.eqb r (nextSocket w) then WebSocket.fresh
                          else sockets w r;
      nextSocket := S (nextSocket w);
      uint32s := uint32s w; uint32sDrawn := uint32sDrawn w;
      cookies := cookies w; cookiesDrawn := cookiesDrawn w;
      keyStores := keyStores w; keyStoresDrawn := keyStoresDrawn w;
      onConnectedCalls := onConnectedCalls w |}).

(** [randomUint32()]. *)
Definition randomUint32 (w : t) : Z * t :=
  (uint32s w (uint32sDrawn w),
   {| sockets := sockets w; nextSocket := nextSocket w;
      uint32s := uint32s w; uint32sDrawn := S (uint32sDrawn w);
      cookies := cookies w; cookiesDrawn := cookiesDrawn w;
      keyStores := keyStores w; keyStoresDrawn := keyStoresDrawn w;
      onConnectedCalls := onConnectedCalls w |}).

(** [new Cookie()]. *)
Definition new_Cookie (w : t) : Cookie.t * t :=
  (cookies w (cookiesDrawn w),
   {| sockets := sockets w; nextSocket := nextSocket w;
      uint32s := uint32s w; uint32sDrawn := uint32sDrawn w;
      cookies := cookies w; cookiesDrawn := S (cookiesDrawn w);
      keyStores := keyStores w; keyStoresDrawn := keyStoresDrawn w;
      onConnectedCalls := onConnectedCalls w |}).

(** [new KeyStore()]. *)
Definition new_KeyStore (w : t) : KeyStore.t * t :=
  (keyStores w (keyStoresDrawn w),
   {| sockets := sockets w; nextSocket := nextSocket w;
      uint32s := uint32s w; uint32sDrawn := uint32sDrawn w;
      cookies := cookies w; cookiesDrawn := cookiesDrawn w;
      keyStores := keyStores w; keyStoresDrawn := S (keyStoresDrawn w);
      onConnectedCalls := onConnectedCalls w |}).

(** [this.client.onConnected()]. *)
Definition onConnected (w : t) : t :=
  {| sockets := sockets w; nextSocket := nextSocket w;
     uint32s := uint32s w; uint32sDrawn := uint32sDrawn w;
     cookies := cookies w; cookiesDrawn := cookiesDrawn w;
     keyStores := keyStores w; keyStoresDrawn := keyStoresDrawn w;
     onConnectedCalls := S (onConnectedCalls w) |}.

(** [new CombinedSequence()]. *)
Definition new_CombinedSequence (w : t) : CombinedSequence.t * t :=
  let (r, w) := randomUint32 w in (CombinedSequence.new r, w).
End World.

(** ** Methods that change their object

    A method runs on a state and leaves it changed also when it throws. *)

Definition M (S A : Type) : Type := S -> result A * S.

Definition ret {S A} (a : A) : M S A := fun s => (Ok a, s).

Definition throw {S A} (e : exn) : M S A := fun s => (Throw e, s).

Definition mbind {S A B} (m : M S A) (k : A -> M S B) : M S B :=
  fun s =>
    match m s with
    | (Ok a, s') => k a s'
    | (Throw e, s') => (Throw e, s')
    end.

Notation "x <-- m ;; k" := (mbind m (fun x => k))
  (at level 61, m at next level, right associativity).

(** A call into a collaborator. *)
Definition call {S A} (r : result A) : M S A :=
  match r with Ok a => ret a | Throw e => throw e end.

(** Dereference something that may be [null] or [undefined]. *)
Definition deref {S A} (x : option A) (what : string) : M S A :=
  match x with
  | Some a => ret a
  | None => throw (TypeError what)
  end.

Definition when {S} (b : bool) (m : M S unit) : M S unit :=
  if b then m else ret tt.

(** ** Responder *)

Module Responder.

Inductive State : Type := new | token_received | key_received.

Record t : Type := mk {
  id : Z;
  permanentKey : option (list byte);
  sessionKey : option (list byte);
  keyStore : KeyStore.t;
  state : State;
  combinedSequence : CombinedSequence.t
}.

(** [new Responder(id)]: the field initialisers draw a key store, then a
    combined sequence. *)
Definition create (id : Z) (w : World.t) : t * World.t :=
  let (ks, w) := World.new_KeyStore w in
  let (cs, w) := World.new_CombinedSequence w in
  ({| id := id; permanentKey := None; sessionKey := None;
      keyStore := ks; state := new; combinedSequence := cs |}, w).

Definition set_permanentKey (r : t) (k : list byte) : t :=
  {| id := id r; permanentKey := Some k; sessionKey := sessionKey r;
     keyStore := keyStore r; state := state r;
     combinedSequence := combinedSequence r |}.

Definition set_sessionKey (r : t) (k : list byte) : t :=
  {| id := id r; permanentKey := permanentKey r; sessionKey := Some k;
     keyStore := keyStore r; state := state r;
     combinedSequence := combinedSequence r |}.

Definition set_state (r : t) (s : State) : t :=
  {| id := id r; permanentKey := permanentKey r;
     sessionKey := sessionKey r; keyStore := keyStore r; state := s;
     combinedSequence := combinedSequence r |}.

End Responder.

(** ** Signaling *)

Module Signaling.

Definition SALTYRTC_ADDR_UNKNOWN : Z := 0x00.
Definition SALTYRTC_ADDR_SERVER : Z := 0x00.
Definition SALTYRTC_ADDR_INITIATOR : Z := 0x01.

Inductive State : Type :=
| new | ws_connecting | server_handshake | peer_handshake
| open | closing | closed.

Inductive Role : Type := role_initiator | role_responder.

Inductive InitiatorHandshakeState : Type :=
| ihs_new | token_sent | key_sent | auth_received.

(** The fields of the engine.  The fields that only feed the log and the
    URL ([host], [port], [protocol], [logTag]) and the references to the
    client objects are left out; [ws] is a reference into the store of
    WebSocket objects, and [None] is [null]. *)
Record t : Type := mk {
  ws : option nat;
  state : State;
  serverKey : option (list byte);
  permanentKey : KeyStore.t;
  sessionKey : option KeyStore.t;
  authToken : AuthToken.t;
  role : Role;
  address : Z;
  cookiePair : option CookiePair.t;
  serverCombinedSequence : CombinedSequence.t;
  responders : option (JsMap.t Responder.t);
  responder : option Responder.t;
  initiatorPermanentKey : option (list byte);
  initiatorSessionKey : option (list byte);
  initiatorConnected : option bool;
  initiatorHandshakeState : option InitiatorHandshakeState;
  initiatorCombinedSequence : CombinedSequence.t
}.

Definition set_ws (s : t) (x : option nat) : t :=
  mk x (state s) (serverKey s) (permanentKey s) (sessionKey s)
     (authToken s) (role s) (address s) (cookiePair s)
     (serverCombinedSequence s) (responders s) (responder s)
     (initiatorPermanentKey s) (initiatorSessionKey s)
     (initiatorConnected s) (initiatorHandshakeState s)
     (initiatorCombinedSequence s).

Definition set_state (s : t) (x : State) : t :=
  mk (ws s) x (serverKey s) (permanentKey s) (sessionKey s)
     (authToken s) (role s) (address s) (cookiePair s)
     (serverCombinedSequence s) (responders s) (responder s)
     (initiatorPermanentKey s) (initiatorSessionKey s)
     (initiatorConnected s) (initiatorHandshakeState s)
     (initiatorCombinedSequence s).

Definition set_serverKey (s : t) (x : option (list byte)) : t :=
  mk (ws s) (state s) x (permanentKey s) (sessionKey s)
     (authToken s) (role s) (address s) (cookiePair s)
     (serverCombinedSequence s) (responders s) (responder s)
     (initiatorPermanentKey s) (initiatorSessionKey s)
     (initiatorConnected s) (initiatorHandshakeState s)
     (initiatorCombinedSequence s).

Definition set_sessionKey (s : t) (x : option KeyStore.t) : t :=
  mk (ws s) (state s) (serverKey s) (permanentKey s) x
     (authToken s) (role s) (address s) (cookiePair s)
     (serverCombinedSequence s) (responders s) (responder s)
     (initiatorPermanentKey s) (initiatorSessionKey s)
     (initiatorConnected s) (initiatorHandshakeState s)
     (initiatorCombinedSequence s).

Definition set_address (s : t) (x : Z) : t :=
  mk (ws s) (state s) (serverKey s) (permanentKey s) (sessionKey s)
     (authToken s) (role s) x (cookiePair s)
     (serverCombinedSequence s) (responders s) (responder s)
     (initiatorPermanentKey s) (initiatorSessionKey s)
     (initiatorConnected s) (initiatorHandshakeState s)
     (initiatorCombinedSequence s).

Definition set_cookiePair (s : t) (x : option CookiePair.t) : t :=
  mk (ws s) (state s) (serverKey s) (permanentKey s) (sessionKey s)
     (authToken s) (role s) (address s) x
     (serverCombinedSequence s) (responders s) (responder s)
     (initiatorPermanentKey s) (initiatorSessionKey s)
     (initiatorConnected s) (initiatorHandshakeState s)
     (initiatorCombinedSequence s).

Definition set_serverCombinedSequence (s : t) (x : CombinedSequence.t) : t :=
  mk (ws s) (state s) (serverKey s) (permanentKey s) (sessionKey s)
     (authToken s) (role s) (address s) (cookiePair s)
     x (responders s) (responder s)
     (initiatorPermanentKey s) (initiatorSessionKey s)
     (initiatorConnected s) (initiatorHandshakeState s)
     (initiatorCombinedSequence s).

Definition set_responders (s : t) (x : option (JsMap.t Responder.t)) : t :=
  mk (ws s) (state s) (serverKey s) (permanentKey s) (sessionKey s)
     (authToken s) (role s) (address s) (cookiePair s)
     (serverCombinedSequence s) x (responder s)
     (initiatorPermanentKey s) (initiatorSessionKey s)
     (initiatorConnected s) (initiatorHandshakeState s)
     (initiatorCombinedSequence s).

Definition set_responder (s : t) (x : option Responder.t) : t :=
  mk (ws s) (state s) (serverKey s) (permanentKey s) (sessionKey s)
     (authToken s) (role s) (address s) (cookiePair s)
     (serverCombinedSequence s) (responders s) x
     (initiatorPermanentKey s) (initiatorSessionKey s)
     (initiatorConnected s) (initiatorHandshakeState s)
     (initiatorCombinedSequence s).

Definition set_initiatorSessionKey (s : t) (x : option (list byte)) : t :=
  mk (ws s) (state s) (serverKey s) (permanentKey s) (sessionKey s)
     (authToken s) (role s) (address s) (cookiePair s)
     (serverCombinedSequence s) (responders s) (responder s)
     (initiatorPermanentKey s) x
     (initiatorConnected s) (initiatorHandshakeState s)
     (initiatorCombinedSequence s).

Definition set_initiatorConnected (s : t) (x : option bool) : t :=
  mk (ws s) (state s) (serverKey s) (permanentKey s) (sessionKey s)
     (authToken s) (role s) (address s) (cookiePair s)
     (serverCombinedSequence s) (responders s) (responder s)
     (initiatorPermanentKey s) (initiatorSessionKey s)
     x (initiatorHandshakeState s)
     (initiatorCombinedSequence s).

Definition set_initiatorHandshakeState (s : t)
           (x : option InitiatorHandshakeState) : t :=
  mk (ws s) (state s) (serverKey s) (permanentKey s) (sessionKey s)
     (authToken s) (role s) (address s) (cookiePair s)
     (serverCombinedSequence s) (responders s) (responder s)
     (initiatorPermanentKey s) (initiatorSessionKey s)
     (initiatorConnected s) x
     (initiatorCombinedSequence s).

Definition set_initiatorCombinedSequence (s : t) (x : CombinedSequence.t) : t :=
  mk (ws s) (state s) (serverKey s) (permanentKey s) (sessionKey s)
     (authToken s) (role s) (address s) (cookiePair s)
     (serverCombinedSequence s) (responders s) (responder s)
     (initiatorPermanentKey s) (initiatorSessionKey s)
     (initiatorConnected s) (initiatorHandshakeState s)
     x.

(** The constructor.  [peer] holds [initiatorPubKey] and [authToken] when
    both are given (the engine is then a responder); [ownAuthToken] is the
    token that the field initialiser [new AuthToken()] creates.  The field
    initialisers draw the server and the initiator combined sequence, in
    this order. *)
Definition create (permanentKey : KeyStore.t)
           (peer : option (list byte * AuthToken.t))
           (ownAuthToken : AuthToken.t) (w : World.t) : t * World.t :=
  let (scs, w) := World.new_CombinedSequence w in
  let (ics, w) := World.new_CombinedSequence w in
  ({| ws := None; state := new; serverKey := None;
      permanentKey := permanentKey; sessionKey := None;
      authToken := match peer with
                   | Some (_, authToken) => authToken
                   | None => ownAuthToken
                   end;
      role := match peer with
              | Some _ => role_responder
              | None => role_initiator
              end;
      address := SALTYRTC_ADDR_UNKNOWN;
      cookiePair := None;
      serverCombinedSequence := scs;
      responders := None; responder := None;
      initiatorPermanentKey := match peer with
                               | Some (initiatorPubKey, _) => Some initiatorPubKey
                               | None => None
                               end;
      initiatorSessionKey := None;
      initiatorConnected := None;
      initiatorHandshakeState := None;
      initiatorCombinedSequence := ics |}, w).

(** The engine object in its world. *)
Record Sys : Type := mkSys { this : t; world : World.t }.

(** Read the engine. *)
Definition self : M Sys t := fun s => (Ok (this s), s).

(** Assign to a field of the engine. *)
Definition assign (f : t -> t) : M Sys unit :=
  fun s => (Ok tt, {| this := f (this s); world := world s |}).

(** Draw from the world. *)
Definition draw {A} (f : World.t -> A * World.t) : M Sys A :=
  fun s =>
    let (a, w) := f (world s) in (Ok a, {| this := this s; world := w |}).

(** Act on the world. *)
Definition act (f : World.t -> World.t) : M Sys unit :=
  fun s => (Ok tt, {| this := this s; world := f (world s) |}).

(** [this.ws.<method>(...)]. *)
Definition on_ws (f : WebSocket.t -> WebSocket.t) : M Sys unit :=
  s <-- self ;;
  ref <-- deref (ws s) "this.ws is null" ;;
  act (fun w => World.set_socket w ref (f (World.sockets w ref))).

(** [this.ws.send(packet)]. *)
Definition ws_send (packet : list byte) : M Sys unit :=
  on_ws (fun w => WebSocket.send w packet).

Section Methods.

Context {E : Collaborators}.

(** [connect()] is [resetConnection(); initWebsocket()], below. *)

(** [initWebsocket()] (the URL is left out). *)
Definition initWebsocket : M Sys unit :=
  ref <-- draw World.new_WebSocket ;;
  _ <-- assign (fun s => set_ws s (Some ref)) ;;
  (* Set event handlers *)
  _ <-- on_ws (fun w => WebSocket.addEventListener w "open" Listener.onOpen) ;;
  _ <-- on_ws (fun w => WebSocket.addEventListener w "error" Listener.onError) ;;
  _ <-- on_ws (fun w => WebSocket.addEventListener w "close" Listener.onClose) ;;
  _ <-- on_ws (fun w => WebSocket.addEventListener w "message"
                          Listener.onInitServerHandshake) ;;
  (* Store connection on instance *)
  assign (fun s => set_state s ws_connecting).

(** [validateNonce(nonce, destination?, source?)]; [None] is an
    argument left [undefined]. *)
Definition validateNonce (nonce : Nonce.t) (destination source : option Z)
  : M Sys unit :=
  (* Validate destination *)
  _ <-- match destination with
        | Some d =>
          when (negb (Nonce.destination nonce =? d))
               (throw (Thrown "bad-nonce-destination"))
        | None => ret tt
        end ;;
  (* Validate source *)
  match source with
  | Some src =>
    when (negb (Nonce.source nonce =? src))
         (throw (Thrown "bad-nonce-source"))
  | None => ret tt
  end.

(** [decodeMessage(data, type?)]. *)
Definition decodeMessage (data : list byte) (type : option MessageType)
  : M Sys Message :=
  (* Decode *)
  msg <-- call (msgpack_decode data) ;;
  match Msg.type msg with
  | None => throw (Thrown "bad-message")
  | Some _ =>
    (* Validate type *)
    match type with
    | Some t =>
      if negb (Msg.type_is msg t) then throw (Thrown "bad-message-type")
      else ret msg
    | None => ret msg
    end
  end.

(** [this.serverCombinedSequence.next()]. *)
Definition serverCombinedSequence_next : M Sys CombinedSequence.t :=
  fun s =>
    let (r, c) := CombinedSequence.next (serverCombinedSequence (this s)) in
    (r, {| this := set_serverCombinedSequence (this s) c;
           world := world s |}).

(** [this.initiatorCombinedSequence.next()]. *)
Definition initiatorCombinedSequence_next : M Sys CombinedSequence.t :=
  fun s =>
    let (r, c) := CombinedSequence.next (initiatorCombinedSequence (this s)) in
    (r, {| this := set_initiatorCombinedSequence (this s) c;
           world := world s |}).

(** [this.responders.get(receiver)], dereferenced. *)
Definition responders_get (receiver : Z) : M Sys Responder.t :=
  s <-- self ;;
  rs <-- deref (responders s) "this.responders is null" ;;
  deref (JsMap.get rs receiver) "this.responders.get(...) is undefined".

Definition is_responder_address (a : Z) : bool :=
  (a >=? 0x02) && (a <=? 0xff).

(** The first half of [buildPacket]: choose proper sequence number. *)
Definition buildPacket_csn (receiver : Z) : M Sys CombinedSequence.t :=
  if receiver =? SALTYRTC_ADDR_SERVER then
    serverCombinedSequence_next
  else if receiver =? SALTYRTC_ADDR_INITIATOR then
    initiatorCombinedSequence_next
  else if is_responder_address receiver then
    r <-- responders_get receiver ;;
    ret (Responder.combinedSequence r)
  else
    throw (Thrown "bad-receiver").

(** The nonce that [buildPacket] creates from the sequence number. *)
Definition buildPacket_nonce (csn : CombinedSequence.t) (receiver : Z)
  : M Sys Nonce.t :=
  s <-- self ;;
  cp <-- deref (cookiePair s) "this.cookiePair is null" ;;
  ret (Nonce.mk (CookiePair.ours cp) (CombinedSequence.overflow csn)
                (CombinedSequence.sequenceNumber csn) (address s) receiver).

(** The encryption step of [buildPacket]. *)
Definition buildPacket_box (message : Message) (receiver : Z)
           (data nonceBytes : list byte) : M Sys Box.t :=
  s <-- self ;;
  if receiver =? SALTYRTC_ADDR_SERVER then
    call (KeyStore_encrypt (permanentKey s) data nonceBytes (serverKey s))
  else if receiver =? SALTYRTC_ADDR_INITIATOR then
    if Msg.type_is message T_token then
      call (AuthToken_encrypt (authToken s) data nonceBytes)
    else if Msg.type_is message T_key then
      call (KeyStore_encrypt (permanentKey s) data nonceBytes
                             (initiatorPermanentKey s))
    else
      ks <-- deref (sessionKey s) "this.sessionKey is null" ;;
      call (KeyStore_encrypt ks data nonceBytes (initiatorSessionKey s))
  else if is_responder_address receiver then
    responder <-- responders_get receiver ;;
    if Msg.type_is message T_key then
      call (KeyStore_encrypt (permanentKey s) data nonceBytes
                             (Responder.permanentKey responder))
    else
      call (KeyStore_encrypt (Responder.keyStore responder) data nonceBytes
                             (Responder.sessionKey responder))
  else
    throw (Thrown "bad-receiver").

(** [buildPacket(message, receiver, encrypt)]. *)
Definition buildPacket (message : Message) (receiver : Z) (encrypt : bool)
  : M Sys (list byte) :=
  (* Choose proper sequence number *)
  csn <-- buildPacket_csn receiver ;;
  (* Create nonce *)
  nonce <-- buildPacket_nonce csn receiver ;;
  let nonceBytes := Nonce_toArrayBuffer nonce in
  (* Encode message *)
  let data := msgpack_encode message in
  (* Encrypt if desired *)
  if encrypt then
    box <-- buildPacket_box message receiver data nonceBytes ;;
    ret (Box.toUint8Array box)
  else
    ret (nonceBytes ++ data).

(** [resetConnection()]. *)
Definition resetConnection : M Sys unit :=
  _ <-- assign (fun s => set_state s new) ;;
  cs <-- draw World.new_CombinedSequence ;;
  _ <-- assign (fun s => set_serverCombinedSequence s cs) ;;
  (* Close WebSocket instance *)
  s <-- self ;;
  _ <-- match ws s with
        | Some _ => on_ws WebSocket.close
        | None => ret tt
        end ;;
  assign (fun s => set_ws s None).

(** [connect()]. *)
Definition connect : M Sys unit :=
  _ <-- resetConnection ;;
  initWebsocket.

(** [sendToken()]. *)
Definition sendToken : M Sys unit :=
  s <-- self ;;
  let message := Token (KeyStore.publicKeyArray (permanentKey s)) in
  packet <-- buildPacket message SALTYRTC_ADDR_INITIATOR true ;;
  s <-- self ;;
  _ <-- match role s with
        | role_responder =>
          assign (fun s => set_initiatorHandshakeState s (Some token_sent))
        | role_initiator => ret tt
        end ;;
  ws_send packet.

(** *** [onPeerHandshakeMessage] and its local functions *)

(** The local function [abort]. *)
Definition abort {A} : M Sys A :=
  _ <-- on_ws (fun w => WebSocket.removeEventListener w "message"
                          Listener.onPeerHandshakeMessage) ;;
  _ <-- resetConnection ;;
  throw (Error "Aborting due to a protocol error").

(** What the local function [decrypt] is given as [keyStore]: a key
    store (or [null]) with the other key, or an auth token. *)
Inductive Decryptor : Type :=
| with_KeyStore (keyStore : option KeyStore.t) (otherKey : option (list byte))
| with_AuthToken (authToken : AuthToken.t).

(** [keyStore.decrypt(box, otherKey)]. *)
Definition Decryptor_decrypt (k : Decryptor) (box : Box.t)
  : result (list byte) :=
  match k with
  | with_KeyStore (Some ks) otherKey => KeyStore_decrypt ks box otherKey
  | with_KeyStore None _ => Throw (TypeError "keyStore is null")
  | with_AuthToken a => AuthToken_decrypt a box
  end.

(** [err === 'decryption-failed']. *)
Definition is_decryption_failed (err : exn) : bool :=
  match err with
  | Thrown v => String.eqb v "decryption-failed"
  | _ => false
  end.

(** The local function [decrypt]. *)
Definition decrypt (box : Box.t) (k : Decryptor) : M Sys (list byte) :=
  match Decryptor_decrypt k box with
  | Ok plain => ret plain
  | Throw err =>
    if is_decryption_failed err then abort else throw err
  end.

(** The local function [assertType]. *)
Definition assertType (message : Message) (type : MessageType)
  : M Sys unit :=
  when (negb (Msg.type_is message type)) abort.

(** [responder.<field> = ...] on the responder object that
    [this.responders] holds under [key]. *)
Definition responder_assign (key : Z) (f : Responder.t -> Responder.t)
  : M Sys unit :=
  assign (fun s =>
    match responders s with
    | Some rs =>
      match JsMap.get rs key with
      | Some r => set_responders s (Some (JsMap.set rs key (f r)))
      | None => s
      end
    | None => s
    end).

(** The branch for [unsafeNonce.source === SALTYRTC_ADDR_SERVER]. *)
Definition onPeerHandshakeMessage_server (bytes : list byte) : M Sys unit :=
  (* Decrypt message *)
  box <-- call (Box_fromUint8Array bytes nacl_box_nonceLength) ;;
  s <-- self ;;
  decrypted <-- call (KeyStore_decrypt (permanentKey s) box (serverKey s)) ;;
  (* Decode message *)
  message <-- decodeMessage decrypted None ;;
  match message with
  | NewResponder id =>
    (* A new responder wants to connect. Store id. *)
    s <-- self ;;
    rs <-- deref (responders s) "this.responders is null" ;;
    if negb (JsMap.has rs id) then
      r <-- draw (Responder.create id) ;;
      assign (fun s => set_responders s (Some (JsMap.set rs id r)))
    else ret tt
  | NewInitiator =>
    (* A new initiator connected. *)
    _ <-- assign (fun s => set_initiatorConnected s (Some true)) ;;
    sendToken
  | _ => ret tt
  end.

(** The branch for [unsafeNonce.source === SALTYRTC_ADDR_INITIATOR]. *)
Definition onPeerHandshakeMessage_initiator (bytes : list byte)
  : M Sys unit :=
  (* We're the responder. *)
  s <-- self ;;
  _ <-- match role s with
        | role_responder => ret tt
        | role_initiator => abort
        end ;;
  (* Construct a box *)
  box <-- call (Box_fromUint8Array bytes nacl_box_nonceLength) ;;
  (* Decrypt. The 'key' messages are encrypted with a different key
     than the rest. *)
  s <-- self ;;
  decrypted <--
    match initiatorHandshakeState s with
    | Some token_sent =>
      decrypt box (with_KeyStore (Some (permanentKey s))
                                 (initiatorPermanentKey s))
    | _ =>
      decrypt box (with_KeyStore (sessionKey s) (initiatorSessionKey s))
    end ;;
  (* Get nonce *)
  nonce <-- call (Nonce_fromArrayBuffer (Box.nonce box)) ;;
  (* Decode message *)
  message <-- decodeMessage decrypted None ;;
  s <-- self ;;
  match initiatorHandshakeState s with
  | Some token_sent =>
    _ <-- assertType message T_key ;;
    (* We got a public session key from the initiator. Store... *)
    _ <-- assign (fun s => set_initiatorSessionKey s
                             (Some (Uint8Array_new (Msg.key message)))) ;;
    (* ...and reply with our own session key. *)
    ks <-- draw World.new_KeyStore ;;
    _ <-- assign (fun s => set_sessionKey s (Some ks)) ;;
    let replyMessage := Key (KeyStore.publicKeyArray ks) in
    packet <-- buildPacket replyMessage SALTYRTC_ADDR_INITIATOR true ;;
    _ <-- ws_send packet ;;
    assign (fun s => set_initiatorHandshakeState s (Some key_sent))
  | Some key_sent =>
    _ <-- assertType message T_auth ;;
    (* Verify the cookie *)
    cookie <-- call (Cookie_from (Msg.your_cookie message)) ;;
    s <-- self ;;
    cp <-- deref (cookiePair s) "this.cookiePair is null" ;;
    _ <-- when (negb (Cookie.equals cookie (CookiePair.ours cp))) abort ;;
    (* Deregister handshake *)
    _ <-- on_ws (fun w => WebSocket.removeEventListener w "message"
                            Listener.onPeerHandshakeMessage) ;;
    _ <-- on_ws (fun w => WebSocket.addEventListener w "message"
                            Listener.onMessage) ;;
    (* Update state *)
    _ <-- assign (fun s => set_initiatorHandshakeState s
                             (Some auth_received)) ;;
    (* Ensure that cookies are different *)
    s <-- self ;;
    cp <-- deref (cookiePair s) "this.cookiePair is null" ;;
    _ <-- when (Cookie.equals (Nonce.cookie nonce) (CookiePair.ours cp))
               abort ;;
    (* Respond with our own auth message *)
    let replyMessage := Auth (Cookie.asArray (Nonce.cookie nonce)) in
    packet <-- buildPacket replyMessage SALTYRTC_ADDR_INITIATOR true ;;
    _ <-- ws_send packet ;;
    (* We're connected! *)
    _ <-- assign (fun s => set_state s open) ;;
    act World.onConnected
  | _ => ret tt
  end.

(** The loop [for (let id of this.responders.keys())] that drops the
    other responders.  Each turn deletes only the key it is at, so the
    live iterator visits the keys that the map holds when the loop
    starts, in their order. *)
Fixpoint dropResponders (ids : list Z) : M Sys unit :=
  match ids with
  | [] => ret tt
  | id :: rest =>
    let message := DropResponder id in
    packet <-- buildPacket message SALTYRTC_ADDR_SERVER true ;;
    _ <-- ws_send packet ;;
    s <-- self ;;
    rs <-- deref (responders s) "this.responders is null" ;;
    _ <-- assign (fun s => set_responders s (Some (JsMap.delete rs id))) ;;
    dropResponders rest
  end.

(** The branch for a source in [0x02, 0xff]. *)
Definition onPeerHandshakeMessage_responder (bytes : list byte)
           (unsafeNonce : Nonce.t) : M Sys unit :=
  (* We're the initiator. *)
  s <-- self ;;
  _ <-- match role s with
        | role_initiator => ret tt
        | role_responder => abort
        end ;;
  (* Get responder *)
  s <-- self ;;
  rs <-- deref (responders s) "this.responders is null" ;;
  match JsMap.get rs (Nonce.source unsafeNonce) with
  | None => ret tt
  | Some responder =>
    let key := Nonce.source unsafeNonce in
    match Responder.state responder with
    | Responder.new =>
      (* We expect a 'token' message, encrypted with the
         authentication token. *)
      box <-- call (Box_fromUint8Array bytes nacl_secretbox_nonceLength) ;;
      s <-- self ;;
      decrypted <-- decrypt box (with_AuthToken (authToken s)) ;;
      message <-- decodeMessage decrypted None ;;
      _ <-- assertType message T_token ;;
      (* Store responder permanent key *)
      k <-- call (Uint8Array_from (Msg.key message)) ;;
      _ <-- responder_assign key (fun r => Responder.set_permanentKey r k) ;;
      _ <-- responder_assign key
              (fun r => Responder.set_state r Responder.token_received) ;;
      (* Send key *)
      let message := Key (KeyStore.publicKeyArray
                            (Responder.keyStore responder)) in
      packet <-- buildPacket message (Responder.id responder) true ;;
      ws_send packet
    | Responder.token_received =>
      (* We expect a 'key' message, encrypted with our permanent key. *)
      box <-- call (Box_fromUint8Array bytes nacl_box_nonceLength) ;;
      s <-- self ;;
      decrypted <-- decrypt box (with_KeyStore (Some (permanentKey s))
                                   (Responder.permanentKey responder)) ;;
      message <-- decodeMessage decrypted None ;;
      _ <-- assertType message T_key ;;
      (* Store responder session key *)
      k <-- call (Uint8Array_from (Msg.key message)) ;;
      _ <-- responder_assign key (fun r => Responder.set_sessionKey r k) ;;
      _ <-- responder_assign key
              (fun r => Responder.set_state r Responder.key_received) ;;
      (* Ensure that cookies are different *)
      let nonce := unsafeNonce in
      s <-- self ;;
      cp <-- deref (cookiePair s) "this.cookiePair is null" ;;
      _ <-- when (Cookie.equals (Nonce.cookie nonce) (CookiePair.ours cp))
                 abort ;;
      (* Send auth *)
      let message := Auth (Cookie.asArray (Nonce.cookie nonce)) in
      packet <-- buildPacket message (Responder.id responder) true ;;
      ws_send packet
    | Responder.key_received =>
      (* We expect a 'auth' message, encrypted with our session key. *)
      box <-- call (Box_fromUint8Array bytes nacl_box_nonceLength) ;;
      decrypted <-- decrypt box
                      (with_KeyStore (Some (Responder.keyStore responder))
                                     (Responder.sessionKey responder)) ;;
      message <-- decodeMessage decrypted None ;;
      _ <-- assertType message T_auth ;;
      (* Verify the cookie *)
      cookie <-- call (Cookie_from (Msg.your_cookie message)) ;;
      s <-- self ;;
      cp <-- deref (cookiePair s) "this.cookiePair is null" ;;
      _ <-- when (negb (Cookie.equals cookie (CookiePair.ours cp))) abort ;;
      (* Store responder id and session key *)
      let nonce := unsafeNonce in
      s <-- self ;;
      rs <-- deref (responders s) "this.responders is null" ;;
      _ <-- assign (fun s => set_responder s
                               (JsMap.get rs (Nonce.source nonce))) ;;
      _ <-- assign (fun s => set_responders s
                               (Some (JsMap.delete rs (Nonce.source nonce)))) ;;
      _ <-- assign (fun s => set_sessionKey s
                               (Some (Responder.keyStore responder))) ;;
      (* Drop all other responders *)
      s <-- self ;;
      rs <-- deref (responders s) "this.responders is null" ;;
      _ <-- dropResponders (JsMap.keys rs) ;;
      (* Deregister handshake *)
      _ <-- on_ws (fun w => WebSocket.removeEventListener w "message"
                              Listener.onPeerHandshakeMessage) ;;
      _ <-- on_ws (fun w => WebSocket.addEventListener w "message"
                              Listener.onMessage) ;;
      (* We're connected! *)
      _ <-- assign (fun s => set_state s open) ;;
      act World.onConnected
    end
  end.

(** [onPeerHandshakeMessage(ev)], given [ev.data]. *)
Definition onPeerHandshakeMessage (buffer : list byte) : M Sys unit :=
  let bytes := buffer in
  (* Peek at nonce. *)
  unsafeNonce <-- call (Nonce_fromArrayBuffer (firstn 24 buffer)) ;;
  s <-- self ;;
  _ <-- validateNonce unsafeNonce (Some (address s)) None ;;
  (* Dispatch messages according to source. *)
  if Nonce.source unsafeNonce =? SALTYRTC_ADDR_SERVER then
    onPeerHandshakeMessage_server bytes
  else if Nonce.source unsafeNonce =? SALTYRTC_ADDR_INITIATOR then
    onPeerHandshakeMessage_initiator bytes
  else if is_responder_address (Nonce.source unsafeNonce) then
    onPeerHandshakeMessage_responder bytes unsafeNonce
  else
    abort.

(** *** [serverHandshake] and [onInitServerHandshake] *)

(** [serverHandshake], the block that processes server-hello, up to
    the cookie loop: the nonce of the packet. *)
Definition serverHandshake_serverHello (buffer : list byte)
  : M Sys Nonce.t :=
  (* First packet is unencrypted. Decode it directly. *)
  nonce <-- call (Nonce_fromArrayBuffer (firstn 24 buffer)) ;;
  let payload := skipn 24 buffer in
  serverHello <-- call (msgpack_decode payload) ;;
  (* Validate nonce *)
  s <-- self ;;
  _ <-- validateNonce nonce (Some (address s)) (Some 0x00) ;;
  (* Validate data *)
  _ <-- when (negb (Msg.type_is serverHello T_server_hello))
             (throw (Thrown "bad-message-type")) ;;
  (* Store server public key *)
  _ <-- assign (fun s => set_serverKey s
                           (Some (Uint8Array_new (Msg.key serverHello)))) ;;
  ret nonce.

(** The loop [do { cookie = new Cookie(); } while
    (cookie.equals(nonce.cookie))], for at most [fuel] draws: [None]
    when the loop is still running then. *)
Fixpoint generateCookie (fuel : nat) (theirs : Cookie.t) (w : World.t)
  : option (Cookie.t * World.t) :=
  match fuel with
  | O => None
  | S fuel' =>
    let (cookie, w') := World.new_Cookie w in
    if Cookie.equals cookie theirs then generateCookie fuel' theirs w'
    else Some (cookie, w')
  end.

(** [serverHandshake] from the assignment of [this.cookiePair] up to
    the [await]: client-hello, client-auth, and the handler that
    [recvMessageEvent] registers. *)
Definition serverHandshake_clientAuth (cookie : Cookie.t) (nonce : Nonce.t)
  : M Sys unit :=
  _ <-- assign (fun s => set_cookiePair s
                           (Some (CookiePair.mk cookie (Nonce.cookie nonce)))) ;;
  (* In the case of the responder, send client-hello *)
  s <-- self ;;
  _ <-- match role s with
        | role_responder =>
          let message := ClientHello (KeyStore.publicKeyArray (permanentKey s)) in
          packet <-- buildPacket message SALTYRTC_ADDR_SERVER false ;;
          ws_send packet
        | role_initiator => ret tt
        end ;;
  (* Send client-auth *)
  s <-- self ;;
  cp <-- deref (cookiePair s) "this.cookiePair is null" ;;
  let message := ClientAuth (Cookie.asArray (CookiePair.theirs cp)) in
  packet <-- buildPacket message SALTYRTC_ADDR_SERVER true ;;
  _ <-- ws_send packet ;;
  (* Set previously unknown address to 0x01 (initiator) *)
  _ <-- assign (fun s => set_address s SALTYRTC_ADDR_INITIATOR) ;;
  (* Wait for message *)
  on_ws (fun w => WebSocket.addEventListener w "message"
                    Listener.recvMessageEvent_handler).

(** [serverHandshake(buffer)] up to its [await]; [None] when the cookie
    loop needs more than [fuel] draws. *)
Definition serverHandshake_begin (fuel : nat) (buffer : list byte) (s : Sys)
  : option (result unit * Sys) :=
  match serverHandshake_serverHello buffer s with
  | (Throw e, s) => Some (Throw e, s)
  | (Ok nonce, s) =>
    (* Generate cookie *)
    match generateCookie fuel (Nonce.cookie nonce) (world s) with
    | None => None
    | Some (cookie, w) =>
      Some (serverHandshake_clientAuth cookie nonce
              {| this := this s; world := w |})
    end
  end.

(** The loop [for (let id of message.responders)] of [serverHandshake]. *)
Fixpoint storeResponders (ids : list Z) : M Sys unit :=
  match ids with
  | [] => ret tt
  | id :: rest =>
    r <-- draw (Responder.create id) ;;
    s <-- self ;;
    rs <-- deref (responders s) "this.responders is null" ;;
    _ <-- assign (fun s => set_responders s (Some (JsMap.set rs id r))) ;;
    storeResponders rest
  end.

(** [message.responders] and [message.initiator_connected]. *)
Definition Msg_responders (m : Message) : option (list Z) :=
  match m with ServerAuth _ r _ => r | _ => None end.

Definition Msg_initiator_connected (m : Message) : option bool :=
  match m with ServerAuth _ _ c => c | _ => None end.

(** [serverHandshake] after its [await], given the bytes of the message
    received. *)
Definition serverHandshake_serverAuth (bytes : list byte) : M Sys unit :=
  _ <-- on_ws (fun w => WebSocket.removeEventListener w "message"
                          Listener.recvMessageEvent_handler) ;;
  (* Validate length *)
  _ <-- when (Z.of_nat (List.length bytes) <=? 24)
             (throw (Thrown "bad-message-length")) ;;
  (* Decrypt message *)
  box <-- call (Box_fromUint8Array bytes nacl_box_nonceLength) ;;
  s <-- self ;;
  decrypted <-- call (KeyStore_decrypt (permanentKey s) box (serverKey s)) ;;
  nonce <-- call (Nonce_fromArrayBuffer (Box.nonce box)) ;;
  (* Validate nonce and set proper address. *)
  _ <-- match role s with
        | role_initiator =>
          _ <-- assign (fun s => set_address s SALTYRTC_ADDR_INITIATOR) ;;
          s <-- self ;;
          validateNonce nonce (Some (address s)) (Some SALTYRTC_ADDR_SERVER)
        | role_responder =>
          _ <-- validateNonce nonce None (Some SALTYRTC_ADDR_SERVER) ;;
          _ <-- when ((Nonce.destination nonce >? 0xff)
                      || (Nonce.destination nonce <? 0x02))
                     (throw (Thrown "bad-nonce-destination")) ;;
          assign (fun s => set_address s (Nonce.destination nonce))
        end ;;
  (* Decode message *)
  message <-- decodeMessage decrypted (Some T_server_auth) ;;
  (* Validate cookie *)
  cookie <-- call (Cookie_from (Msg.your_cookie message)) ;;
  s <-- self ;;
  cp <-- deref (cookiePair s) "this.cookiePair is null" ;;
  _ <-- when (negb (Cookie.equals cookie (CookiePair.ours cp)))
             (throw (Thrown "bad-cookie")) ;;
  (* Store responders *)
  match role s with
  | role_initiator =>
    _ <-- assign (fun s => set_responders s (Some JsMap.empty)) ;;
    ids <-- deref (Msg_responders message)
                  "message.responders is not iterable" ;;
    storeResponders ids
  | role_responder =>
    assign (fun s => set_initiatorConnected s
                       (Msg_initiator_connected message))
  end.

(** [onInitServerHandshake(ev)] up to the [await] of
    [serverHandshake]. *)
Definition onInitServerHandshake_begin (fuel : nat) (data : list byte)
           (s : Sys) : option (result unit * Sys) :=
  match (_ <-- on_ws (fun w => WebSocket.removeEventListener w "message"
                                 Listener.onInitServerHandshake) ;;
         assign (fun s => set_state s server_handshake)) s with
  | (Throw e, s) => Some (Throw e, s)
  | (Ok _, s) => serverHandshake_begin fuel data s
  end.

(** [onInitServerHandshake(ev)] from the message that ends the [await]
    on. *)
Definition onInitServerHandshake_resume (bytes : list byte) : M Sys unit :=
  _ <-- serverHandshake_serverAuth bytes ;;
  _ <-- assign (fun s => set_state s peer_handshake) ;;
  s <-- self ;;
  _ <-- match role s with
        | role_responder =>
          _ <-- assign (fun s => set_initiatorHandshakeState s (Some ihs_new)) ;;
          s <-- self ;;
          match initiatorConnected s with
          | Some true => sendToken
          | _ => ret tt
          end
        | role_initiator => ret tt
        end ;;
  on_ws (fun w => WebSocket.addEventListener w "message"
                    Listener.onPeerHandshakeMessage).

End Methods.
End Signaling.


(** ** A reference instance of the collaborators

    Used by the examples: the wire nonce of the specification (cookie,
    source, destination, big-endian overflow and sequence), boxes that
    split a frame at the nonce length, a keyed tag in place of the NaCl
    primitives, and a tagged encoding in place of MessagePack. *)
Module Reference.

Definition byte_of_Z (z : Z) : byte :=
  match Byte.of_N (Z.to_N (z mod 256)) with
  | Some b => b
  | None => x00
  end.

Definition Z_of_byte (b : byte) : Z := Z.of_N (Byte.to_N b).

(** Big-endian bytes of [z], [width] of them. *)
Fixpoint be_bytes (width : nat) (z : Z) : list byte :=
  match width with
  | O => []
  | S w => byte_of_Z (z / 256 ^ Z.of_nat w) :: be_bytes w z
  end.

Definition be_value (l : list byte) : Z :=
  fold_left (fun acc b => acc * 256 + Z_of_byte b) l 0.

(** Exactly [n] bytes of [l], padded with zeros. *)
Definition fit (n : nat) (l : list byte) : list byte :=
  firstn n (l ++ repeat x00 n).

Definition Nonce_toArrayBuffer (n : Nonce.t) : list byte :=
  fit 16 (Nonce.cookie n)
  ++ [byte_of_Z (Nonce.source n); byte_of_Z (Nonce.destination n)]
  ++ be_bytes 2 (Nonce.overflow n)
  ++ be_bytes 4 (Nonce.sequenceNumber n).

Definition Nonce_fromArrayBuffer (b : list byte) : result Nonce.t :=
  if (List.length b <? 24)%nat
  then Throw (RangeError "Offset is outside the bounds of the DataView")
  else Ok {| Nonce.cookie := firstn 16 b;
             Nonce.source := be_value (firstn 1 (skipn 16 b));
             Nonce.destination := be_value (firstn 1 (skipn 17 b));
             Nonce.overflow := be_value (firstn 2 (skipn 18 b));
             Nonce.sequenceNumber := be_value (firstn 4 (skipn 20 b)) |}.

Definition Box_fromUint8Array (bytes : list byte) (nonceLength : Z)
  : result Box.t :=
  Ok {| Box.nonce := firstn (Z.to_nat nonceLength) bytes;
        Box.data := skipn (Z.to_nat nonceLength) bytes |}.

(** The tag of a box between two key pairs: the same from both ends. *)
Definition shared_tag (publicKey otherKey : list byte) : byte :=
  byte_of_Z (Z_of_byte (hd x00 publicKey) + Z_of_byte (hd x00 otherKey)).

Definition KeyStore_encrypt (k : KeyStore.t) (data nonceBytes : list byte)
           (otherKey : option (list byte)) : result Box.t :=
  match otherKey with
  | None => Throw (TypeError "otherKey is null")
  | Some o =>
    Ok {| Box.nonce := nonceBytes;
          Box.data := shared_tag (KeyStore.publicKeyBytes k) o :: data |}
  end.

Definition open_tagged (tag : byte) (data : list byte) : result (list byte) :=
  match data with
  | t :: plain =>
    if Byte.eqb t tag then Ok plain else Throw (Thrown "decryption-failed")
  | [] => Throw (Thrown "decryption-failed")
  end.

Definition KeyStore_decrypt (k : KeyStore.t) (box : Box.t)
           (otherKey : option (list byte)) : result (list byte) :=
  match otherKey with
  | None => Throw (TypeError "otherKey is null")
  | Some o => open_tagged (shared_tag (KeyStore.publicKeyBytes k) o)
                          (Box.data box)
  end.

Definition AuthToken_encrypt (a : AuthToken.t) (data nonceBytes : list byte)
  : result Box.t :=
  Ok {| Box.nonce := nonceBytes;
        Box.data := hd x00 (AuthToken.keyBytes a) :: data |}.

Definition AuthToken_decrypt (a : AuthToken.t) (box : Box.t)
  : result (list byte) :=
  open_tagged (hd x00 (AuthToken.keyBytes a)) (Box.data box).

Definition Cookie_from (x : option (list byte)) : result Cookie.t :=
  match x with
  | Some l => Ok l
  | None => Throw (TypeError "undefined is not iterable")
  end.

Definition msgpack_encode (m : Message) : list byte :=
  match m with
  | Untyped => [x00]
  | ServerHello k => x01 :: k
  | ClientHello k => x02 :: k
  | ClientAuth c => x03 :: c
  | ServerAuth c None None => x04 :: c
  | ServerAuth c (Some ids) _ =>
    x05 :: byte_of_Z (Z.of_nat (List.length ids)) :: map byte_of_Z ids ++ c
  | ServerAuth c None (Some b) => x06 :: (if b then x01 else x00) :: c
  | NewResponder id => [x07; byte_of_Z id]
  | NewInitiator => [x08]
  | DropResponder id => [x09; byte_of_Z id]
  | Token k => x0a :: k
  | Key k => x0b :: k
  | Auth c => x0c :: c
  | OtherMessage _ => [x0d]
  end.

Definition msgpack_decode (b : list byte) : result Message :=
  match b with
  | x01 :: k => Ok (ServerHello k)
  | x02 :: k => Ok (ClientHello k)
  | x03 :: c => Ok (ClientAuth c)
  | x04 :: c => Ok (ServerAuth c None None)
  | x05 :: n :: rest =>
    let n := Z.to_nat (Z_of_byte n) in
    Ok (ServerAuth (skipn n rest) (Some (map Z_of_byte (firstn n rest))) None)
  | x06 :: f :: c => Ok (ServerAuth c None (Some (Byte.eqb f x01)))
  | [x07; id] => Ok (NewResponder (Z_of_byte id))
  | [x08] => Ok NewInitiator
  | [x09; id] => Ok (DropResponder (Z_of_byte id))
  | x0a :: k => Ok (Token k)
  | x0b :: k => Ok (Key k)
  | x0c :: c => Ok (Auth c)
  | [x0d] => Ok (OtherMessage "other")
  | _ => Ok Untyped
  end.

Definition collaborators : Collaborators :=
  Build_Collaborators KeyStore_encrypt KeyStore_decrypt
    AuthToken_encrypt AuthToken_decrypt Box_fromUint8Array
    Nonce_fromArrayBuffer Nonce_toArrayBuffer Cookie_from
    msgpack_decode msgpack_encode.
End Reference.

(** ** The shape of a chunk list

    [Chunked k payload chunks]: [chunks] carries [payload] in order, [k]
    bytes in every chunk but the last, which carries between 1 and [k];
    every chunk is an array over its whole buffer, and the flag byte is 1
    except in the last chunk, where it is 0. *)
Inductive Chunked (k : nat) : list byte -> list Uint8Array -> Prop :=
| Chunked_last (r : list byte) :
    (1 <= List.length r <= k)%nat ->
    Chunked k r [U8.of_buffer (x00 :: r)]
| Chunked_more (p r : list byte) (l : list Uint8Array) :
    List.length p = k -> r <> [] ->
    Chunked k r l ->
    Chunked k (p ++ r) (U8.of_buffer (x01 :: p) :: l).

(** The bytes that a [Chunkifier] is to split, and how many of them go into
    a chunk. *)
Definition input_bytes (c : Chunkifier.t) : list byte :=
  U8.bytes (Chunkifier.array c).

Definition payload_size (c : Chunkifier.t) : nat :=
  Z.to_nat (Chunkifier.chunkSize c - 1).

(** The quotient [a / b] rounded up, for [b > 0]. *)
Definition ceil_div (a b : Z) : Z := (a + b - 1) / b.

(** ** What the claims about the engine speak of *)

Section EngineProps.

Context {E : Collaborators}.

Import Signaling.

(** The abort path has run on the engine whose WebSocket was [ref]: the
    handler of the peer handshake is no longer registered for messages,
    the WebSocket is closed and dropped, and the state is 'new'. *)
Definition Aborted (ref : nat) (s' : Sys) : Prop :=
  state (this s') = new
  /\ ws (this s') = None
  /\ WebSocket.closed (World.sockets (world s') ref) = true
  /\ WebSocket.handles (World.sockets (world s') ref)
                       Listener.onPeerHandshakeMessage = false.

(** The failures of a frame of the peer handshake that go through the
    handler's [abort]: [n] is the nonce peeked at the head of the frame.

    A frame from the initiator (source 0x01) is decrypted with the key
    that the handshake state selects; a frame from a responder (source
    in 0x02..0xff) with the key that the state of that responder
    selects.  The cookie of a nonce is compared with our cookie in two
    places of the handler only, the auth message of the initiator and
    the key message of a responder: [initiator_frame_cookie] and
    [responder_frame_same_cookie] follow them, and no other state has
    such a case. *)
Inductive PeerFailure (s : Signaling.t) (buffer : list byte) (n : Nonce.t)
  : Prop :=
(* wrong source for role, or no valid source at all *)
| wrong_source_initiator :
    Nonce.source n = SALTYRTC_ADDR_INITIATOR ->
    role s = role_initiator ->
    PeerFailure s buffer n
| wrong_source_responder :
    is_responder_address (Nonce.source n) = true ->
    role s = role_responder ->
    PeerFailure s buffer n
| invalid_source :
    Nonce.source n <> SALTYRTC_ADDR_SERVER ->
    Nonce.source n <> SALTYRTC_ADDR_INITIATOR ->
    is_responder_address (Nonce.source n) = false ->
    PeerFailure s buffer n
(* a frame from the initiator *)
| initiator_frame_decryption (box : Box.t) :
    Nonce.source n = SALTYRTC_ADDR_INITIATOR ->
    role s = role_responder ->
    Box_fromUint8Array buffer nacl_box_nonceLength = Ok box ->
    Decryptor_decrypt
      (match initiatorHandshakeState s with
       | Some token_sent =>
         with_KeyStore (Some (permanentKey s)) (initiatorPermanentKey s)
       | _ => with_KeyStore (sessionKey s) (initiatorSessionKey s)
       end) box = Throw (Thrown "decryption-failed") ->
    PeerFailure s buffer n
| initiator_frame_type (box : Box.t) (plain : list byte) (nonce : Nonce.t)
                       (msg : Message) (expected : MessageType) :
    Nonce.source n = SALTYRTC_ADDR_INITIATOR ->
    role s = role_responder ->
    Box_fromUint8Array buffer nacl_box_nonceLength = Ok box ->
    Decryptor_decrypt
      (match initiatorHandshakeState s with
       | Some token_sent =>
         with_KeyStore (Some (permanentKey s)) (initiatorPermanentKey s)
       | _ => with_KeyStore (sessionKey s) (initiatorSessionKey s)
       end) box = Ok plain ->
    Nonce_fromArrayBuffer (Box.nonce box) = Ok nonce ->
    msgpack_decode plain = Ok msg ->
    Msg.type msg <> None ->
    (initiatorHandshakeState s = Some token_sent /\ expected = T_key
     \/ initiatorHandshakeState s = Some key_sent /\ expected = T_auth) ->
    Msg.type_is msg expected = false ->
    PeerFailure s buffer n
| initiator_frame_cookie (box : Box.t) (plain : list byte) (nonce : Nonce.t)
                         (msg : Message) (cookie : Cookie.t)
                         (cp : CookiePair.t) :
    Nonce.source n = SALTYRTC_ADDR_INITIATOR ->
    role s = role_responder ->
    Box_fromUint8Array buffer nacl_box_nonceLength = Ok box ->
    initiatorHandshakeState s = Some key_sent ->
    Decryptor_decrypt (with_KeyStore (sessionKey s) (initiatorSessionKey s))
                      box = Ok plain ->
    Nonce_fromArrayBuffer (Box.nonce box) = Ok nonce ->
    msgpack_decode plain = Ok msg ->
    Msg.type_is msg T_auth = true ->
    Cookie_from (Msg.your_cookie msg) = Ok cookie ->
    cookiePair s = Some cp ->
    (* your_cookie is not our cookie, or the initiator uses our cookie *)
    (Cookie.equals cookie (CookiePair.ours cp) = false
     \/ Cookie.equals (Nonce.cookie nonce) (CookiePair.ours cp) = true) ->
    PeerFailure s buffer n
(* a frame from a responder *)
| responder_frame_decryption (rs : JsMap.t Responder.t) (r : Responder.t)
                             (box : Box.t) :
    is_responder_address (Nonce.source n) = true ->
    role s = role_initiator ->
    responders s = Some rs ->
    JsMap.get rs (Nonce.source n) = Some r ->
    Box_fromUint8Array buffer
      (match Responder.state r with
       | Responder.new => nacl_secretbox_nonceLength
       | _ => nacl_box_nonceLength
       end) = Ok box ->
    Decryptor_decrypt
      (match Responder.state r with
       | Responder.new => with_AuthToken (authToken s)
       | Responder.token_received =>
         with_KeyStore (Some (permanentKey s)) (Responder.permanentKey r)
       | Responder.key_received =>
         with_KeyStore (Some (Responder.keyStore r)) (Responder.sessionKey r)
       end) box = Throw (Thrown "decryption-failed") ->
    PeerFailure s buffer n
| responder_frame_type (rs : JsMap.t Responder.t) (r : Responder.t)
                       (box : Box.t) (plain : list byte) (msg : Message) :
    is_responder_address (Nonce.source n) = true ->
    role s = role_initiator ->
    responders s = Some rs ->
    JsMap.get rs (Nonce.source n) = Some r ->
    Box_fromUint8Array buffer
      (match Responder.state r with
       | Responder.new => nacl_secretbox_nonceLength
       | _ => nacl_box_nonceLength
       end) = Ok box ->
    Decryptor_decrypt
      (match Responder.state r with
       | Responder.new => with_AuthToken (authToken s)
       | Responder.token_received =>
         with_KeyStore (Some (permanentKey s)) (Responder.permanentKey r)
       | Responder.key_received =>
         with_KeyStore (Some (Responder.keyStore r)) (Responder.sessionKey r)
       end) box = Ok plain ->
    msgpack_decode plain = Ok msg ->
    Msg.type msg <> None ->
    Msg.type_is msg
      (match Responder.state r with
       | Responder.new => T_token
       | Responder.token_received => T_key
       | Responder.key_received => T_auth
       end) = false ->
    PeerFailure s buffer n
| responder_frame_same_cookie (rs : JsMap.t Responder.t) (r : Responder.t)
                              (box : Box.t) (plain : list byte)
                              (msg : Message) (cp : CookiePair.t) :
    is_responder_address (Nonce.source n) = true ->
    role s = role_initiator ->
    responders s = Some rs ->
    JsMap.get rs (Nonce.source n) = Some r ->
    Responder.state r = Responder.token_received ->
    Box_fromUint8Array buffer nacl_box_nonceLength = Ok box ->
    Decryptor_decrypt
      (with_KeyStore (Some (permanentKey s)) (Responder.permanentKey r))
      box = Ok plain ->
    msgpack_decode plain = Ok msg ->
    Msg.type_is msg T_key = true ->
    cookiePair s = Some cp ->
    (* the responder uses our cookie *)
    Cookie.equals (Nonce.cookie n) (CookiePair.ours cp) = true ->
    PeerFailure s buffer n
| responder_frame_cookie (rs : JsMap.t Responder.t) (r : Responder.t)
                         (box : Box.t) (plain : list byte)
                         (msg : Message) (cookie : Cookie.t)
                         (cp : CookiePair.t) :
    is_responder_address (Nonce.source n) = true ->
    role s = role_initiator ->
    responders s = Some rs ->
    JsMap.get rs (Nonce.source n) = Some r ->
    Responder.state r = Responder.key_received ->
    Box_fromUint8Array buffer nacl_box_nonceLength = Ok box ->
    Decryptor_decrypt
      (with_KeyStore (Some (Responder.keyStore r)) (Responder.sessionKey r))
      box = Ok plain ->
    msgpack_decode plain = Ok msg ->
    Msg.type_is msg T_auth = true ->
    Cookie_from (Msg.your_cookie msg) = Ok cookie ->
    cookiePair s = Some cp ->
    (* your_cookie is not our cookie *)
    Cookie.equals cookie (CookiePair.ours cp) = false ->
    PeerFailure s buffer n.

(** The outcome [r] of a run from [s] is that of the abort path, on an
    engine with the WebSocket of [s]. *)
Definition ReachesAbort (s : Sys) (r : result unit * Sys) : Prop :=
exists s1, ws (this s1) = ws (this s) /\ r = abort s1.

(** [packet] is a drop-responder message for [id], addressed to the
    server by an engine with fields [s]: its nonce has our cookie, our
    address as source, the server as destination and some combined
    sequence number, and it is boxed with our permanent key for the
    server key. *)
Definition DropResponderPacket (s : Signaling.t) (ours : Cookie.t)
           (id : Z) (packet : list byte) : Prop :=
  exists (csn : CombinedSequence.t) (box : Box.t),
    KeyStore_encrypt (permanentKey s)
      (msgpack_encode (DropResponder id))
      (Nonce_toArrayBuffer
         (Nonce.mk ours (CombinedSequence.overflow csn)
                   (CombinedSequence.sequenceNumber csn)
                   (address s) SALTYRTC_ADDR_SERVER))
      (serverKey s) = Ok box
    /\ packet = Box.toUint8Array box.

End EngineProps.

(** [Keeps P m]: running [m] leaves the observation [P] of the engine and
    its world as it was, whether [m] returns or throws. *)
Definition Keeps {A X} (P : Signaling.Sys -> X) (m : M Signaling.Sys A) : Prop :=
  forall s, P (snd (m s)) = P s.

(** ** A run of the initiator

    The initiator flow of the specification with the reference
    collaborators: connect, server-hello, server-auth with responders
    0x02 and 0x03, new-responder 0x04, token from 0x02 and from 0x03, key
    from 0x02, and auth from 0x02. *)
Module Scenario.
Import Signaling.

Definition E : Collaborators := Reference.collaborators.

Definition key_of (z : Z) : KeyStore.t :=
  KeyStore.mk [Reference.byte_of_Z z] [Reference.byte_of_Z z].

(** A world whose random cookies are sixteen times the number of the
    draw, so that the first one equals the server's cookie below. *)
Definition world0 : World.t :=
  {| World.sockets := fun _ => WebSocket.fresh;
     World.nextSocket := 0;
     World.uint32s := fun n => 100 + Z.of_nat n;
     World.uint32sDrawn := 0;
     World.cookies := fun n => repeat (Reference.byte_of_Z (Z.of_nat n)) 16;
     World.cookiesDrawn := 0;
     World.keyStores := fun n => key_of (16 + Z.of_nat n);
     World.keyStoresDrawn := 0;
     World.onConnectedCalls := 0 |}.

Definition permanent : KeyStore.t := key_of 7.
Definition authToken0 : AuthToken.t := AuthToken.mk [x09].
Definition serverPublicKey : list byte := [x05].
Definition serverCookie : Cookie.t := repeat x00 16.
Definition responderCookie : Cookie.t := repeat x33 16.

(** A frame with the given nonce fields: the tag of the box and the
    encoded message after the nonce. *)
Definition frame (cookie : Cookie.t) (source destination sequence : Z)
           (tag : list byte) (m : Message) : list byte :=
  Reference.Nonce_toArrayBuffer
    (Nonce.mk cookie 0 sequence source destination)
  ++ tag ++ Reference.msgpack_encode m.

Definition after {A} (r : result A * Sys) : Sys := snd r.

Definition created : Sys :=
  let (s, w) := create permanent None authToken0 world0 in
  {| this := s; world := w |}.

Definition connected : Sys := after (connect created).

Definition server_hello : list byte :=
  frame serverCookie 0 0 1 [] (ServerHello serverPublicKey).

Definition hello_done : Sys :=
  match onInitServerHandshake_begin (E := E) 2 server_hello connected with
  | Some (_, s) => s
  | None => connected
  end.

Definition ours : Cookie.t := repeat x01 16.

Definition server_tag : list byte :=
  [Reference.shared_tag (KeyStore.publicKeyBytes permanent) serverPublicKey].

Definition server_auth : list byte :=
  frame serverCookie 0 1 2 server_tag (ServerAuth ours (Some [2; 3]) None).

(** The engine at the start of the peer handshake. *)
Definition peer_handshake_start : Sys :=
  after (onInitServerHandshake_resume (E := E) server_auth hello_done).

Definition step (buffer : list byte) (s : Sys) : Sys :=
  after (onPeerHandshakeMessage (E := E) buffer s).

Definition new_responder_4 : list byte :=
  frame serverCookie 0 1 3 server_tag (NewResponder 4).

Definition token_from (source : Z) (publicKey : list byte) : list byte :=
  frame responderCookie source 1 1 [x09] (Token publicKey).

Definition key_from_2 : list byte :=
  frame responderCookie 2 1 2
        [Reference.shared_tag (KeyStore.publicKeyBytes permanent) [x42]]
        (Key [x52]).

(** The engine holding responder 0x02 in state key-received, 0x03 in
    state token-received and 0x04 in state new. *)
Definition key_received : Sys :=
  step key_from_2
    (step (token_from 3 [x43])
       (step (token_from 2 [x42])
          (step new_responder_4 peer_handshake_start))).

Definition auth_from_2 : list byte :=
  frame responderCookie 2 1 3
        [Reference.shared_tag (KeyStore.publicKeyBytes (key_of 16)) [x52]]
        (Auth ours).

(** The same frame with a nonce for another destination. *)
Definition auth_for_9 : list byte :=
  frame responderCookie 2 9 3
        [Reference.shared_tag (KeyStore.publicKeyBytes (key_of 16)) [x52]]
        (Auth ours).

(** What the engine holds then: its cookie pair, its map of
    responders, and the record of responder 0x02. *)
Definition cookies_held : CookiePair.t := CookiePair.mk ours serverCookie.

Definition responders_held : JsMap.t Responder.t :=
  match responders (this key_received) with
  | Some rs => rs
  | None => []
  end.

Definition responder_2 : Responder.t :=
  {| Responder.id := 2;
     Responder.permanentKey := Some [x42];
     Responder.sessionKey := Some [x52];
     Responder.keyStore := key_of 16;
     Responder.state := Responder.key_received;
     Responder.combinedSequence := CombinedSequence.mk 103 0 |}.

(** An auth message from 0x02 that echoes the server's cookie instead
    of ours. *)
Definition auth_wrong_cookie : list byte :=
  frame responderCookie 2 1 3
        [Reference.shared_tag (KeyStore.publicKeyBytes (key_of 16)) [x52]]
        (Auth serverCookie).

(** A frame from the server boxed with a wrong key. *)
Definition forged_server_frame : list byte :=
  frame serverCookie 0 1 4 [xff] (NewResponder 5).

End Scenario.

(** ** What the further properties speak of *)

(** The bytes that a chunk carries after its flag byte, and those of a
    list of chunks in order. *)
Definition payload (chunk : Uint8Array) : list byte := tl (U8.bytes chunk).

Definition payloads (chunks : list Uint8Array) : list byte :=
  List.concat (map payload chunks).

(** What every array is that [add] has pushed: a window inside its buffer,
    of one byte at least. *)
Definition Pushable (a : Uint8Array) : Prop := U8.wf a /\ 1 <= U8.length a.

(** The bookkeeping of an [Unchunkifier]: [length] counts the payload
    bytes of the chunks pushed so far. *)
Definition Consistent (u : Unchunkifier.t) : Prop :=
  Forall Pushable (Unchunkifier.chunks u)
  /\ Unchunkifier.length u
     = Z.of_nat (List.length (payloads (Unchunkifier.chunks u))).

(** A [Chunkifier] of the test suite: [new Chunkifier(Uint8Array.of(1, 2,
    3), 2)]. *)
Definition chunkifier_123 : Chunkifier.t :=
  {| Chunkifier.array := u8 [1; 2; 3]%nat;
     Chunkifier.chunkSize := 2;
     Chunkifier.chunks := None;
     Chunkifier.array_nonempty := ltac:(discriminate);
     Chunkifier.chunkSize_large := ltac:(discriminate) |}.

(** The number that a combined sequence stands for: the overflow counter
    in front of the 32 bits of the sequence number. *)
Definition combined_value (c : CombinedSequence.t) : Z :=
  CombinedSequence.overflow c * CombinedSequence.SEQUENCE_NUMBER_MAX
  + CombinedSequence.sequenceNumber c.

Section PacketShape.

Context {E : Collaborators}.

(** The bytes of the nonce that [buildPacket] creates for [receiver] from
    the combined sequence [csn], on an engine with fields [s] and own
    cookie [ours]. *)
Definition packet_nonce (s : Signaling.t) (ours : Cookie.t)
           (csn : CombinedSequence.t) (receiver : Z) : list byte :=
  Nonce_toArrayBuffer
    (Nonce.mk ours (CombinedSequence.overflow csn)
              (CombinedSequence.sequenceNumber csn)
              (Signaling.address s) receiver).

End PacketShape.

(** ** A run of the responder

    The responder flow of the specification with the reference
    collaborators: connect, server-hello, server-auth that assigns
    address 0x05 and reports the initiator as connected (so that the
    token is sent at once), then the key and the auth message of the
    initiator. *)
Module ResponderScenario.
Import Signaling.

Definition E : Collaborators := Reference.collaborators.

Definition permanent : KeyStore.t := Scenario.key_of 8.
Definition initiatorPublicKey : list byte := [x07].
Definition initiatorCookie : Cookie.t := repeat x44 16.

Definition created : Sys :=
  let (s, w) := create permanent
                       (Some (initiatorPublicKey, Scenario.authToken0))
                       (AuthToken.mk []) Scenario.world0 in
  {| this := s; world := w |}.

Definition connected : Sys := Scenario.after (connect created).

Definition hello_done : Sys :=
  match onInitServerHandshake_begin (E := E) 2 Scenario.server_hello
                                    connected with
  | Some (_, s) => s
  | None => connected
  end.

Definition server_tag : list byte :=
  [Reference.shared_tag (KeyStore.publicKeyBytes permanent)
                        Scenario.serverPublicKey].

Definition server_auth : list byte :=
  Scenario.frame Scenario.serverCookie 0 5 2 server_tag
                 (ServerAuth Scenario.ours None (Some true)).

(** The same message with the initiator reported as absent. *)
Definition server_auth_alone : list byte :=
  Scenario.frame Scenario.serverCookie 0 5 2 server_tag
                 (ServerAuth Scenario.ours None (Some false)).

(** The engine at the start of the peer handshake, its token sent. *)
Definition sent_token : Sys :=
  Scenario.after (onInitServerHandshake_resume (E := E) server_auth
                                               hello_done).

(** The engine at the start of the peer handshake, waiting for an
    initiator. *)
Definition waiting : Sys :=
  Scenario.after (onInitServerHandshake_resume (E := E) server_auth_alone
                                               hello_done).

Definition new_initiator : list byte :=
  Scenario.frame Scenario.serverCookie 0 5 3 server_tag NewInitiator.

Definition key_from_initiator : list byte :=
  Scenario.frame initiatorCookie 1 5 1
    [Reference.shared_tag (KeyStore.publicKeyBytes permanent)
                          initiatorPublicKey]
    (Key [x60]).

(** The engine after the key message of the initiator. *)
Definition sent_key : Sys :=
  Scenario.after (onPeerHandshakeMessage (E := E) key_from_initiator
                                         sent_token).

Definition auth_from_initiator : list byte :=
  Scenario.frame initiatorCookie 1 5 2
    [Reference.shared_tag (KeyStore.publicKeyBytes (Scenario.key_of 16))
                          [x60]]
    (Auth Scenario.ours).

End ResponderScenario.

(** ** Stages of the run of the initiator *)
Module InitiatorRun.
Import Signaling.

(** The engine holding responders 0x02, 0x03 and 0x04, all in state
    'new'. *)
Definition registered : Sys :=
  Scenario.step Scenario.new_responder_4 Scenario.peer_handshake_start.

Definition held (s : Sys) : JsMap.t Responder.t :=
  match responders (this s) with
  | Some rs => rs
  | None => []
  end.

Definition responder_2_new : Responder.t :=
  {| Responder.id := 2;
     Responder.permanentKey := None;
     Responder.sessionKey := None;
     Responder.keyStore := Scenario.key_of 16;
     Responder.state := Responder.new;
     Responder.combinedSequence := CombinedSequence.mk 103 0 |}.

(** Our key message for responder 0x02, as a box. *)
Definition key_for_2 : Box.t :=
  {| Box.nonce := Reference.Nonce_toArrayBuffer
                    (Nonce.mk Scenario.ours 0 103 1 2);
     Box.data := Reference.shared_tag
                   (KeyStore.publicKeyBytes Scenario.permanent) [x42]
                 :: Reference.msgpack_encode
                      (Key (KeyStore.publicKeyArray (Scenario.key_of 16))) |}.

(** The engine holding 0x02 and 0x03 in state 'token-received'. *)
Definition tokens_received : Sys :=
  Scenario.step (Scenario.token_from 3 [x43])
    (Scenario.step (Scenario.token_from 2 [x42]) registered).

Definition responder_2_token : Responder.t :=
  {| Responder.id := 2;
     Responder.permanentKey := Some [x42];
     Responder.sessionKey := None;
     Responder.keyStore := Scenario.key_of 16;
     Responder.state := Responder.token_received;
     Responder.combinedSequence := CombinedSequence.mk 103 0 |}.

(** Our auth message for responder 0x02, as a box. *)
Definition auth_for_2 : Box.t :=
  {| Box.nonce := Reference.Nonce_toArrayBuffer
                    (Nonce.mk Scenario.ours 0 103 1 2);
     Box.data := Reference.shared_tag
                   (KeyStore.publicKeyBytes (Scenario.key_of 16)) [x52]
                 :: Reference.msgpack_encode
                      (Auth Scenario.responderCookie) |}.

End InitiatorRun.

(** The boxes that the responder sends in its run. *)
Module ResponderRun.

Definition token_box : Box.t :=
  {| Box.nonce := Reference.Nonce_toArrayBuffer
                    (Nonce.mk Scenario.ours 0 102 5 1);
     Box.data := x09 :: Reference.msgpack_encode
                          (Token (KeyStore.publicKeyArray
                                    ResponderScenario.permanent)) |}.

Definition key_box : Box.t :=
  {| Box.nonce := Reference.Nonce_toArrayBuffer
                    (Nonce.mk Scenario.ours 0 103 5 1);
     Box.data := Reference.shared_tag
                   (KeyStore.publicKeyBytes ResponderScenario.permanent)
                   ResponderScenario.initiatorPublicKey
                 :: Reference.msgpack_encode
                      (Key (KeyStore.publicKeyArray (Scenario.key_of 16))) |}.

Definition auth_box : Box.t :=
  {| Box.nonce := Reference.Nonce_toArrayBuffer
                    (Nonce.mk Scenario.ours 0 104 5 1);
     Box.data := Reference.shared_tag
                   (KeyStore.publicKeyBytes (Scenario.key_of 16)) [x60]
                 :: Reference.msgpack_encode
                      (Auth ResponderScenario.initiatorCookie) |}.

(** A server-hello whose cookie differs from the first cookie that the
    world draws, and the client-auth that answers it. *)
Definition otherCookie : Cookie.t := repeat x77 16.

Definition other_server_hello : list byte :=
  Scenario.frame otherCookie 0 0 1 [] (ServerHello Scenario.serverPublicKey).

Definition client_auth_box : Box.t :=
  {| Box.nonce := Reference.Nonce_toArrayBuffer
                    (Nonce.mk Scenario.serverCookie 0 104 0 0);
     Box.data := Reference.shared_tag
                   (KeyStore.publicKeyBytes ResponderScenario.permanent)
                   Scenario.serverPublicKey
                 :: Reference.msgpack_encode (ClientAuth otherCookie) |}.

End ResponderRun.

(** ** The records of the responders that server-auth names *)

(** The record that [new Responder(id)] gives when [i] responders have
    been created since the world was [w]. *)
Definition fresh_responder (w : World.t) (i : nat) (id : Z) : Responder.t :=
  {| Responder.id := id;
     Responder.permanentKey := None;
     Responder.sessionKey := None;
     Responder.keyStore :=
       World.keyStores w (World.keyStoresDrawn w + i);
     Responder.state := Responder.new;
     Responder.combinedSequence :=
       CombinedSequence.new (World.uint32s w (World.uint32sDrawn w + i)) |}.

(** One fresh record for every identity, in order, from the [i]-th
    on. *)
Fixpoint fresh_responders (w : World.t) (i : nat) (ids : list Z)
  : JsMap.t Responder.t :=
  match ids with
  | [] => []
  | id :: rest => (id, fresh_responder w i id) :: fresh_responders w (S i) rest
  end.

(** * Properties *)

(** ** Typed arrays *)

Module U8Facts.

Lemma bytes_length (a : Uint8Array) :
  U8.wf a -> List.length (U8.bytes a) = U8.len a.
Proof.
  unfold U8.wf, U8.bytes. intros H.
  rewrite length_firstn, length_skipn. lia.
Qed.

Lemma bytes_of_buffer (b : list byte) : U8.bytes (U8.of_buffer b) = b.
Proof.
  unfold U8.bytes, U8.of_buffer. cbn [U8.len U8.byteOffset U8.buffer skipn].
  apply firstn_all.
Qed.

Lemma length_of_buffer (b : list byte) :
  U8.length (U8.of_buffer b) = Z.of_nat (List.length b).
Proof. reflexivity. Qed.

(** [slice(1)] of a whole-buffer array drops the first byte. *)
Lemma slice_from_1 (f : byte) (p : list byte) :
  U8.slice_from (U8.of_buffer (f :: p)) 1 = U8.of_buffer p.
Proof.
  unfold U8.slice_from, U8.slice, U8.relative.
  rewrite bytes_of_buffer, length_of_buffer.
  cbn [List.length].
  replace (1 <? 0) with false by reflexivity.
  destruct (Z.ltb_spec (Z.of_nat (S (List.length p))) 0); [lia|].
  rewrite Z.min_id.
  replace (Z.min 1 (Z.of_nat (S (List.length p)))) with 1 by lia.
  replace (Z.to_nat 1) with 1%nat by reflexivity.
  cbn [skipn].
  replace (Z.to_nat (Z.of_nat (S (List.length p)) - 1)) with (List.length p) by lia.
  now rewrite firstn_all.
Qed.

(** Writing [src] at [k] into a whole-buffer array of [pre ++ old ++ post]
    with [k = |pre|] and [|old| = |src|]. *)
Lemma set_of_buffer (pre old post src : list byte) :
  List.length old = List.length src ->
  U8.set (U8.of_buffer (pre ++ old ++ post)) (U8.of_buffer src)
         (Z.of_nat (List.length pre))
  = Ok (U8.of_buffer (pre ++ src ++ post)).
Proof.
  intros Hlen. unfold U8.set.
  rewrite !length_of_buffer, bytes_of_buffer.
  destruct (Z.ltb_spec (Z.of_nat (List.length pre)) 0); [lia|].
  rewrite !length_app.
  destruct (Z.ltb_spec (Z.of_nat (List.length pre + (List.length old + List.length post)))
                       (Z.of_nat (List.length pre) + Z.of_nat (List.length src))); [lia|].
  cbn [orb]. f_equal. unfold U8.of_buffer. cbn [U8.buffer U8.byteOffset U8.len].
  f_equal.
  - unfold U8.overwrite. rewrite Nat2Z.id. cbn [Nat.add].
    rewrite firstn_app, firstn_all, Nat.sub_diag. cbn [firstn]. rewrite app_nil_r.
    f_equal. f_equal.
    rewrite skipn_app.
    rewrite skipn_all2 by lia. cbn [app].
    replace (List.length pre + List.length src - List.length pre)%nat
      with (List.length old) by lia.
    rewrite skipn_app, skipn_all, Nat.sub_diag. reflexivity.
  - rewrite !length_app. lia.
Qed.

End U8Facts.

(** ** Chunkifier *)

Module ChunkifierFacts.
Import Chunkifier.

(** The loop, unfolded once. *)
Lemma getChunks_loop_unfold (c : t) (index : Z) (acc : list Uint8Array) :
  getChunks_loop c index acc =
  if hasNext c index then
    match chunkAt c index with
    | Throw e => (Throw e, acc)
    | Ok array_ => getChunks_loop c (index + 1) (store acc index array_)
    end
  else (Ok tt, acc).
Proof.
  funelim (getChunks_loop c index acc);
    repeat match goal with
           | H : hasNext ?c ?i = _ |- context [hasNext ?c ?i] => rewrite H
           | H : chunkAt ?c ?i = _ |- context [chunkAt ?c ?i] => rewrite H
           end; reflexivity.
Qed.

Section Chunks.

Variable c : t.
Hypothesis Hwf : U8.wf (array c).

Lemma offset_succ (i : Z) : offset c (i + 1) = offset c i + (chunkSize c - 1).
Proof. unfold offset. lia. Qed.

Lemma offset_nonneg (i : Z) : 0 <= i -> 0 <= offset c i.
Proof. pose proof (chunkSize_large c). unfold offset. nia. Qed.

Lemma length_B : Z.of_nat (List.length (input_bytes c)) = U8.length (array c).
Proof. unfold input_bytes, U8.length. now rewrite U8Facts.bytes_length. Qed.

(** The chunk of number [i]: the flag, then the next [payload_size c] of the
    input (or what is left of it). *)
Lemma chunkAt_spec (i : Z) :
  0 <= i -> hasNext c i = true ->
  chunkAt c i =
  Ok (U8.of_buffer ((if hasNext c (i + 1) then x01 else x00)
                    :: firstn (payload_size c)
                              (skipn (Z.to_nat (offset c i)) (input_bytes c)))).
Proof.
  intros Hi Hnext.
  pose proof (chunkSize_large c) as HC.
  pose proof (offset_nonneg i Hi) as Ho.
  pose proof length_B as HB.
  unfold hasNext in Hnext. apply Z.ltb_lt in Hnext.
  unfold chunkAt. rewrite offset_succ.
  set (o := offset c i) in *.
  set (L := U8.length (array c)) in *.
  set (v := if hasNext c (i + 1) then x01 else x00).
  set (X := firstn (Z.to_nat (Z.min (o + (chunkSize c - 1)) L - o))
                   (skipn (Z.to_nat o) (input_bytes c))).
  assert (HX : List.length X
               = Z.to_nat (Z.min (chunkSize c) (L + 1 - o) - 1)).
  { unfold X. rewrite length_firstn, length_skipn. lia. }
  assert (Hslice : U8.slice (array c) o (Z.min (o + (chunkSize c - 1)) L)
                   = U8.of_buffer X).
  { unfold U8.slice, U8.relative. fold L. fold (input_bytes c).
    destruct (Z.ltb_spec o 0); [lia|].
    destruct (Z.ltb_spec (Z.min (o + (chunkSize c - 1)) L) 0); [lia|].
    replace (Z.min o L) with o by lia.
    replace (Z.min (Z.min (o + (chunkSize c - 1)) L) L)
      with (Z.min (o + (chunkSize c - 1)) L) by lia.
    reflexivity. }
  rewrite Hslice.
  unfold U8.ArrayBuffer.
  destruct (Z.ltb_spec (Z.min (chunkSize c) (L + 1 - o)) 0); [lia|].
  cbn [rbind].
  replace (Z.to_nat (Z.min (chunkSize c) (L + 1 - o)))
    with (S (List.length X)) by lia.
  cbn [repeat]. unfold U8.setUint8. cbn [List.length].
  replace (0 <? 0) with false by reflexivity.
  destruct (Z.leb_spec (Z.of_nat (S (List.length (repeat x00 (List.length X))))) 0);
    [lia|].
  cbn [orb rbind]. unfold U8.overwrite.
  replace (Z.to_nat 0) with 0%nat by reflexivity.
  cbn [firstn Nat.add List.length skipn app].
  pose proof (U8Facts.set_of_buffer [v] (repeat x00 (List.length X)) [] X) as Hset.
  rewrite repeat_length in Hset. specialize (Hset eq_refl).
  cbn [List.length app] in Hset. rewrite !app_nil_r in Hset.
  change (Z.of_nat 1) with 1 in Hset.
  transitivity (Ok (U8.of_buffer (v :: X))); [exact Hset|].
  f_equal. f_equal. f_equal.
  unfold X, payload_size.
  destruct (Z.le_gt_cases (o + (chunkSize c - 1)) L).
  - f_equal. lia.
  - rewrite firstn_all2 by (rewrite length_skipn; lia).
    rewrite firstn_all2 by (rewrite length_skipn; lia).
    reflexivity.
Qed.

(** Storing at the index that equals the length appends. *)
Lemma store_at_length {A} (l : list A) (i : Z) (v : A) :
  List.length l = Z.to_nat i -> store l i v = l ++ [v].
Proof.
  intros H. unfold store. rewrite <- H.
  rewrite firstn_all, skipn_all2 by lia. reflexivity.
Qed.

(** The loop from [i] on appends a chunk list of the rest of the
    input. *)
Lemma getChunks_loop_Chunked (m : nat) :
  forall (i : Z) (acc : list Uint8Array),
    0 <= i -> hasNext c i = true ->
    (Z.to_nat (U8.length (array c) - offset c i) <= m)%nat ->
    List.length acc = Z.to_nat i ->
    exists l,
      getChunks_loop c i acc = (Ok tt, acc ++ l)
      /\ Chunked (payload_size c)
                 (skipn (Z.to_nat (offset c i)) (input_bytes c)) l.
Proof.
  pose proof (chunkSize_large c) as HC.
  pose proof length_B as HB.
  induction m as [|m IH]; intros i acc Hi Hnext Hm Hacc.
  - unfold hasNext in Hnext. apply Z.ltb_lt in Hnext. lia.
  - rewrite getChunks_loop_unfold, Hnext, (chunkAt_spec i Hi Hnext).
    rewrite (store_at_length acc i _ Hacc).
    pose proof (offset_nonneg i Hi) as Ho.
    pose proof Hnext as Hlt. unfold hasNext in Hlt. apply Z.ltb_lt in Hlt.
    set (rest := skipn (Z.to_nat (offset c i)) (input_bytes c)).
    assert (Hrest : Z.of_nat (List.length rest)
                    = U8.length (array c) - offset c i).
    { unfold rest. rewrite length_skipn. lia. }
    destruct (hasNext c (i + 1)) eqn:Hnext'; cbv beta iota.
    + destruct (IH (i + 1)
                   (acc ++ [U8.of_buffer (x01 :: firstn (payload_size c) rest)]))
        as [l [Hl Hch]]; try lia; try assumption.
      { rewrite offset_succ. lia. }
      { rewrite length_app. cbn [List.length]. lia. }
      exists (U8.of_buffer (x01 :: firstn (payload_size c) rest) :: l). split.
      * etransitivity; [exact Hl|]. rewrite <- app_assoc. reflexivity.
      * unfold hasNext in Hnext'. apply Z.ltb_lt in Hnext'.
        rewrite offset_succ in Hnext', Hch.
        replace (Z.to_nat (offset c i + (chunkSize c - 1)))
          with (payload_size c + Z.to_nat (offset c i))%nat in Hch
          by (unfold payload_size; lia).
        rewrite <- skipn_skipn in Hch. fold rest in Hch.
        rewrite <- (firstn_skipn (payload_size c) rest) at 1.
        apply Chunked_more; [| | exact Hch].
        -- rewrite length_firstn. unfold payload_size. lia.
        -- intros Hnil. apply (f_equal (@List.length byte)) in Hnil.
           rewrite length_skipn in Hnil. cbn in Hnil.
           unfold payload_size in Hnil. lia.
    + exists [U8.of_buffer (x00 :: firstn (payload_size c) rest)]. split.
      * rewrite getChunks_loop_unfold, Hnext'. reflexivity.
      * unfold hasNext in Hnext'. apply Z.ltb_ge in Hnext'.
        rewrite offset_succ in Hnext'.
        rewrite firstn_all2 by (unfold payload_size; lia).
        apply Chunked_last. unfold payload_size. lia.
Qed.

End Chunks.

(** A fresh [Chunkifier] over a well-formed array returns a chunk list
    of the array's bytes. *)
Lemma chunk_Chunked (buf : Uint8Array) (C : Z) :
  U8.wf buf -> 1 <= U8.length buf -> 2 <= C ->
  exists l, chunk buf C = Ok l
            /\ Chunked (Z.to_nat (C - 1)) (U8.bytes buf) l.
Proof.
  intros Hwf Hlen HC. unfold chunk, new.
  destruct (Z_lt_dec (U8.length buf) 1) as [|Ha]; [lia|].
  destruct (Z_lt_dec C 2) as [|Hc]; [lia|].
  cbn [rbind]. unfold getChunks. cbn [chunks].
  set (c := {| array := buf; chunkSize := C; chunks := None;
               array_nonempty := _; chunkSize_large := _ |}).
  destruct (getChunks_loop_Chunked c Hwf
              (Z.to_nat (U8.length (array c) - offset c 0)) 0 [])
    as [l [Hl Hch]]; try lia; try reflexivity.
  { unfold hasNext, offset, c. cbn [array chunkSize]. apply Z.ltb_lt. lia. }
  rewrite Hl. cbn [fst rbind app]. exists l. split; [reflexivity|].
  exact Hch.
Qed.

End ChunkifierFacts.

(** ** Chunk lists *)

Module ChunkedFacts.

(** The chunks of a chunk list by position. *)
Lemma Chunked_shape (k : nat) (r : list byte) (l : list Uint8Array) :
  Chunked k r l ->
  exists front last_,
    l = front ++ [last_]
    /\ (forall i ch, nth_error front i = Some ch ->
          ch = U8.of_buffer (x01 :: firstn k (skipn (i * k) r))
          /\ List.length (firstn k (skipn (i * k) r)) = k)
    /\ last_ = U8.of_buffer (x00 :: skipn (List.length front * k) r)
    /\ (1 <= List.length (skipn (List.length front * k) r) <= k)%nat
    /\ (List.length r
        = List.length front * k
          + List.length (skipn (List.length front * k) r))%nat.
Proof.
  induction 1 as [r Hr | p r l Hp Hne Hch IH].
  - exists [], (U8.of_buffer (x00 :: r)). cbn [List.length Nat.mul skipn app].
    split; [reflexivity|].
    split; [intros [|i] ch Hnth; discriminate Hnth|].
    split; [reflexivity|]. split; lia.
  - destruct IH as [front [last_ [Hl [Hfront [Hlast [Hrem Hlen]]]]]].
    exists (U8.of_buffer (x01 :: p) :: front), last_.
    assert (Hskip : forall j, skipn (S j * k) (p ++ r) = skipn (j * k) r).
    { intros j. cbn [Nat.mul]. rewrite skipn_app, Hp.
      rewrite skipn_all2 by lia. cbn [app].
      now rewrite Nat.add_comm, Nat.add_sub. }
    cbn [List.length]. rewrite Hskip.
    split; [rewrite Hl; reflexivity|].
    split.
    { intros [|i] ch Hnth; cbn [nth_error] in Hnth.
      - injection Hnth as <-. cbn [Nat.mul skipn].
        rewrite firstn_app, Hp, Nat.sub_diag, firstn_all2 by lia.
        cbn [firstn]. rewrite app_nil_r. split; [reflexivity | exact Hp].
      - rewrite Hskip. now apply Hfront. }
    split; [exact Hlast|].
    split; [lia|]. rewrite length_app. lia.
Qed.

Lemma getUint8_head (f : byte) (p : list byte) :
  U8.getUint8 (f :: p) 0 = Ok f.
Proof.
  unfold U8.getUint8. cbn [List.length].
  replace (0 <? 0) with false by reflexivity.
  destruct (Z.leb_spec (Z.of_nat (S (List.length p))) 0); [lia|].
  reflexivity.
Qed.

(** [add] of a whole-buffer chunk with flag 1, and with flag 0. *)
Lemma add_more (u : Unchunkifier.t) (p : list byte) :
  Unchunkifier.done u = false ->
  Unchunkifier.add u (U8.of_buffer (x01 :: p))
  = (Ok (JsBoolean false),
     Unchunkifier.pushed u (U8.of_buffer (x01 :: p))).
Proof.
  intros Hu. unfold Unchunkifier.add. rewrite Hu.
  rewrite U8Facts.length_of_buffer. cbn [List.length].
  destruct (Z.eqb_spec (Z.of_nat (S (List.length p))) 0); [lia|].
  cbn [U8.buffer U8.of_buffer]. rewrite getUint8_head. reflexivity.
Qed.

Lemma add_last (u : Unchunkifier.t) (p : list byte) :
  Unchunkifier.done u = false ->
  Unchunkifier.add u (U8.of_buffer (x00 :: p))
  = (Ok (JsBoolean true),
     Unchunkifier.set_done
       (Unchunkifier.pushed u (U8.of_buffer (x00 :: p)))).
Proof.
  intros Hu. unfold Unchunkifier.add. rewrite Hu.
  rewrite U8Facts.length_of_buffer. cbn [List.length].
  destruct (Z.eqb_spec (Z.of_nat (S (List.length p))) 0); [lia|].
  cbn [U8.buffer U8.of_buffer]. rewrite getUint8_head. reflexivity.
Qed.

(** Feeding a chunk list into an [Unchunkifier] that is not done: every
    chunk is accepted, and the last one completes it. *)
Lemma feed_Chunked (k : nat) (r : list byte) (l : list Uint8Array) :
  Chunked k r l ->
  forall u, Unchunkifier.done u = false ->
    feed u l
    = (Ok tt, {| Unchunkifier.chunks := Unchunkifier.chunks u ++ l;
                 Unchunkifier.length :=
                   Unchunkifier.length u + Z.of_nat (List.length r);
                 Unchunkifier.done := true;
                 Unchunkifier.merged := Unchunkifier.merged u |}).
Proof.
  induction 1 as [r Hr | p r l Hp Hne Hch IH]; intros u Hu.
  - cbn [feed]. rewrite add_last by exact Hu.
    unfold Unchunkifier.set_done, Unchunkifier.pushed.
    cbn [Unchunkifier.chunks Unchunkifier.length Unchunkifier.merged].
    rewrite U8Facts.length_of_buffer. cbn [List.length].
    do 2 f_equal. lia.
  - cbn [feed]. rewrite add_more by exact Hu.
    rewrite IH by exact Hu. unfold Unchunkifier.pushed.
    cbn [Unchunkifier.chunks Unchunkifier.length Unchunkifier.merged].
    rewrite <- app_assoc, length_app, U8Facts.length_of_buffer.
    cbn [List.length app]. do 2 f_equal. lia.
Qed.

(** The loop of [merge] over a chunk list writes its payload. *)
Lemma merge_loop_Chunked (k : nat) (r : list byte) (l : list Uint8Array) :
  Chunked k r l ->
  forall pre old : list byte,
    List.length old = List.length r ->
    Unchunkifier.merge_loop (U8.of_buffer (pre ++ old))
                            (Z.of_nat (List.length pre)) l
    = Ok (U8.of_buffer (pre ++ r)).
Proof.
  induction 1 as [r Hr | p r l Hp Hne Hch IH]; intros pre old Hold.
  - cbn [Unchunkifier.merge_loop]. rewrite U8Facts.slice_from_1.
    pose proof (U8Facts.set_of_buffer pre old [] r Hold) as Hset.
    rewrite !app_nil_r in Hset. rewrite Hset. reflexivity.
  - cbn [Unchunkifier.merge_loop]. rewrite U8Facts.slice_from_1.
    rewrite length_app in Hold.
    rewrite <- (firstn_skipn (List.length p) old).
    rewrite (U8Facts.set_of_buffer pre (firstn (List.length p) old)
               (skipn (List.length p) old) p)
      by (rewrite length_firstn; lia).
    cbn [rbind]. rewrite U8Facts.length_of_buffer. cbn [List.length].
    replace (Z.of_nat (List.length pre) + (Z.of_nat (S (List.length p)) - 1))
      with (Z.of_nat (List.length (pre ++ p))) by (rewrite length_app; lia).
    rewrite (app_assoc pre p (skipn _ old)).
    rewrite IH by (rewrite length_skipn; lia).
    rewrite <- app_assoc. reflexivity.
Qed.

(** Dechunking a chunk list gives its payload, in a buffer of its own. *)
Lemma dechunk_Chunked (k : nat) (r : list byte) (l : list Uint8Array) :
  Chunked k r l -> dechunk l = Ok (U8.of_buffer r).
Proof.
  intros Hch. unfold dechunk.
  rewrite (feed_Chunked k r l Hch Unchunkifier.new eq_refl).
  cbn [rbind]. unfold Unchunkifier.merge.
  cbn [Unchunkifier.done negb Unchunkifier.merged Unchunkifier.new
       Unchunkifier.length Unchunkifier.chunks app].
  unfold U8.alloc, U8.ArrayBuffer.
  destruct (Z.ltb_spec (0 + Z.of_nat (List.length r)) 0); [lia|].
  cbn [rbind].
  pose proof (merge_loop_Chunked k r l Hch [] (repeat x00 (List.length r))
                (repeat_length _ _)) as Hm.
  replace (Z.to_nat (0 + Z.of_nat (List.length r))) with (List.length r) by lia.
  change (Unchunkifier.merge_loop (U8.of_buffer (repeat x00 (List.length r))) 0 l
          = Ok (U8.of_buffer r)) in Hm.
  change ([] ++ l) with l. rewrite Hm. reflexivity.
Qed.

End ChunkedFacts.

(** ** The chunking sublayer: the claims *)

(** C5. For a non-empty input of length L and a chunk size C >= 2, the
    Chunkifier produces exactly ceil(L / (C - 1)) chunks; every chunk but
    the last starts with the flag byte 0x01, carries the next C - 1 bytes
    of the input and has total length C; the last chunk starts with the
    flag byte 0x00 and carries the remaining r bytes, 1 <= r <= C - 1. *)
Theorem chunk_count_and_shape (buf : Uint8Array) (C : Z) :
  U8.wf buf -> 1 <= U8.length buf -> 2 <= C ->
  exists front last_,
    chunk buf C = Ok (front ++ [last_])
    /\ Z.of_nat (List.length (front ++ [last_]))
       = ceil_div (U8.length buf) (C - 1)
    /\ (forall i ch, nth_error front i = Some ch ->
          U8.bytes ch
          = x01 :: firstn (Z.to_nat (C - 1))
                          (skipn (i * Z.to_nat (C - 1)) (U8.bytes buf))
          /\ U8.length ch = C)
    /\ U8.bytes last_
       = x00 :: skipn (List.length front * Z.to_nat (C - 1)) (U8.bytes buf)
    /\ 1 <= U8.length last_ - 1 <= C - 1
    /\ U8.length last_ - 1
       = U8.length buf - Z.of_nat (List.length front) * (C - 1).
Proof.
  intros Hwf Hlen HC.
  destruct (ChunkifierFacts.chunk_Chunked buf C Hwf Hlen HC) as [l [Hl Hch]].
  destruct (ChunkedFacts.Chunked_shape _ _ _ Hch)
    as [front [last_ [El [Hfront [Hlast [Hrem Hsum]]]]]].
  set (k := Z.to_nat (C - 1)) in *.
  set (rem := List.length (skipn (List.length front * k) (U8.bytes buf))) in *.
  assert (HL : U8.length buf = Z.of_nat (List.length front) * (C - 1) + Z.of_nat rem).
  { unfold U8.length. rewrite <- (U8Facts.bytes_length buf Hwf), Hsum.
    unfold k. nia. }
  exists front, last_. subst l.
  split; [exact Hl|].
  split.
  { rewrite length_app. cbn [List.length]. unfold ceil_div.
    apply Z.div_unique with (r := Z.of_nat rem - 1); [unfold k in *; lia|].
    rewrite HL. nia. }
  split.
  { intros i ch Hnth. destruct (Hfront i ch Hnth) as [-> Hk].
    rewrite U8Facts.bytes_of_buffer, U8Facts.length_of_buffer.
    split; [reflexivity|]. cbn [List.length]. rewrite Hk. unfold k. lia. }
  split.
  { rewrite Hlast. apply U8Facts.bytes_of_buffer. }
  rewrite Hlast, U8Facts.length_of_buffer. cbn [List.length]. fold rem.
  unfold k in *. lia.
Qed.

Lemma chunk_count_and_shape_witness :
  exists front last_,
    chunk (u8 [1; 2; 3; 4; 5; 6]%nat) 3 = Ok (front ++ [last_])
    /\ Z.of_nat (List.length (front ++ [last_]))
       = ceil_div (U8.length (u8 [1; 2; 3; 4; 5; 6]%nat)) (3 - 1)
    /\ (forall i ch, nth_error front i = Some ch ->
          U8.bytes ch
          = x01 :: firstn (Z.to_nat (3 - 1))
                          (skipn (i * Z.to_nat (3 - 1))
                                 (U8.bytes (u8 [1; 2; 3; 4; 5; 6]%nat)))
          /\ U8.length ch = 3)
    /\ U8.bytes last_
       = x00 :: skipn (List.length front * Z.to_nat (3 - 1))
                      (U8.bytes (u8 [1; 2; 3; 4; 5; 6]%nat))
    /\ 1 <= U8.length last_ - 1 <= 3 - 1
    /\ U8.length last_ - 1
       = U8.length (u8 [1; 2; 3; 4; 5; 6]%nat)
         - Z.of_nat (List.length front) * (3 - 1).
Proof.
  apply (chunk_count_and_shape (u8 [1; 2; 3; 4; 5; 6]%nat) 3).
  - unfold U8.wf. cbn. lia.
  - cbn. lia.
  - lia.
Defined.

(** C1. For every non-empty byte buffer and every chunk size C >= 2, the
    chunks that the Chunkifier produces, added in order to a fresh
    Unchunkifier and merged, give back the bytes of the buffer. *)
Theorem chunk_dechunk_roundtrip (buf : Uint8Array) (C : Z) :
  U8.wf buf -> 1 <= U8.length buf -> 2 <= C ->
  exists chunks merged,
    chunk buf C = Ok chunks
    /\ dechunk chunks = Ok merged
    /\ U8.bytes merged = U8.bytes buf.
Proof.
  intros Hwf Hlen HC.
  destruct (ChunkifierFacts.chunk_Chunked buf C Hwf Hlen HC) as [l [Hl Hch]].
  exists l, (U8.of_buffer (U8.bytes buf)).
  split; [exact Hl|].
  split; [exact (ChunkedFacts.dechunk_Chunked _ _ _ Hch)|].
  apply U8Facts.bytes_of_buffer.
Qed.

Lemma chunk_dechunk_roundtrip_witness :
  exists chunks merged,
    chunk (u8 [1; 2; 3]%nat) 2 = Ok chunks
    /\ dechunk chunks = Ok merged
    /\ U8.bytes merged = U8.bytes (u8 [1; 2; 3]%nat).
Proof.
  apply (chunk_dechunk_roundtrip (u8 [1; 2; 3]%nat) 2).
  - unfold U8.wf. cbn. lia.
  - cbn. lia.
  - lia.
Defined.

(** The chunk lists of the specification's scenarios. *)
Example chunk_scenario_1 :
  chunk (u8 [1; 2; 3; 4; 5; 6]%nat) 3
  = Ok [u8 [1; 1; 2]; u8 [1; 3; 4]; u8 [0; 5; 6]]%nat.
Proof. reflexivity. Qed.

Example chunk_scenario_2 :
  chunk (u8 [1; 2; 3; 4; 5; 6]%nat) 5
  = Ok [u8 [1; 1; 2; 3; 4]; u8 [0; 5; 6]]%nat.
Proof. reflexivity. Qed.

Example chunk_scenario_3 :
  chunk (u8 [1; 2]%nat) 99 = Ok [u8 [0; 1; 2]]%nat.
Proof. reflexivity. Qed.

Example chunk_scenario_4 :
  chunk (u8 [1; 2; 3]%nat) 2 = Ok [u8 [1; 1]; u8 [1; 2]; u8 [0; 3]]%nat.
Proof. reflexivity. Qed.

Example chunk_rejects_empty :
  chunk (u8 []) 5 = Throw (RangeError "Array may not be empty").
Proof. reflexivity. Qed.

Example chunk_rejects_small_size :
  chunk (u8 [1; 2]%nat) 1 = Throw (RangeError "Chunk size must be larger than 1")
  /\ chunk (u8 [1; 2]%nat) (-1)
     = Throw (RangeError "Chunk size must be larger than 1").
Proof. split; reflexivity. Qed.

(** ** Unchunkifier: the claims *)

(** [add] of an empty chunk on an object that is not done: [undefined],
    and the object as it was. *)
Lemma add_of_empty (u : Unchunkifier.t) (a : Uint8Array) :
  Unchunkifier.done u = false -> U8.length a = 0 ->
  Unchunkifier.add u a = (Ok JsUndefined, u).
Proof.
  intros Hu Ha. unfold Unchunkifier.add. rewrite Hu, Ha. reflexivity.
Qed.

(** C8 (the code differs). For an Unchunkifier that is not complete, [add]
    of an empty chunk leaves the chunk list, the length and the completion
    flag as they were, but what it returns is [undefined] (the bare
    [return;]), not the boolean [false]. *)
Theorem add_empty_chunk_returns_undefined (u : Unchunkifier.t) (a : Uint8Array) :
  Unchunkifier.done u = false -> U8.length a = 0 ->
  exists r u',
    Unchunkifier.add u a = (Ok r, u')
    /\ r = JsUndefined
    /\ r <> JsBoolean false
    /\ u' = u.
Proof.
  intros Hu Ha. exists JsUndefined, u.
  split; [exact (add_of_empty u a Hu Ha)|].
  split; [reflexivity|]. split; [discriminate | reflexivity].
Qed.

Lemma add_empty_chunk_returns_undefined_witness :
  exists r u',
    Unchunkifier.add Unchunkifier.new (u8 []) = (Ok r, u')
    /\ r = JsUndefined
    /\ r <> JsBoolean false
    /\ u' = Unchunkifier.new.
Proof.
  apply (add_empty_chunk_returns_undefined Unchunkifier.new (u8 []));
    reflexivity.
Defined.

(** The test "does not complain about empty chunks". *)
Example dechunk_skips_empty_chunks :
  dechunk [u8 [1; 1]; u8 []; u8 [0; 2]]%nat = Ok (u8 [1; 2]%nat).
Proof. reflexivity. Qed.

(** When the byte that [add] reads (byte 0 of the chunk's buffer, [new
    DataView(array.buffer).getUint8(0)]) is neither 0 nor 1, the error is
    thrown after the chunk has been pushed and the length has been
    increased: the object is changed although the call failed.  For a
    chunk that starts its buffer that byte is the chunk's flag byte (see
    [flag_is_first_byte] below). *)
Theorem add_invalid_chunk_not_atomic
        (u : Unchunkifier.t) (a : Uint8Array) (flag : byte) :
  Unchunkifier.done u = false ->
  U8.length a <> 0 ->
  U8.getUint8 (U8.buffer a) 0 = Ok flag ->
  flag <> x00 -> flag <> x01 ->
  exists u',
    Unchunkifier.add u a
    = (Throw (Error ("Invalid chunk received: "
                     ++ decimal (Byte.to_nat flag))%string), u')
    /\ Unchunkifier.chunks u' = Unchunkifier.chunks u ++ [a]
    /\ Unchunkifier.length u'
       = Unchunkifier.length u + (U8.length a - 1)
    /\ Unchunkifier.done u' = false
    /\ Unchunkifier.merged u' = Unchunkifier.merged u
    /\ u' <> u.
Proof.
  intros Hu Ha Hflag H0 H1.
  exists (Unchunkifier.pushed u a).
  split.
  - unfold Unchunkifier.add. rewrite Hu.
    destruct (Z.eqb_spec (U8.length a) 0) as [|_]; [contradiction|].
    rewrite Hflag.
    destruct (Byte.eqb flag x00) eqn:E0;
      [apply Byte.byte_dec_bl in E0; contradiction|].
    destruct (Byte.eqb flag x01) eqn:E1;
      [apply Byte.byte_dec_bl in E1; contradiction|].
    reflexivity.
  - cbn [Unchunkifier.pushed Unchunkifier.chunks Unchunkifier.length
         Unchunkifier.done Unchunkifier.merged].
    repeat split; try reflexivity; try exact Hu.
    intros Heq. apply (f_equal Unchunkifier.chunks) in Heq.
    cbn [Unchunkifier.pushed Unchunkifier.chunks] in Heq.
    apply (f_equal (@List.length Uint8Array)) in Heq.
    rewrite length_app in Heq. cbn [List.length] in Heq. lia.
Qed.

Lemma add_invalid_chunk_not_atomic_witness :
  exists u',
    Unchunkifier.add Unchunkifier.new (u8 [2; 3; 4]%nat)
    = (Throw (Error ("Invalid chunk received: "
                     ++ decimal (Byte.to_nat x02))%string), u')
    /\ Unchunkifier.chunks u'
       = Unchunkifier.chunks Unchunkifier.new ++ [u8 [2; 3; 4]%nat]
    /\ Unchunkifier.length u'
       = Unchunkifier.length Unchunkifier.new
         + (U8.length (u8 [2; 3; 4]%nat) - 1)
    /\ Unchunkifier.done u' = false
    /\ Unchunkifier.merged u' = Unchunkifier.merged Unchunkifier.new
    /\ u' <> Unchunkifier.new.
Proof.
  apply (add_invalid_chunk_not_atomic Unchunkifier.new (u8 [2; 3; 4]%nat) x02).
  - reflexivity.
  - cbn. lia.
  - reflexivity.
  - discriminate.
  - discriminate.
Defined.

(** For a chunk that starts its buffer, the byte that [add] reads is the
    chunk's first byte. *)
Lemma flag_is_first_byte (a : Uint8Array) (flag : byte) :
  U8.wf a -> U8.byteOffset a = 0%nat -> U8.length a <> 0 ->
  (U8.getUint8 (U8.buffer a) 0 = Ok flag
   <-> nth_error (U8.bytes a) 0 = Some flag).
Proof.
  destruct a as [b off n]. unfold U8.wf, U8.length, U8.bytes, U8.getUint8.
  cbn [U8.buffer U8.byteOffset U8.len]. intros Hwf -> Hn.
  cbn [skipn Nat.add] in *.
  destruct n as [|n]; [cbn in Hn; lia|].
  destruct b as [|x b]; [cbn in Hwf; lia|].
  cbn [List.length firstn nth_error].
  replace (0 <? 0) with false by reflexivity.
  destruct (Z.leb_spec (Z.of_nat (S (List.length b))) 0); [lia|].
  cbn. split; intros H'; congruence.
Qed.

(** C9 (the code differs). [add] takes the flag from byte 0 of the
    chunk's buffer ([new DataView(array.buffer)]), not from the chunk's
    own first byte, which is what [merge] strips with [chunk.slice(1)].
    For a non-empty chunk that lies further on in its buffer, its flag
    byte neither 0 nor 1, over a buffer that starts with a 0 byte, no
    error is thrown at all: [add] returns [true], the chunk is pushed and
    counted, and the object is complete. *)
Theorem add_invalid_flag_of_view_accepted
        (u : Unchunkifier.t) (a : Uint8Array) (flag : byte) :
  Unchunkifier.done u = false ->
  U8.length a <> 0 ->
  nth_error (U8.bytes a) 0 = Some flag ->
  flag <> x00 -> flag <> x01 ->
  U8.getUint8 (U8.buffer a) 0 = Ok x00 ->
  exists u',
    Unchunkifier.add u a = (Ok (JsBoolean true), u')
    /\ Unchunkifier.chunks u' = Unchunkifier.chunks u ++ [a]
    /\ Unchunkifier.length u'
       = Unchunkifier.length u + (U8.length a - 1)
    /\ Unchunkifier.done u' = true
    /\ (forall e, fst (Unchunkifier.add u a) <> Throw e).
Proof.
  intros Hu Ha _ _ _ Hhead.
  exists (Unchunkifier.set_done (Unchunkifier.pushed u a)).
  assert (Hadd : Unchunkifier.add u a
                 = (Ok (JsBoolean true),
                    Unchunkifier.set_done (Unchunkifier.pushed u a))).
  { unfold Unchunkifier.add. rewrite Hu.
    destruct (Z.eqb_spec (U8.length a) 0) as [|_]; [contradiction|].
    rewrite Hhead. reflexivity. }
  split; [exact Hadd|].
  repeat (split; [reflexivity|]).
  intros e. rewrite Hadd. discriminate.
Qed.

(** The chunk [2, 7] seen at offset 1 of the buffer [0, 2, 7]: [new
    Uint8Array(Uint8Array.of(0, 2, 7).buffer, 1, 2)]. *)
Lemma add_invalid_flag_of_view_accepted_witness :
  exists u',
    Unchunkifier.add Unchunkifier.new
      {| U8.buffer := [x00; x02; x07]; U8.byteOffset := 1; U8.len := 2 |}
    = (Ok (JsBoolean true), u')
    /\ Unchunkifier.chunks u'
       = Unchunkifier.chunks Unchunkifier.new
         ++ [{| U8.buffer := [x00; x02; x07]; U8.byteOffset := 1;
                U8.len := 2 |}]
    /\ Unchunkifier.length u'
       = Unchunkifier.length Unchunkifier.new
         + (U8.length {| U8.buffer := [x00; x02; x07]; U8.byteOffset := 1;
                         U8.len := 2 |} - 1)
    /\ Unchunkifier.done u' = true
    /\ (forall e,
          fst (Unchunkifier.add Unchunkifier.new
                 {| U8.buffer := [x00; x02; x07]; U8.byteOffset := 1;
                    U8.len := 2 |})
          <> Throw e).
Proof.
  apply (add_invalid_flag_of_view_accepted Unchunkifier.new
           {| U8.buffer := [x00; x02; x07]; U8.byteOffset := 1; U8.len := 2 |}
           x02).
  - reflexivity.
  - cbn. lia.
  - reflexivity.
  - discriminate.
  - discriminate.
  - reflexivity.
Defined.

(** The same bytes as an array of its own are refused, as the claim
    says. *)
Example add_invalid_flag_of_array_refused :
  fst (Unchunkifier.add Unchunkifier.new (u8 [2; 7]%nat))
  = Throw (Error "Invalid chunk received: 2").
Proof. reflexivity. Qed.

(** The test "cannot add invalid chunks". *)
Example add_invalid_chunk_message :
  fst (Unchunkifier.add Unchunkifier.new (u8 [2; 3; 4]%nat))
  = Throw (Error "Invalid chunk received: 2").
Proof. reflexivity. Qed.

(** ** CombinedSequence: the claims *)

Module CombinedSequenceFacts.
Import CombinedSequence.

(** When [next()] throws. *)
Lemma next_throws_iff (c : t) :
  (exists e, fst (next c) = Throw e)
  <-> (sequenceNumber c + 1 >= SEQUENCE_NUMBER_MAX
       /\ overflow c + 1 >= OVERFLOW_MAX).
Proof.
  unfold next.
  destruct (Z.geb_spec (sequenceNumber c + 1) SEQUENCE_NUMBER_MAX) as [Hs|Hs];
    cbn [overflow sequenceNumber].
  - destruct (Z.geb_spec (overflow c + 1) OVERFLOW_MAX) as [Ho|Ho];
      cbn [fst].
    + split; [intros _; lia | intros _; eexists; reflexivity].
    + split; [intros [e He]; discriminate He | lia].
  - cbn [fst]. split; [intros [e He]; discriminate He | lia].
Qed.

(** What [next()] returns when it does not throw: the pair after the
    increment, which is the object after. *)
Lemma next_returns (c r c' : t) :
  next c = (Ok r, c') ->
  r = c'
  /\ lex_lt c c'
  /\ ((sequenceNumber c + 1 < SEQUENCE_NUMBER_MAX
       /\ sequenceNumber c' = sequenceNumber c + 1
       /\ overflow c' = overflow c)
      \/ (sequenceNumber c + 1 >= SEQUENCE_NUMBER_MAX
          /\ sequenceNumber c' = 0
          /\ overflow c' = overflow c + 1)).
Proof.
  unfold next, lex_lt.
  destruct (Z.geb_spec (sequenceNumber c + 1) SEQUENCE_NUMBER_MAX) as [Hs|Hs];
    cbn [overflow sequenceNumber].
  - destruct (Z.geb_spec (overflow c + 1) OVERFLOW_MAX) as [Ho|Ho];
      [discriminate|].
    intros H. injection H as <- <-. cbn [overflow sequenceNumber].
    split; [reflexivity|]. split; [lia|]. right. lia.
  - intros H. injection H as <- <-. cbn [overflow sequenceNumber].
    split; [reflexivity|]. split; [lia|]. left. lia.
Qed.

End CombinedSequenceFacts.

(** C3 (the code differs). When a wrap of the sequence number takes the
    overflow counter to 2^16 or beyond, but below 0x100000 (the value of
    [OVERFLOW_MAX], which the source comments as 1<<16), [next()] does
    not fail: it returns the pair (0, overflow + 1). *)
Theorem next_does_not_fail_at_2_16 (c : CombinedSequence.t) :
  CombinedSequence.sequenceNumber c + 1 >= 2 ^ 32 ->
  2 ^ 16 <= CombinedSequence.overflow c + 1 < 0x100000 ->
  CombinedSequence.next c
  = (Ok {| CombinedSequence.sequenceNumber := 0;
           CombinedSequence.overflow := CombinedSequence.overflow c + 1 |},
     {| CombinedSequence.sequenceNumber := 0;
        CombinedSequence.overflow := CombinedSequence.overflow c + 1 |}).
Proof.
  intros Hs Ho. unfold CombinedSequence.next.
  destruct (Z.geb_spec (CombinedSequence.sequenceNumber c + 1)
                       CombinedSequence.SEQUENCE_NUMBER_MAX) as [_|Hs'];
    [|unfold CombinedSequence.SEQUENCE_NUMBER_MAX in Hs'; lia].
  cbn [CombinedSequence.overflow CombinedSequence.sequenceNumber].
  destruct (Z.geb_spec (CombinedSequence.overflow c + 1)
                       CombinedSequence.OVERFLOW_MAX) as [Ho'|_];
    [unfold CombinedSequence.OVERFLOW_MAX in Ho'; lia|].
  reflexivity.
Qed.

Lemma next_does_not_fail_at_2_16_witness :
  CombinedSequence.next {| CombinedSequence.sequenceNumber := 0xFFFFFFFF;
                           CombinedSequence.overflow := 0xFFFF |}
  = (Ok {| CombinedSequence.sequenceNumber := 0;
           CombinedSequence.overflow := 0xFFFF + 1 |},
     {| CombinedSequence.sequenceNumber := 0;
        CombinedSequence.overflow := 0xFFFF + 1 |}).
Proof.
  apply (next_does_not_fail_at_2_16
           {| CombinedSequence.sequenceNumber := 0xFFFFFFFF;
              CombinedSequence.overflow := 0xFFFF |}).
  - cbn. lia.
  - cbn. lia.
Defined.

(** ** Running the engine's methods *)

Module Run.
Import Signaling.

Lemma bind_ok {S A B} (m : M S A) (k : A -> M S B) (s s' : S) (a : A) :
  m s = (Ok a, s') -> mbind m k s = k a s'.
Proof. intros H. unfold mbind. now rewrite H. Qed.

Lemma on_ws_some (f : WebSocket.t -> WebSocket.t) (s : Sys) (ref : nat) :
  ws (this s) = Some ref ->
  on_ws f s
  = (Ok tt, {| this := this s;
               world := World.set_socket (world s) ref
                          (f (World.sockets (world s) ref)) |}).
Proof. intros H. unfold on_ws, mbind, self, act. now rewrite H. Qed.

(** [resetConnection] on any engine. *)
Lemma resetConnection_run (s : Sys) :
  resetConnection s
  = (Ok tt,
     {| this :=
          set_ws
            (set_serverCombinedSequence
               (set_state (this s) new)
               (CombinedSequence.new
                  (World.uint32s (world s) (World.uint32sDrawn (world s)))))
            None;
        world :=
          match ws (this s) with
          | Some ref =>
            World.set_socket (snd (World.randomUint32 (world s))) ref
              (WebSocket.close (World.sockets (world s) ref))
          | None => snd (World.randomUint32 (world s))
          end |}).
Proof.
  destruct s as [t w]. destruct t as [ws0 ? ? ? ? ? ? ? ? ? ? ? ? ? ? ? ?].
  destruct ws0 as [ref|]; reflexivity.
Qed.

(** [abort] on an engine that has a WebSocket. *)
Lemma abort_run {A} (s : Sys) (ref : nat) :
  ws (this s) = Some ref ->
  exists s', abort (A := A) s
             = (Throw (Error "Aborting due to a protocol error"), s')
             /\ Aborted ref s'.
Proof.
  intros Hws. unfold abort.
  rewrite (bind_ok _ _ _ _ _ (on_ws_some _ s ref Hws)).
  erewrite bind_ok by apply resetConnection_run.
  eexists. split; [reflexivity|].
  unfold Aborted. cbn [this world set_ws set_serverCombinedSequence set_state
                       state ws]. rewrite Hws.
  cbn [World.set_socket World.sockets World.randomUint32 snd].
  rewrite Nat.eqb_refl. cbn [WebSocket.close WebSocket.closed].
  repeat split.
  unfold WebSocket.handles, WebSocket.removeEventListener.
  cbn [WebSocket.listeners].
  apply not_true_is_false. intros H.
  apply existsb_exists in H. destruct H as [e [Hin He]].
  apply filter_In in Hin. destruct Hin as [_ Hf].
  rewrite He in Hf. discriminate Hf.
Qed.

End Run.

(** ** [resetConnection] and [buildPacket]: the claims *)

(** C10. [resetConnection] sets the state to 'new', replaces the server
    combined sequence by a fresh one (sequence number drawn at random,
    overflow 0), closes the WebSocket if there is one and sets [ws] to
    null; every other field of the engine is left as it was: the
    responders (with their combined sequences), the chosen responder, the
    session and permanent keys, the auth token, the cookie pair, the
    server key, the role, the address, the initiator's keys and handshake
    state and the initiator combined sequence. *)
Theorem resetConnection_frame (s : Signaling.Sys) :
  exists s',
    Signaling.resetConnection s = (Ok tt, s')
    /\ Signaling.state (Signaling.this s') = Signaling.new
    /\ Signaling.serverCombinedSequence (Signaling.this s')
       = CombinedSequence.new
           (World.uint32s (Signaling.world s)
                          (World.uint32sDrawn (Signaling.world s)))
    /\ Signaling.ws (Signaling.this s') = None
    /\ (forall r,
          World.sockets (Signaling.world s') r
          = if match Signaling.ws (Signaling.this s) with
               | Some ref => Nat.eqb r ref
               | None => false
               end
            then WebSocket.close (World.sockets (Signaling.world s) r)
            else World.sockets (Signaling.world s) r)
    /\ Signaling.responders (Signaling.this s')
       = Signaling.responders (Signaling.this s)
    /\ Signaling.responder (Signaling.this s')
       = Signaling.responder (Signaling.this s)
    /\ Signaling.sessionKey (Signaling.this s')
       = Signaling.sessionKey (Signaling.this s)
    /\ Signaling.permanentKey (Signaling.this s')
       = Signaling.permanentKey (Signaling.this s)
    /\ Signaling.authToken (Signaling.this s')
       = Signaling.authToken (Signaling.this s)
    /\ Signaling.cookiePair (Signaling.this s')
       = Signaling.cookiePair (Signaling.this s)
    /\ Signaling.serverKey (Signaling.this s')
       = Signaling.serverKey (Signaling.this s)
    /\ Signaling.role (Signaling.this s')
       = Signaling.role (Signaling.this s)
    /\ Signaling.address (Signaling.this s')
       = Signaling.address (Signaling.this s)
    /\ Signaling.initiatorPermanentKey (Signaling.this s')
       = Signaling.initiatorPermanentKey (Signaling.this s)
    /\ Signaling.initiatorSessionKey (Signaling.this s')
       = Signaling.initiatorSessionKey (Signaling.this s)
    /\ Signaling.initiatorConnected (Signaling.this s')
       = Signaling.initiatorConnected (Signaling.this s)
    /\ Signaling.initiatorHandshakeState (Signaling.this s')
       = Signaling.initiatorHandshakeState (Signaling.this s)
    /\ Signaling.initiatorCombinedSequence (Signaling.this s')
       = Signaling.initiatorCombinedSequence (Signaling.this s).
Proof.
  eexists. split; [apply Run.resetConnection_run|].
  cbn [Signaling.this Signaling.world].
  repeat (split; [reflexivity|]).
  split; [|repeat split; reflexivity].
  intros r. destruct (Signaling.ws (Signaling.this s)) as [ref|];
    [|reflexivity].
  cbn [World.set_socket World.sockets World.randomUint32 snd].
  destruct (Nat.eqb_spec r ref) as [->|]; reflexivity.
Qed.

(** [connect()] in the run of the initiator: the WebSocket of the first
    connection is left alone by a reset of an engine that has none. *)
Example resetConnection_without_socket :
  Signaling.ws (Signaling.this Scenario.created) = None
  /\ Signaling.state
       (Signaling.this (snd (Signaling.resetConnection Scenario.created)))
     = Signaling.new.
Proof. split; reflexivity. Qed.

Module BuildPacketFacts.
Import Signaling.

Section WithCollaborators.
Context {E : Collaborators}.

Lemma responder_address_not_server (a : Z) :
  is_responder_address a = true ->
  (a =? SALTYRTC_ADDR_SERVER) = false
  /\ (a =? SALTYRTC_ADDR_INITIATOR) = false.
Proof.
  unfold is_responder_address, SALTYRTC_ADDR_SERVER, SALTYRTC_ADDR_INITIATOR.
  intros H. apply andb_true_iff in H. destruct H as [H1 H2].
  apply Z.geb_le in H1. split; apply Z.eqb_neq; lia.
Qed.

(** For a responder, [buildPacket] takes the combined sequence object
    itself: no [next()], and the engine is as before. *)
Lemma buildPacket_csn_responder (receiver : Z) (s : Sys)
      (rs : JsMap.t Responder.t) (r : Responder.t) :
  is_responder_address receiver = true ->
  responders (this s) = Some rs ->
  JsMap.get rs receiver = Some r ->
  buildPacket_csn receiver s = (Ok (Responder.combinedSequence r), s).
Proof.
  intros Ha Hrs Hr. unfold buildPacket_csn.
  destruct (responder_address_not_server receiver Ha) as [-> ->].
  rewrite Ha. unfold responders_get, mbind, self, deref, ret.
  rewrite Hrs, Hr. reflexivity.
Qed.

(** For the server, [buildPacket] calls [next()] on the server
    combined sequence. *)
Lemma buildPacket_csn_server (s : Sys) :
  buildPacket_csn SALTYRTC_ADDR_SERVER s
  = (fst (CombinedSequence.next (serverCombinedSequence (this s))),
     {| this := set_serverCombinedSequence (this s)
                  (snd (CombinedSequence.next
                          (serverCombinedSequence (this s))));
        world := world s |}).
Proof.
  unfold buildPacket_csn, serverCombinedSequence_next.
  cbn [Z.eqb SALTYRTC_ADDR_SERVER].
  destruct (CombinedSequence.next _); reflexivity.
Qed.

End WithCollaborators.
End BuildPacketFacts.

(** C2 (the code differs). For a receiver in 0x02..0xff, [buildPacket]
    reads the responder's combined sequence without calling [next()]: in
    the run of the initiator, two packets built in a row for responder
    0x02 carry the same pair (overflow 0, sequence 103) in their nonces,
    and the responder's combined sequence is as before.  The pairs are
    not strictly increasing. *)
Theorem buildPacket_responder_csn_not_advanced :
  exists p1 s1 p2 s2 n1 n2,
    Signaling.buildPacket (E := Scenario.E) (Auth Scenario.responderCookie)
                          2 true Scenario.key_received = (Ok p1, s1)
    /\ Signaling.buildPacket (E := Scenario.E) (Auth Scenario.responderCookie)
                             2 true s1 = (Ok p2, s2)
    /\ Reference.Nonce_fromArrayBuffer (firstn 24 p1) = Ok n1
    /\ Reference.Nonce_fromArrayBuffer (firstn 24 p2) = Ok n2
    /\ Nonce.destination n1 = 2 /\ Nonce.destination n2 = 2
    /\ (Nonce.overflow n1, Nonce.sequenceNumber n1) = (0, 103)
    /\ (Nonce.overflow n2, Nonce.sequenceNumber n2) = (0, 103)
    /\ ~ CombinedSequence.lex_lt
           (CombinedSequence.mk (Nonce.sequenceNumber n1) (Nonce.overflow n1))
           (CombinedSequence.mk (Nonce.sequenceNumber n2) (Nonce.overflow n2))
    /\ Signaling.this s2 = Signaling.this Scenario.key_received.
Proof.
  do 6 eexists.
  split; [vm_compute; reflexivity|].
  split; [vm_compute; reflexivity|].
  split; [vm_compute; reflexivity|].
  split; [vm_compute; reflexivity|].
  split; [reflexivity|]. split; [reflexivity|].
  split; [reflexivity|]. split; [reflexivity|].
  split; [|reflexivity].
  unfold CombinedSequence.lex_lt. cbn. lia.
Qed.

(** ** The server handshake: the claims *)

Module KeepsFacts.
Import Signaling.

Section Observation.
Context {X : Type} (P : Sys -> X).

Lemma keeps_ret {A} (a : A) : Keeps P (ret a).
Proof. intros s. reflexivity. Qed.

Lemma keeps_throw {A} (e : exn) : Keeps P (throw (A := A) e).
Proof. intros s. reflexivity. Qed.

Lemma keeps_call {A} (r : result A) : Keeps P (call r).
Proof. intros s. destruct r; reflexivity. Qed.

Lemma keeps_deref {A} (x : option A) (what : string) :
  Keeps P (deref x what).
Proof. intros s. destruct x; reflexivity. Qed.

Lemma keeps_self : Keeps P self.
Proof. intros s. reflexivity. Qed.

Lemma keeps_bind {A B} (m : M Sys A) (k : A -> M Sys B) :
  Keeps P m -> (forall a, Keeps P (k a)) -> Keeps P (mbind m k).
Proof.
  intros Hm Hk s. unfold mbind. specialize (Hm s).
  destruct (m s) as [[a|e] s1]; cbn [snd] in *.
  - rewrite Hk. exact Hm.
  - exact Hm.
Qed.

Lemma keeps_when (b : bool) (m : M Sys unit) :
  Keeps P m -> Keeps P (when b m).
Proof. intros Hm. destruct b; [exact Hm | apply keeps_ret]. Qed.

Lemma keeps_assign (f : t -> t) :
  (forall s, P {| this := f (this s); world := world s |} = P s) ->
  Keeps P (assign f).
Proof. intros H s. apply H. Qed.

Lemma keeps_act (f : World.t -> World.t) :
  (forall s, P {| this := this s; world := f (world s) |} = P s) ->
  Keeps P (act f).
Proof. intros H s. apply H. Qed.

Lemma keeps_on_ws (f : WebSocket.t -> WebSocket.t) :
  (forall s ref x,
      P {| this := this s; world := World.set_socket (world s) ref x |}
      = P s) ->
  Keeps P (on_ws f).
Proof.
  intros H s. unfold on_ws, mbind, self, act, deref, ret, throw.
  destruct (ws (this s)); cbn [snd]; [apply H | reflexivity].
Qed.

(** An observation that reads neither the two combined sequences that
    [buildPacket] advances nor anything else it could touch. *)
Hypothesis P_server_csn :
  forall s c, P {| this := set_serverCombinedSequence (this s) c;
                   world := world s |} = P s.
Hypothesis P_initiator_csn :
  forall s c, P {| this := set_initiatorCombinedSequence (this s) c;
                   world := world s |} = P s.

Lemma keeps_buildPacket {E : Collaborators} (message : Message)
      (receiver : Z) (encrypt : bool) :
  Keeps P (buildPacket message receiver encrypt).
Proof.
  unfold buildPacket. apply keeps_bind.
  - unfold buildPacket_csn.
    destruct (receiver =? SALTYRTC_ADDR_SERVER).
    { intros s. unfold serverCombinedSequence_next.
      destruct (CombinedSequence.next _). apply P_server_csn. }
    destruct (receiver =? SALTYRTC_ADDR_INITIATOR).
    { intros s. unfold initiatorCombinedSequence_next.
      destruct (CombinedSequence.next _). apply P_initiator_csn. }
    destruct (is_responder_address receiver); [|apply keeps_throw].
    apply keeps_bind; [|intros; apply keeps_ret].
    unfold responders_get.
    apply keeps_bind; [apply keeps_self|intros].
    apply keeps_bind; [apply keeps_deref|intros]. apply keeps_deref.
  - intros csn. apply keeps_bind.
    { unfold buildPacket_nonce.
      apply keeps_bind; [apply keeps_self|intros].
      apply keeps_bind; [apply keeps_deref|intros]. apply keeps_ret. }
    intros nonce. cbv zeta. destruct encrypt; [|apply keeps_ret].
    apply keeps_bind; [|intros; apply keeps_ret].
    unfold buildPacket_box.
    apply keeps_bind; [apply keeps_self|intros s].
    destruct (receiver =? SALTYRTC_ADDR_SERVER); [apply keeps_call|].
    destruct (receiver =? SALTYRTC_ADDR_INITIATOR).
    { destruct (Msg.type_is message T_token); [apply keeps_call|].
      destruct (Msg.type_is message T_key); [apply keeps_call|].
      apply keeps_bind; [apply keeps_deref|intros]. apply keeps_call. }
    destruct (is_responder_address receiver); [|apply keeps_throw].
    apply keeps_bind.
    { unfold responders_get.
      apply keeps_bind; [apply keeps_self|intros].
      apply keeps_bind; [apply keeps_deref|intros]. apply keeps_deref. }
    intros r. destruct (Msg.type_is message T_key); apply keeps_call.
Qed.

End Observation.

(** After the assignment of [this.cookiePair], [serverHandshake] up to
    its [await] keeps the pair and draws no cookie. *)
Lemma clientAuth_cookiePair {E : Collaborators} (cookie : Cookie.t)
      (nonce : Nonce.t) (s : Sys) :
  cookiePair (this (snd (serverHandshake_clientAuth cookie nonce s)))
  = Some (CookiePair.mk cookie (Nonce.cookie nonce))
  /\ World.cookiesDrawn (world (snd (serverHandshake_clientAuth cookie nonce s)))
     = World.cookiesDrawn (world s).
Proof.
  unfold serverHandshake_clientAuth.
  set (rest := fun _ : unit => _).
  assert (Hrest : forall (X : Type) (P : Sys -> X),
             (forall s f, P {| this := set_serverCombinedSequence (this s) f;
                               world := world s |} = P s) ->
             (forall s f, P {| this := set_initiatorCombinedSequence (this s) f;
                               world := world s |} = P s) ->
             (forall s x, P {| this := set_address (this s) x;
                               world := world s |} = P s) ->
             (forall s ref x,
                 P {| this := this s;
                      world := World.set_socket (world s) ref x |} = P s) ->
             Keeps P (rest tt)).
  { intros X P H1 H2 H3 H4. unfold rest.
    apply keeps_bind; [apply keeps_self|intros s0].
    apply keeps_bind.
    { destruct (role s0); [apply keeps_ret|].
      apply keeps_bind; [now apply keeps_buildPacket|intros].
      now apply keeps_on_ws. }
    intros _.
    apply keeps_bind; [apply keeps_self|intros s1].
    apply keeps_bind; [apply keeps_deref|intros cp].
    apply keeps_bind; [now apply keeps_buildPacket|intros].
    apply keeps_bind; [now apply keeps_on_ws|intros].
    apply keeps_bind; [apply keeps_assign; intros; apply H3|intros].
    now apply keeps_on_ws. }
  change (mbind (assign _) rest s)
    with (rest tt {| this := set_cookiePair (this s)
                               (Some (CookiePair.mk cookie (Nonce.cookie nonce)));
                     world := world s |}).
  split.
  - etransitivity;
      [apply (Hrest _ (fun s => cookiePair (this s))); reflexivity
      |reflexivity].
  - etransitivity;
      [apply (Hrest _ (fun s => World.cookiesDrawn (world s))); reflexivity
      |reflexivity].
Qed.

Lemma Cookie_equals_true (a b : Cookie.t) :
  Cookie.equals a b = true <-> a = b.
Proof.
  unfold Cookie.equals. destruct (list_eq_dec byte_eq_dec a b).
  - tauto.
  - split; [discriminate | contradiction].
Qed.

Lemma Cookie_equals_false (a b : Cookie.t) :
  Cookie.equals a b = false <-> a <> b.
Proof.
  unfold Cookie.equals. destruct (list_eq_dec byte_eq_dec a b).
  - split; [discriminate | contradiction].
  - tauto.
Qed.

(** The cookie loop ends at the first draw that differs from the peer's
    cookie, when the fuel reaches that far. *)
Lemma generateCookie_first_fresh (theirs : Cookie.t) (k : nat) :
  forall (fuel : nat) (w : World.t),
    (forall j, (j < k)%nat ->
               World.cookies w (World.cookiesDrawn w + j) = theirs) ->
    World.cookies w (World.cookiesDrawn w + k) <> theirs ->
    (k < fuel)%nat ->
    exists w',
      generateCookie fuel theirs w
      = Some (World.cookies w (World.cookiesDrawn w + k), w')
      /\ World.cookiesDrawn w' = (World.cookiesDrawn w + k + 1)%nat
      /\ World.cookies w' = World.cookies w
      /\ World.sockets w' = World.sockets w.
Proof.
  induction k as [|k IH]; intros fuel w Hsame Hfresh Hfuel;
    (destruct fuel as [|fuel]; [lia|]); cbn [generateCookie World.new_Cookie].
  - rewrite Nat.add_0_r in Hfresh.
    apply Cookie_equals_false in Hfresh. rewrite Hfresh.
    eexists. split; [rewrite Nat.add_0_r; reflexivity|].
    cbn [World.cookiesDrawn World.cookies World.sockets].
    repeat split. lia.
  - pose proof (Hsame 0%nat ltac:(lia)) as H0. rewrite Nat.add_0_r in H0.
    apply Cookie_equals_true in H0. rewrite H0.
    destruct (IH fuel (snd (World.new_Cookie w)))
      as [w' [Hw' [Hd [Hc Hs]]]]; [| |lia|].
    + intros j Hj. cbn [World.new_Cookie snd World.cookiesDrawn World.cookies].
      rewrite <- (Hsame (S j)) by lia. f_equal. lia.
    + cbn [World.new_Cookie snd World.cookiesDrawn World.cookies].
      replace (S (World.cookiesDrawn w) + k)%nat
        with (World.cookiesDrawn w + S k)%nat by lia.
      exact Hfresh.
    + cbn [World.new_Cookie snd World.cookiesDrawn World.cookies
           World.sockets] in *.
      exists w'. rewrite Hw'. repeat split; try assumption.
      * do 2 f_equal. f_equal. lia.
      * lia.
Qed.

(** Processing server-hello leaves the world as it was. *)
Lemma serverHello_world {E : Collaborators} (buffer : list byte) (s : Sys) :
  world (snd (serverHandshake_serverHello buffer s)) = world s.
Proof.
  revert s. change (Keeps world (serverHandshake_serverHello buffer)).
  unfold serverHandshake_serverHello.
  apply keeps_bind; [apply keeps_call|intros nonce]. cbv zeta.
  apply keeps_bind; [apply keeps_call|intros serverHello].
  apply keeps_bind; [apply keeps_self|intros s0].
  apply keeps_bind.
  { unfold validateNonce.
    apply keeps_bind; [|intros; apply keeps_when, keeps_throw].
    apply keeps_when, keeps_throw. }
  intros _.
  apply keeps_bind; [apply keeps_when, keeps_throw|intros].
  apply keeps_bind; [apply keeps_assign; reflexivity|intros].
  apply keeps_ret.
Qed.

End KeepsFacts.

(** C7. When a server-hello message has been accepted, and the random
    source yields a cookie that differs from the cookie of the
    server-hello nonce after [k] cookies that equal it, [serverHandshake]
    (given fuel for more than [k] turns of its loop) stores the pair of
    that first differing cookie as ours and of the nonce's cookie as
    theirs: ours <> theirs. *)
Theorem serverHandshake_fresh_cookie {E : Collaborators}
        (buffer : list byte) (s s1 : Signaling.Sys) (nonce : Nonce.t)
        (k fuel : nat) :
  Signaling.serverHandshake_serverHello buffer s = (Ok nonce, s1) ->
  (forall j, (j < k)%nat ->
     World.cookies (Signaling.world s)
                   (World.cookiesDrawn (Signaling.world s) + j)
     = Nonce.cookie nonce) ->
  World.cookies (Signaling.world s)
                (World.cookiesDrawn (Signaling.world s) + k)
  <> Nonce.cookie nonce ->
  (k < fuel)%nat ->
  exists r s' cp,
    Signaling.serverHandshake_begin fuel buffer s = Some (r, s')
    /\ Signaling.cookiePair (Signaling.this s') = Some cp
    /\ CookiePair.ours cp
       = World.cookies (Signaling.world s)
                       (World.cookiesDrawn (Signaling.world s) + k)
    /\ CookiePair.theirs cp = Nonce.cookie nonce
    /\ CookiePair.ours cp <> CookiePair.theirs cp
    /\ World.cookiesDrawn (Signaling.world s')
       = (World.cookiesDrawn (Signaling.world s) + k + 1)%nat.
Proof.
  intros Hhello Hsame Hfresh Hfuel.
  pose proof (KeepsFacts.serverHello_world buffer s) as Hw.
  rewrite Hhello in Hw. cbn [snd] in Hw.
  unfold Signaling.serverHandshake_begin. rewrite Hhello.
  destruct (KeepsFacts.generateCookie_first_fresh (Nonce.cookie nonce) k fuel
              (Signaling.world s1)) as [w' [Hgen [Hd [Hc Hs]]]];
    try (rewrite Hw; assumption); [assumption|].
  rewrite Hgen.
  destruct (KeepsFacts.clientAuth_cookiePair
              (World.cookies (Signaling.world s1)
                             (World.cookiesDrawn (Signaling.world s1) + k))
              nonce {| Signaling.this := Signaling.this s1;
                       Signaling.world := w' |}) as [Hcp Hdrawn].
  destruct (Signaling.serverHandshake_clientAuth _ nonce _) as [r s'] eqn:Hrun.
  cbn [snd] in Hcp, Hdrawn. cbn [Signaling.world] in Hdrawn.
  exists r, s', (CookiePair.mk
                   (World.cookies (Signaling.world s1)
                                  (World.cookiesDrawn (Signaling.world s1) + k))
                   (Nonce.cookie nonce)).
  rewrite Hw in *.
  split; [reflexivity|]. split; [exact Hcp|].
  cbn [CookiePair.ours CookiePair.theirs].
  split; [reflexivity|]. split; [reflexivity|].
  split; [exact Hfresh|]. rewrite Hdrawn. exact Hd.
Qed.

(** In the run of the initiator the first cookie drawn equals the
    server's, and the second one is stored. *)
Lemma serverHandshake_fresh_cookie_witness :
  exists r s' cp,
    Signaling.serverHandshake_begin (E := Scenario.E) 2 Scenario.server_hello
                                    Scenario.connected = Some (r, s')
    /\ Signaling.cookiePair (Signaling.this s') = Some cp
    /\ CookiePair.ours cp
       = World.cookies (Signaling.world Scenario.connected)
           (World.cookiesDrawn (Signaling.world Scenario.connected) + 1)
    /\ CookiePair.theirs cp = Scenario.serverCookie
    /\ CookiePair.ours cp <> CookiePair.theirs cp
    /\ World.cookiesDrawn (Signaling.world s')
       = (World.cookiesDrawn (Signaling.world Scenario.connected) + 1 + 1)%nat.
Proof.
  apply (serverHandshake_fresh_cookie (E := Scenario.E)
           Scenario.server_hello Scenario.connected
           (snd (Signaling.serverHandshake_serverHello (E := Scenario.E)
                   Scenario.server_hello Scenario.connected))
           (Nonce.mk Scenario.serverCookie 0 1 0 0) 1 2).
  - vm_compute. reflexivity.
  - intros j Hj. replace j with 0%nat by lia. vm_compute. reflexivity.
  - vm_compute. discriminate.
  - lia.
Defined.

(** ** The peer handshake: the claims *)

Module JsMapFacts.

Lemma get_set_same {V} (m : JsMap.t V) (k : Z) (v : V) :
  JsMap.get (JsMap.set m k v) k = Some v.
Proof.
  induction m as [|[k' v'] m IH]; cbn [JsMap.set JsMap.get].
  - now rewrite Z.eqb_refl.
  - destruct (k' =? k) eqn:Hk; cbn [JsMap.get]; rewrite Hk;
      [reflexivity | exact IH].
Qed.

Lemma length_delete {V} (m : JsMap.t V) (k : Z) :
  (List.length (JsMap.delete m k) <= List.length m)%nat.
Proof.
  induction m as [|[k' v'] m IH]; cbn [JsMap.delete List.length]; [lia|].
  destruct (k' =? k); cbn [List.length]; lia.
Qed.

(** With one entry per key, the keys left by [delete] are the others. *)
Lemma keys_delete {V} (m : JsMap.t V) (k id : Z) :
  JsMap.wf m ->
  (In id (JsMap.keys (JsMap.delete m k))
   <-> In id (JsMap.keys m) /\ id <> k).
Proof.
  unfold JsMap.wf, JsMap.keys.
  induction m as [|[k' v'] m IH]; cbn [JsMap.delete map fst In]; intros Hnd.
  - tauto.
  - inversion Hnd as [|? ? Hnotin Hnd']; subst.
    destruct (Z.eqb_spec k' k) as [->|Hne]; cbn [map fst In].
    + split.
      * intros Hin. split; [now right|]. intros ->. contradiction.
      * intros [[Heq|Hin] Hid]; [congruence | exact Hin].
    + rewrite (IH Hnd'). split.
      * intros [<-|[Hin Hid]]; [split; [now left | exact Hne]|].
        split; [now right | exact Hid].
      * intros [[<-|Hin] Hid]; [now left | right; split; assumption].
Qed.

End JsMapFacts.

Module PeerHandshakeFacts.
Import Signaling.

(** Run the engine's primitives where their outcome is known. *)
Ltac mrun :=
  cbn [mbind call ret throw self assign act draw deref when on_ws ws_send
       this world negb fst snd
       ws state serverKey permanentKey sessionKey authToken role address
       cookiePair serverCombinedSequence responders responder
       initiatorPermanentKey initiatorSessionKey initiatorConnected
       initiatorHandshakeState initiatorCombinedSequence
       set_ws set_state set_serverKey set_sessionKey set_address
       set_cookiePair set_serverCombinedSequence set_responders
       set_responder set_initiatorSessionKey set_initiatorConnected
       set_initiatorHandshakeState set_initiatorCombinedSequence
       validateNonce decodeMessage assertType decrypt
       is_decryption_failed String.eqb Ascii.eqb Bool.eqb
       responder_assign] in *.

(** The same, through every bind of the term. *)
Ltac mstep :=
  cbv beta iota zeta delta
      [mbind call ret throw self assign act draw deref when];
  cbn [this world negb fst snd
       ws state serverKey permanentKey sessionKey authToken role address
       cookiePair serverCombinedSequence responders responder
       initiatorPermanentKey initiatorSessionKey initiatorConnected
       initiatorHandshakeState initiatorCombinedSequence
       set_ws set_state set_serverKey set_sessionKey set_address
       set_cookiePair set_serverCombinedSequence set_responders
       set_responder set_initiatorSessionKey set_initiatorConnected
       set_initiatorHandshakeState set_initiatorCombinedSequence].

(** Run a call on the WebSocket of an engine that has one. *)
Ltac run_on_ws Hws :=
  erewrite Run.bind_ok by (apply Run.on_ws_some; mrun; exact Hws).

Section WithCollaborators.
Context {E : Collaborators}.

Lemma type_some (m : Message) :
  Msg.type m <> None -> exists t, Msg.type m = Some t.
Proof. destruct (Msg.type m) as [t|]; [eauto | contradiction]. Qed.

Lemma type_is_some (m : Message) (t : MessageType) :
  Msg.type_is m t = true -> Msg.type m <> None.
Proof. destruct m; cbn; congruence. Qed.

(** The head of the handler: a frame whose nonce names us as the
    destination goes on to the dispatch on its source. *)
Lemma onPeerHandshakeMessage_dispatch (buffer : list byte) (s : Sys)
      (n : Nonce.t) :
  Nonce_fromArrayBuffer (firstn 24 buffer) = Ok n ->
  Nonce.destination n = address (this s) ->
  onPeerHandshakeMessage buffer s
  = (if Nonce.source n =? SALTYRTC_ADDR_SERVER then
       onPeerHandshakeMessage_server buffer
     else if Nonce.source n =? SALTYRTC_ADDR_INITIATOR then
       onPeerHandshakeMessage_initiator buffer
     else if is_responder_address (Nonce.source n) then
       onPeerHandshakeMessage_responder buffer n
     else abort) s.
Proof.
  intros Hn Hd. unfold onPeerHandshakeMessage. rewrite Hn. mrun.
  unfold validateNonce. rewrite Hd, Z.eqb_refl. mrun. reflexivity.
Qed.

(** A frame whose nonce names another destination is refused by
    [validateNonce], and nothing has happened. *)
Lemma onPeerHandshakeMessage_other_destination (buffer : list byte)
      (s : Sys) (n : Nonce.t) :
  Nonce_fromArrayBuffer (firstn 24 buffer) = Ok n ->
  Nonce.destination n <> address (this s) ->
  onPeerHandshakeMessage buffer s
  = (Throw (Thrown "bad-nonce-destination"), s).
Proof.
  intros Hn Hd. unfold onPeerHandshakeMessage. rewrite Hn. mrun.
  unfold validateNonce. apply Z.eqb_neq in Hd. rewrite Hd. mrun.
  reflexivity.
Qed.

Lemma abort_bind {A B} (k : A -> M Sys B) (s : Sys) :
  mbind (abort (A := A)) k s = abort (A := B) s.
Proof.
  unfold abort, mbind.
  destruct (on_ws _ s) as [[[]|e] s1]; [|reflexivity].
  destruct (resetConnection s1) as [[[]|e] s2]; reflexivity.
Qed.

Lemma decrypt_failed (box : Box.t) (k : Decryptor) :
  Decryptor_decrypt k box = Throw (Thrown "decryption-failed") ->
  decrypt box k = abort.
Proof. intros H. unfold decrypt. rewrite H. reflexivity. Qed.

Lemma decrypt_ok (box : Box.t) (k : Decryptor) (plain : list byte) :
  Decryptor_decrypt k box = Ok plain -> decrypt box k = ret plain.
Proof. intros H. unfold decrypt. rewrite H. reflexivity. Qed.

Lemma assertType_fail (m : Message) (t : MessageType) :
  Msg.type_is m t = false -> assertType m t = abort.
Proof. intros H. unfold assertType. rewrite H. reflexivity. Qed.

Lemma assertType_ok (m : Message) (t : MessageType) :
  Msg.type_is m t = true -> assertType m t = ret tt.
Proof. intros H. unfold assertType. rewrite H. reflexivity. Qed.

Lemma decodeMessage_ok (data : list byte) (m : Message) :
  msgpack_decode data = Ok m -> Msg.type m <> None ->
  decodeMessage data None = ret m.
Proof.
  intros Hd Ht. unfold decodeMessage. rewrite Hd.
  destruct (type_some m Ht) as [t Hty].
  cbn [call mbind ret]. unfold mbind, ret. rewrite Hty. reflexivity.
Qed.

Lemma reaches_abort_bind {A} (k : A -> M Sys unit) (s s1 : Sys) :
  ws (this s1) = ws (this s) ->
  ReachesAbort s (mbind abort k s1).
Proof. intros H. exists s1. split; [exact H | apply abort_bind]. Qed.

Lemma reaches_abort_now (s s1 : Sys) :
  ws (this s1) = ws (this s) -> ReachesAbort s (abort s1).
Proof. intros H. exists s1. split; [exact H | reflexivity]. Qed.

(** The branch for a frame from the initiator. *)
Lemma initiator_frame_aborts (buffer : list byte) (s : Sys) (n : Nonce.t)
      (ref : nat) :
  ws (this s) = Some ref ->
  Nonce.source n = SALTYRTC_ADDR_INITIATOR ->
  PeerFailure (this s) buffer n ->
  ReachesAbort s (onPeerHandshakeMessage_initiator buffer s).
Proof.
  intros Hws Hsrc HF. unfold onPeerHandshakeMessage_initiator.
  destruct HF as
      [ _ Hrole
      | Ha _
      | _ Hne _
      | box _ Hrole Hbox Hdec
      | box plain nonce msg expected _ Hrole Hbox Hdec Hnonce Hmsg Hty Hexp Hbad
      | box plain nonce msg cookie cp _ Hrole Hbox Hihs Hdec Hnonce Hmsg
            Hty Hck Hcp Hbad
      | rs r box Ha _ _ _ _ _
      | rs r box plain msg Ha _ _ _ _ _ _ _ _
      | rs r box plain msg cp Ha _ _ _ _ _ _ _ _ _ _
      | rs r box plain msg cookie cp Ha _ _ _ _ _ _ _ _ _ _ _ ];
    try (rewrite Hsrc in Ha; discriminate Ha);
    try contradiction.
  - (* we are the initiator *)
    mrun. rewrite Hrole. now apply reaches_abort_bind.
  - (* decryption fails *)
    mrun. rewrite Hrole. mrun. rewrite Hbox. mrun.
    destruct (initiatorHandshakeState (this s)) as [[| | |]|];
      rewrite (decrypt_failed _ _ Hdec); now apply reaches_abort_bind.
  - (* the type is not the expected one *)
    mrun. rewrite Hrole. mrun. rewrite Hbox. mrun.
    destruct Hexp as [[Hihs ->]|[Hihs ->]]; rewrite Hihs in *;
      rewrite (decrypt_ok _ _ _ Hdec); mrun; rewrite Hnonce; mrun;
      rewrite (decodeMessage_ok _ _ Hmsg Hty); mrun;
      rewrite Hihs; rewrite (assertType_fail _ _ Hbad);
      now apply reaches_abort_bind.
  - (* a cookie is wrong *)
    mrun. rewrite Hrole. mrun. rewrite Hbox. mrun.
    rewrite Hihs. rewrite (decrypt_ok _ _ _ Hdec). mrun.
    rewrite Hnonce. mrun.
    rewrite (decodeMessage_ok _ _ Hmsg (type_is_some _ _ Hty)). mrun.
    rewrite Hihs. rewrite (assertType_ok _ _ Hty). mrun.
    rewrite Hck. mrun. rewrite Hcp. mrun.
    destruct (Cookie.equals cookie (CookiePair.ours cp)) eqn:Heq.
    + destruct Hbad as [Hbad|Hbad]; [discriminate Hbad|].
      mrun. do 2 run_on_ws Hws. mrun. rewrite Hcp. mrun. rewrite Hbad. mrun.
      now apply reaches_abort_bind.
    + mrun. now apply reaches_abort_bind.
Qed.

Lemma type_is_key (m : Message) :
  Msg.type_is m T_key = true -> exists k, m = Key k.
Proof. destruct m; cbn; try discriminate. eauto. Qed.

(** The branch for a frame from a responder. *)
Lemma responder_frame_aborts (buffer : list byte) (s : Sys) (n : Nonce.t)
      (ref : nat) :
  ws (this s) = Some ref ->
  is_responder_address (Nonce.source n) = true ->
  PeerFailure (this s) buffer n ->
  ReachesAbort s (onPeerHandshakeMessage_responder buffer n s).
Proof.
  intros Hws Ha HF. unfold onPeerHandshakeMessage_responder.
  destruct HF as
      [ Hsrc _
      | _ Hrole
      | _ _ Hna
      | box Hsrc _ _ _
      | box plain nonce msg expected Hsrc _ _ _ _ _ _ _ _
      | box plain nonce msg cookie cp Hsrc _ _ _ _ _ _ _ _ _ _
      | rs r box _ Hrole Hrs Hr Hbox Hdec
      | rs r box plain msg _ Hrole Hrs Hr Hbox Hdec Hmsg Hty Hbad
      | rs r box plain msg cp _ Hrole Hrs Hr Hst Hbox Hdec Hmsg Hty Hcp Hbad
      | rs r box plain msg cookie cp _ Hrole Hrs Hr Hst Hbox Hdec Hmsg Hty
           Hck Hcp Hbad ];
    try (rewrite Hsrc in Ha; discriminate Ha);
    try (rewrite Hna in Ha; discriminate Ha).
  - (* we are the responder *)
    mrun. rewrite Hrole. now apply reaches_abort_bind.
  - (* decryption fails *)
    mrun. rewrite Hrole. mrun. rewrite Hrs. mrun. rewrite Hr.
    destruct (Responder.state r); rewrite Hbox; mrun;
      rewrite (decrypt_failed _ _ Hdec); now apply reaches_abort_bind.
  - (* the type is not the expected one *)
    mrun. rewrite Hrole. mrun. rewrite Hrs. mrun. rewrite Hr.
    destruct (Responder.state r); rewrite Hbox; mrun;
      rewrite (decrypt_ok _ _ _ Hdec); mrun;
      rewrite (decodeMessage_ok _ _ Hmsg Hty); mrun;
      rewrite (assertType_fail _ _ Hbad); now apply reaches_abort_bind.
  - (* the responder uses our cookie *)
    mrun. rewrite Hrole. mrun. rewrite Hrs. mrun. rewrite Hr, Hst.
    rewrite Hbox. mrun. rewrite (decrypt_ok _ _ _ Hdec). mrun.
    rewrite (decodeMessage_ok _ _ Hmsg (type_is_some _ _ Hty)). mrun.
    rewrite (assertType_ok _ _ Hty). mrun.
    destruct (type_is_key msg Hty) as [k ->].
    cbn [Msg.key Uint8Array_from]. mrun.
    rewrite Hrs. rewrite Hr. mrun. rewrite JsMapFacts.get_set_same. mrun.
    rewrite Hcp. mrun. rewrite Hbad. mrun.
    now apply reaches_abort_bind.
  - (* your_cookie is not our cookie *)
    mrun. rewrite Hrole. mrun. rewrite Hrs. mrun. rewrite Hr, Hst.
    rewrite Hbox. mrun. rewrite (decrypt_ok _ _ _ Hdec). mrun.
    rewrite (decodeMessage_ok _ _ Hmsg (type_is_some _ _ Hty)). mrun.
    rewrite (assertType_ok _ _ Hty). mrun.
    rewrite Hck. mrun. rewrite Hcp. mrun. rewrite Hbad. mrun.
    now apply reaches_abort_bind.
Qed.

(** Every failure of [PeerFailure] ends the handler in the abort
    path. *)
Lemma failure_reaches_abort (buffer : list byte) (s : Sys) (n : Nonce.t)
      (ref : nat) :
  ws (this s) = Some ref ->
  Nonce_fromArrayBuffer (firstn 24 buffer) = Ok n ->
  Nonce.destination n = address (this s) ->
  PeerFailure (this s) buffer n ->
  ReachesAbort s (onPeerHandshakeMessage buffer s).
Proof.
  intros Hws Hn Hd HF.
  rewrite (onPeerHandshakeMessage_dispatch buffer s n Hn Hd).
  assert (Hsrc :
            Nonce.source n = SALTYRTC_ADDR_INITIATOR
            \/ is_responder_address (Nonce.source n) = true
            \/ (Nonce.source n <> SALTYRTC_ADDR_SERVER
                /\ Nonce.source n <> SALTYRTC_ADDR_INITIATOR
                /\ is_responder_address (Nonce.source n) = false)).
  { destruct HF; auto. }
  destruct Hsrc as [Hsrc | [Ha | [H0 [H1 Hna]]]].
  - rewrite Hsrc.
    change (SALTYRTC_ADDR_INITIATOR =? SALTYRTC_ADDR_SERVER) with false.
    change (SALTYRTC_ADDR_INITIATOR =? SALTYRTC_ADDR_INITIATOR) with true.
    cbv iota.
    now apply (initiator_frame_aborts buffer s n ref).
  - destruct (BuildPacketFacts.responder_address_not_server _ Ha) as [-> ->].
    rewrite Ha. now apply (responder_frame_aborts buffer s n ref).
  - apply Z.eqb_neq in H0, H1. rewrite H0, H1, Hna.
    now apply reaches_abort_now.
Qed.

End WithCollaborators.
End PeerHandshakeFacts.

(** C4, as amended. During the peer handshake, with the WebSocket open,
    a frame that names us as its destination ends in the abort path when
    it fails in one of the ways of [PeerFailure]:
    - its source is 0x01 and we are the initiator, or in 0x02..0xff and
      we are the responder, or none of 0x00, 0x01, 0x02..0xff;
    - it comes from the initiator, or from a responder that our map
      holds, and the key that the handshake state selects throws
      'decryption-failed' on it;
    or when such a frame decrypts to a message that has a type, and
    - the type is not the one that the state expects (from the
      initiator: key in 'token-sent', auth in 'key-sent'; from a
      responder: token in 'new', key in 'token-received', auth in
      'key-received');
    - it is the expected auth message (from the initiator in 'key-sent',
      from a responder in 'key-received') and its your_cookie, a
      well-formed cookie, is not our cookie;
    - the cookie of its nonce is our own cookie, in the two places where
      the code compares them: the expected auth message of the initiator
      in 'key-sent', with a well-formed your_cookie, and the expected key
      message of a responder in 'token-received'.  In no other state is
      the cookie of a nonce looked at (see
      [auth_with_our_nonce_cookie_accepted] below).
    The handler is then no longer registered for messages, the WebSocket
    is closed and dropped, the state is 'new', and the error "Aborting
    due to a protocol error" is thrown.  A frame that names another
    destination does not reach the abort path: [validateNonce] throws
    'bad-nonce-destination', and the engine and the world are as
    before. *)
Theorem peer_handshake_failure_aborts {E : Collaborators}
        (s : Signaling.Sys) (ref : nat) (buffer : list byte) (n : Nonce.t) :
  Signaling.ws (Signaling.this s) = Some ref ->
  Nonce_fromArrayBuffer (firstn 24 buffer) = Ok n ->
  (Nonce.destination n = Signaling.address (Signaling.this s) ->
   PeerFailure (Signaling.this s) buffer n ->
   exists s',
     Signaling.onPeerHandshakeMessage buffer s
     = (Throw (Error "Aborting due to a protocol error"), s')
     /\ Aborted ref s')
  /\ (Nonce.destination n <> Signaling.address (Signaling.this s) ->
      Signaling.onPeerHandshakeMessage buffer s
      = (Throw (Thrown "bad-nonce-destination"), s)).
Proof.
  intros Hws Hn. split.
  - intros Hd HF.
    destruct (PeerHandshakeFacts.failure_reaches_abort buffer s n ref
                Hws Hn Hd HF) as [s1 [Hws1 Hrun]].
    rewrite Hrun. apply Run.abort_run. now rewrite Hws1.
  - intros Hd.
    now apply (PeerHandshakeFacts.onPeerHandshakeMessage_other_destination
                 buffer s n).
Qed.

(** In the run of the initiator, an auth message from responder 0x02
    that echoes the wrong cookie ends in the abort path. *)
Lemma peer_handshake_failure_aborts_witness :
  exists s',
    Signaling.onPeerHandshakeMessage (E := Scenario.E)
      Scenario.auth_wrong_cookie Scenario.key_received
    = (Throw (Error "Aborting due to a protocol error"), s')
    /\ Aborted 0 s'.
Proof.
  apply (proj1 (peer_handshake_failure_aborts (E := Scenario.E)
                  Scenario.key_received 0 Scenario.auth_wrong_cookie
                  (Nonce.mk Scenario.responderCookie 0 3 2 1)
                  eq_refl eq_refl)).
  - reflexivity.
  - eapply (responder_frame_cookie (E := Scenario.E))
      with (cookie := Scenario.serverCookie);
      try (vm_compute; reflexivity).
Defined.

(** C4, as stated, fails. In the run of the initiator, the auth message
    of responder 0x02 sent with a nonce for destination 0x09 is refused
    with 'bad-nonce-destination': no protocol error, the state is still
    'peer-handshake', the WebSocket is open and in place, and the handler
    is still registered. *)
Lemma peer_handshake_destination_mismatch_no_abort :
  let r := Signaling.onPeerHandshakeMessage (E := Scenario.E)
             Scenario.auth_for_9 Scenario.key_received in
  fst r = Throw (Thrown "bad-nonce-destination")
  /\ Signaling.state (Signaling.this (snd r)) = Signaling.peer_handshake
  /\ Signaling.ws (Signaling.this (snd r)) = Some 0%nat
  /\ WebSocket.closed (World.sockets (Signaling.world (snd r)) 0) = false
  /\ WebSocket.handles (World.sockets (Signaling.world (snd r)) 0)
                       Listener.onPeerHandshakeMessage = true
  /\ ~ Aborted 0 (snd r).
Proof.
  cbv zeta.
  repeat (split; [vm_compute; reflexivity|]).
  intros [H _]. vm_compute in H. discriminate H.
Qed.

(** A frame from the server that does not decrypt is not handed to the
    abort path either: the exception of the key store leaves the handler
    as it is. *)
Example server_frame_decryption_failure_no_abort :
  let r := Signaling.onPeerHandshakeMessage (E := Scenario.E)
             Scenario.forged_server_frame Scenario.key_received in
  fst r = Throw (Thrown "decryption-failed")
  /\ Signaling.state (Signaling.this (snd r)) = Signaling.peer_handshake
  /\ WebSocket.closed (World.sockets (Signaling.world (snd r)) 0) = false.
Proof. cbv zeta. repeat split; vm_compute; reflexivity. Qed.

(** The cookie of a nonce is not compared with ours when the initiator
    takes the auth message of a responder in state 'key-received': in the
    run of the initiator, the auth message of 0x02 under a nonce that
    carries our own cookie is accepted, and the connection is open. *)
Example auth_with_our_nonce_cookie_accepted :
  let r := Signaling.onPeerHandshakeMessage (E := Scenario.E)
             (Scenario.frame Scenario.ours 2 1 3
                [Reference.shared_tag
                   (KeyStore.publicKeyBytes (Scenario.key_of 16)) [x52]]
                (Auth Scenario.ours))
             Scenario.key_received in
  fst r = Ok tt
  /\ Signaling.state (Signaling.this (snd r)) = Signaling.open
  /\ WebSocket.closed (World.sockets (Signaling.world (snd r)) 0) = false.
Proof. cbv zeta. repeat split; vm_compute; reflexivity. Qed.

(** ** The election of a responder: the claim *)

Module ElectionFacts.
Import Signaling.
Import PeerHandshakeFacts.

Section WithCollaborators.
Context {E : Collaborators}.

(** [next()] succeeds while the overflow stays below its bound, and
    adds at most one to it. *)
Lemma next_ok (c : CombinedSequence.t) :
  CombinedSequence.overflow c + 1 < CombinedSequence.OVERFLOW_MAX ->
  exists c1,
    CombinedSequence.next c = (Ok c1, c1)
    /\ CombinedSequence.overflow c1 <= CombinedSequence.overflow c + 1.
Proof.
  intros Ho. unfold CombinedSequence.next.
  destruct (CombinedSequence.sequenceNumber c + 1
            >=? CombinedSequence.SEQUENCE_NUMBER_MAX).
  - cbn [CombinedSequence.overflow CombinedSequence.sequenceNumber].
    destruct (Z.geb_spec (CombinedSequence.overflow c + 1)
                         CombinedSequence.OVERFLOW_MAX); [lia|].
    eexists. split; [reflexivity|].
    cbn [CombinedSequence.overflow]. lia.
  - eexists. split; [reflexivity|].
    cbn [CombinedSequence.overflow]. lia.
Qed.

(** A packet for the server, when [next()] and the encryption
    succeed. *)
Lemma buildPacket_server_run (message : Message) (s : Sys)
      (cp : CookiePair.t) (c1 : CombinedSequence.t) (box : Box.t) :
  cookiePair (this s) = Some cp ->
  CombinedSequence.next (serverCombinedSequence (this s)) = (Ok c1, c1) ->
  KeyStore_encrypt (permanentKey (this s)) (msgpack_encode message)
    (Nonce_toArrayBuffer
       (Nonce.mk (CookiePair.ours cp) (CombinedSequence.overflow c1)
                 (CombinedSequence.sequenceNumber c1)
                 (address (this s)) SALTYRTC_ADDR_SERVER))
    (serverKey (this s)) = Ok box ->
  buildPacket message SALTYRTC_ADDR_SERVER true s
  = (Ok (Box.toUint8Array box),
     {| this := set_serverCombinedSequence (this s) c1;
        world := world s |}).
Proof.
  intros Hcp Hnext Henc. unfold buildPacket.
  erewrite Run.bind_ok
    by (rewrite BuildPacketFacts.buildPacket_csn_server, Hnext;
        reflexivity).
  unfold buildPacket_nonce, buildPacket_box. mstep. rewrite Hcp. mstep.
  change (SALTYRTC_ADDR_SERVER =? SALTYRTC_ADDR_SERVER) with true.
  mstep. rewrite Henc. reflexivity.
Qed.

(** The loop that drops the other responders: one packet to the
    server for every key, in order, and an empty map at the end. *)
Lemma dropResponders_run (ref : nat) (cp : CookiePair.t) :
  forall (rs : JsMap.t Responder.t) (s : Sys),
    ws (this s) = Some ref ->
    responders (this s) = Some rs ->
    cookiePair (this s) = Some cp ->
    CombinedSequence.overflow (serverCombinedSequence (this s))
    + Z.of_nat (List.length rs) < CombinedSequence.OVERFLOW_MAX ->
    (forall data nonceBytes,
        exists box,
          KeyStore_encrypt (permanentKey (this s)) data nonceBytes
                           (serverKey (this s)) = Ok box) ->
    exists s' cs' packets,
      dropResponders (JsMap.keys rs) s = (Ok tt, s')
      /\ this s'
         = set_responders (set_serverCombinedSequence (this s) cs')
                          (Some [])
      /\ Forall2 (DropResponderPacket (this s) (CookiePair.ours cp))
                 (JsMap.keys rs) packets
      /\ WebSocket.sent (World.sockets (world s') ref)
         = WebSocket.sent (World.sockets (world s) ref) ++ packets
      /\ WebSocket.listeners (World.sockets (world s') ref)
         = WebSocket.listeners (World.sockets (world s) ref)
      /\ World.onConnectedCalls (world s')
         = World.onConnectedCalls (world s).
Proof.
  induction rs as [|[id r] rest IH]; intros s Hws Hrs Hcp Hov Henc.
  - exists s, (serverCombinedSequence (this s)), [].
    cbn [JsMap.keys map dropResponders ret].
    split; [reflexivity|].
    split.
    { destruct s as [t w]. destruct t. cbn in Hrs |- *. now subst. }
    split; [constructor|]. rewrite app_nil_r. repeat split.
  - cbn [JsMap.keys map fst dropResponders]. cbn [List.length] in Hov.
    destruct (next_ok (serverCombinedSequence (this s))) as [c1 [Hnext Hc1]];
      [lia|].
    destruct (Henc (msgpack_encode (DropResponder id))
                   (Nonce_toArrayBuffer
                      (Nonce.mk (CookiePair.ours cp)
                                (CombinedSequence.overflow c1)
                                (CombinedSequence.sequenceNumber c1)
                                (address (this s)) SALTYRTC_ADDR_SERVER)))
      as [box Hbox].
    erewrite Run.bind_ok
      by (apply (buildPacket_server_run _ s cp c1 box); assumption).
    unfold ws_send. run_on_ws Hws. mrun. rewrite Hrs. mrun.
    cbn [JsMap.delete]. rewrite Z.eqb_refl.
    match goal with
    | |- context [dropResponders _ ?s2] =>
      destruct (IH s2) as [s' [cs' [packets [Hrun [Hthis [Hp [Hs [Hl Hc]]]]]]]]
    end; mrun; try assumption; try reflexivity; [lia|].
    exists s', cs', (Box.toUint8Array box :: packets).
    split; [exact Hrun|].
    split; [rewrite Hthis; reflexivity|].
    split.
    { constructor; [|exact Hp]. exists c1, box. split; [exact Hbox|reflexivity]. }
    rewrite Hs, Hl, Hc.
    cbn [World.set_socket World.sockets World.onConnectedCalls].
    rewrite Nat.eqb_refl.
    cbn [WebSocket.send WebSocket.sent WebSocket.listeners].
    rewrite <- app_assoc. repeat split.
Qed.

End WithCollaborators.
End ElectionFacts.

Module WebSocketFacts.

Lemma handles_after_add (w : WebSocket.t) (l : Listener.t) :
  WebSocket.handles (WebSocket.addEventListener w "message" l) l = true.
Proof.
  unfold WebSocket.handles, WebSocket.addEventListener.
  cbn [WebSocket.listeners].
  destruct (existsb _ (WebSocket.listeners w)) eqn:Hex; [exact Hex|].
  rewrite existsb_app, Hex. cbn [existsb orb fst snd].
  replace (Listener.eqb l l) with true by (destruct l; reflexivity).
  reflexivity.
Qed.

Lemma handles_after_remove_add (w : WebSocket.t) (l1 l2 : Listener.t) :
  Listener.eqb l2 l1 = false ->
  WebSocket.handles
    (WebSocket.addEventListener
       (WebSocket.removeEventListener w "message" l1) "message" l2) l1
  = false.
Proof.
  intros Hne. unfold WebSocket.handles, WebSocket.addEventListener,
                WebSocket.removeEventListener.
  cbn [WebSocket.listeners].
  assert (Hfilter :
            existsb (fun e => String.eqb (fst e) "message"
                              && Listener.eqb (snd e) l1)
                    (filter (fun e => negb (String.eqb (fst e) "message"
                                              && Listener.eqb (snd e) l1))
                            (WebSocket.listeners w)) = false).
  { apply not_true_is_false. intros H.
    apply existsb_exists in H. destruct H as [e [Hin He]].
    apply filter_In in Hin. destruct Hin as [_ Hf].
    rewrite He in Hf. discriminate Hf. }
  match goal with
  | |- context [if ?c then _ else _] => destruct c
  end; [exact Hfilter|].
  rewrite existsb_app, Hfilter. cbn [existsb fst snd].
  rewrite Hne. cbn. reflexivity.
Qed.

End WebSocketFacts.

(** C6. When the initiator holds a responder record in state
    key-received and receives from that responder an auth message that
    decrypts under the keys of that record and carries the initiator's own
    cookie as your_cookie, it elects that responder: for every other
    responder in the map one drop-responder message addressed to the
    server is sent (in the order of the map, while the server combined
    sequence lasts and the boxes for the server can be made), the map is
    empty afterwards, the chosen responder and its key store are kept, the
    handler of the peer handshake is replaced, and the state is 'open'. *)
Theorem initiator_elects_responder {E : Collaborators}
        (s : Signaling.Sys) (ref : nat) (buffer : list byte) (n : Nonce.t)
        (rs : JsMap.t Responder.t) (r : Responder.t) (box : Box.t)
        (plain : list byte) (msg : Message) (cookie : Cookie.t)
        (cp : CookiePair.t) :
  Signaling.ws (Signaling.this s) = Some ref ->
  Signaling.role (Signaling.this s) = Signaling.role_initiator ->
  Nonce_fromArrayBuffer (firstn 24 buffer) = Ok n ->
  Nonce.destination n = Signaling.address (Signaling.this s) ->
  Signaling.is_responder_address (Nonce.source n) = true ->
  Signaling.responders (Signaling.this s) = Some rs ->
  JsMap.wf rs ->
  JsMap.get rs (Nonce.source n) = Some r ->
  Responder.state r = Responder.key_received ->
  Box_fromUint8Array buffer nacl_box_nonceLength = Ok box ->
  KeyStore_decrypt (Responder.keyStore r) box (Responder.sessionKey r)
  = Ok plain ->
  msgpack_decode plain = Ok msg ->
  Msg.type_is msg T_auth = true ->
  Cookie_from (Msg.your_cookie msg) = Ok cookie ->
  Signaling.cookiePair (Signaling.this s) = Some cp ->
  Cookie.equals cookie (CookiePair.ours cp) = true ->
  CombinedSequence.overflow
    (Signaling.serverCombinedSequence (Signaling.this s))
  + Z.of_nat (List.length rs) < CombinedSequence.OVERFLOW_MAX ->
  (forall data nonceBytes,
      exists b,
        KeyStore_encrypt (Signaling.permanentKey (Signaling.this s))
                         data nonceBytes
                         (Signaling.serverKey (Signaling.this s)) = Ok b) ->
  exists s' others packets,
    Signaling.onPeerHandshakeMessage buffer s = (Ok tt, s')
    /\ Signaling.state (Signaling.this s') = Signaling.open
    /\ Signaling.responders (Signaling.this s') = Some []
    /\ Signaling.responder (Signaling.this s') = Some r
    /\ Signaling.sessionKey (Signaling.this s') = Some (Responder.keyStore r)
    /\ others = JsMap.keys (JsMap.delete rs (Nonce.source n))
    /\ (forall id, In id others
                   <-> In id (JsMap.keys rs) /\ id <> Nonce.source n)
    /\ Forall2 (DropResponderPacket (Signaling.this s) (CookiePair.ours cp))
               others packets
    /\ WebSocket.sent (World.sockets (Signaling.world s') ref)
       = WebSocket.sent (World.sockets (Signaling.world s) ref) ++ packets
    /\ WebSocket.handles (World.sockets (Signaling.world s') ref)
                         Listener.onPeerHandshakeMessage = false
    /\ WebSocket.handles (World.sockets (Signaling.world s') ref)
                         Listener.onMessage = true
    /\ World.onConnectedCalls (Signaling.world s')
       = S (World.onConnectedCalls (Signaling.world s)).
Proof.
  intros Hws Hrole Hn Hd Ha Hrs Hwf Hr Hst Hbox Hdec Hmsg Hty Hck Hcp Heq
         Hov Henc.
  rewrite (PeerHandshakeFacts.onPeerHandshakeMessage_dispatch buffer s n Hn Hd).
  destruct (BuildPacketFacts.responder_address_not_server _ Ha) as [-> ->].
  rewrite Ha. unfold Signaling.onPeerHandshakeMessage_responder.
  PeerHandshakeFacts.mstep. rewrite Hrole. PeerHandshakeFacts.mstep.
  rewrite Hrs. PeerHandshakeFacts.mstep. rewrite Hr, Hst, Hbox.
  PeerHandshakeFacts.mstep.
  rewrite (PeerHandshakeFacts.decrypt_ok box
             (Signaling.with_KeyStore (Some (Responder.keyStore r))
                                      (Responder.sessionKey r))
             plain Hdec).
  PeerHandshakeFacts.mstep.
  rewrite (PeerHandshakeFacts.decodeMessage_ok _ _ Hmsg
             (PeerHandshakeFacts.type_is_some _ _ Hty)).
  PeerHandshakeFacts.mstep.
  rewrite (PeerHandshakeFacts.assertType_ok _ _ Hty).
  PeerHandshakeFacts.mstep. rewrite Hck. PeerHandshakeFacts.mstep.
  rewrite Hcp. PeerHandshakeFacts.mstep. rewrite Heq.
  PeerHandshakeFacts.mstep. rewrite Hrs. PeerHandshakeFacts.mstep.
  rewrite Hr.
  match goal with
  | |- context [Signaling.dropResponders _ ?s3] =>
    destruct (ElectionFacts.dropResponders_run ref cp
                (JsMap.delete rs (Nonce.source n)) s3)
      as [s1 [cs' [packets [Hrun [Hthis [Hp [Hs [Hl Hc]]]]]]]]
  end; PeerHandshakeFacts.mstep; try assumption; try reflexivity.
  { pose proof (JsMapFacts.length_delete rs (Nonce.source n)). lia. }
  rewrite Hrun.
  assert (Hws1 : Signaling.ws (Signaling.this s1) = Some ref)
    by (rewrite Hthis; exact Hws).
  rewrite (Run.on_ws_some _ s1 ref Hws1). PeerHandshakeFacts.mstep.
  erewrite Run.on_ws_some by (PeerHandshakeFacts.mstep; exact Hws1).
  PeerHandshakeFacts.mstep.
  eexists. exists (JsMap.keys (JsMap.delete rs (Nonce.source n))), packets.
  split; [reflexivity|].
  PeerHandshakeFacts.mstep. rewrite Hthis. PeerHandshakeFacts.mstep.
  repeat (split; [reflexivity|]).
  split; [intros id; now apply JsMapFacts.keys_delete|].
  split; [exact Hp|].
  cbn [World.onConnected World.sockets World.set_socket World.onConnectedCalls].
  rewrite !Nat.eqb_refl.
  split; [cbn [WebSocket.addEventListener WebSocket.removeEventListener
               WebSocket.sent]; exact Hs|].
  split; [now apply WebSocketFacts.handles_after_remove_add|].
  split; [apply WebSocketFacts.handles_after_add|].
  now rewrite Hc.
Qed.

(** In the run of the initiator, the auth message of responder 0x02
    elects it, and 0x03 and 0x04 are dropped. *)
Lemma initiator_elects_responder_witness :
  exists s' others packets,
    Signaling.onPeerHandshakeMessage (E := Scenario.E) Scenario.auth_from_2
                                     Scenario.key_received = (Ok tt, s')
    /\ Signaling.state (Signaling.this s') = Signaling.open
    /\ Signaling.responders (Signaling.this s') = Some []
    /\ Signaling.responder (Signaling.this s') = Some Scenario.responder_2
    /\ Signaling.sessionKey (Signaling.this s')
       = Some (Responder.keyStore Scenario.responder_2)
    /\ others = JsMap.keys (JsMap.delete Scenario.responders_held 2)
    /\ (forall id, In id others
                   <-> In id (JsMap.keys Scenario.responders_held) /\ id <> 2)
    /\ Forall2 (DropResponderPacket (E := Scenario.E)
                  (Signaling.this Scenario.key_received)
                  (CookiePair.ours Scenario.cookies_held))
               others packets
    /\ WebSocket.sent (World.sockets (Signaling.world s') 0)
       = WebSocket.sent
           (World.sockets (Signaling.world Scenario.key_received) 0)
         ++ packets
    /\ WebSocket.handles (World.sockets (Signaling.world s') 0)
                         Listener.onPeerHandshakeMessage = false
    /\ WebSocket.handles (World.sockets (Signaling.world s') 0)
                         Listener.onMessage = true
    /\ World.onConnectedCalls (Signaling.world s')
       = S (World.onConnectedCalls (Signaling.world Scenario.key_received)).
Proof.
  apply (initiator_elects_responder (E := Scenario.E)
           Scenario.key_received 0 Scenario.auth_from_2
           (Nonce.mk Scenario.responderCookie 0 3 2 1)
           Scenario.responders_held Scenario.responder_2
           (Box.mk (firstn 24 Scenario.auth_from_2)
                   (skipn 24 Scenario.auth_from_2))
           (Reference.msgpack_encode (Auth Scenario.ours))
           (Auth Scenario.ours) Scenario.ours Scenario.cookies_held).
  - reflexivity.
  - reflexivity.
  - vm_compute. reflexivity.
  - reflexivity.
  - reflexivity.
  - vm_compute. reflexivity.
  - unfold JsMap.wf. vm_compute.
    repeat (constructor; [cbn; intuition discriminate|]). constructor.
  - vm_compute. reflexivity.
  - reflexivity.
  - vm_compute. reflexivity.
  - vm_compute. reflexivity.
  - vm_compute. reflexivity.
  - reflexivity.
  - reflexivity.
  - vm_compute. reflexivity.
  - vm_compute. reflexivity.
  - vm_compute. reflexivity.
  - intros data nonceBytes. eexists. vm_compute. reflexivity.
Defined.

(** The frames of the election in the run of the initiator: the
    drop-responder messages for 0x03 and 0x04 follow what was sent
    before. *)
Example election_drops_3_and_4 :
  let s' := Scenario.step Scenario.auth_from_2 Scenario.key_received in
  Signaling.state (Signaling.this s') = Signaling.open
  /\ Signaling.responders (Signaling.this s') = Some []
  /\ map (fun p => Reference.msgpack_decode (skipn 25 p))
         (skipn 4 (WebSocket.sent (World.sockets (Signaling.world s') 0)))
     = [Ok (DropResponder 3); Ok (DropResponder 4)]
  /\ map (fun p => Reference.Nonce_fromArrayBuffer (firstn 24 p))
         (skipn 4 (WebSocket.sent (World.sockets (Signaling.world s') 0)))
     = [Ok (Nonce.mk Scenario.ours 0 104 1 0);
        Ok (Nonce.mk Scenario.ours 0 105 1 0)].
Proof. cbv zeta. repeat split; vm_compute; reflexivity. Qed.

(** ** More on the chunking sublayer *)

Module ChunkingFacts.

Lemma payload_length (a : Uint8Array) :
  U8.wf a ->
  Z.of_nat (List.length (payload a)) = Z.max (U8.length a - 1) 0.
Proof.
  intros Hwf. unfold payload, U8.length.
  pose proof (U8Facts.bytes_length a Hwf) as Hb.
  destruct (U8.bytes a) as [|x r]; cbn [tl List.length] in *; lia.
Qed.

Lemma payload_of_empty (a : Uint8Array) : U8.length a = 0 -> payload a = [].
Proof.
  unfold payload, U8.length, U8.bytes. intros H.
  replace (U8.len a) with 0%nat by lia. reflexivity.
Qed.

Lemma payloads_one (a : Uint8Array) : payloads [a] = payload a.
Proof. unfold payloads. cbn [map List.concat]. apply app_nil_r. Qed.

Lemma payloads_cons (a : Uint8Array) (l : list Uint8Array) :
  payloads (a :: l) = payload a ++ payloads l.
Proof. reflexivity. Qed.

Lemma payloads_app (l1 l2 : list Uint8Array) :
  payloads (l1 ++ l2) = payloads l1 ++ payloads l2.
Proof. unfold payloads. now rewrite map_app, concat_app. Qed.

(** [slice(1)] of any array inside its buffer: its payload, in a buffer
    of its own. *)
Lemma slice_from_1_payload (a : Uint8Array) :
  Pushable a -> U8.slice_from a 1 = U8.of_buffer (payload a).
Proof.
  intros [Hwf Hlen]. unfold U8.slice_from, U8.slice, U8.relative, payload.
  pose proof (U8Facts.bytes_length a Hwf) as Hb.
  unfold U8.length in *.
  replace (1 <? 0) with false by reflexivity.
  destruct (Z.ltb_spec (Z.of_nat (U8.len a)) 0); [lia|].
  rewrite Z.min_id.
  replace (Z.min 1 (Z.of_nat (U8.len a))) with 1 by lia.
  replace (Z.to_nat 1) with 1%nat by reflexivity.
  destruct (U8.bytes a) as [|x r]; cbn [List.length] in Hb; [lia|].
  cbn [skipn tl]. f_equal. apply firstn_all2. lia.
Qed.

(** The loop of [merge] over pushed chunks writes their payloads one
    after the other. *)
Lemma merge_loop_payloads (cs : list Uint8Array) :
  Forall Pushable cs ->
  forall pre old : list byte,
    List.length old = List.length (payloads cs) ->
    Unchunkifier.merge_loop (U8.of_buffer (pre ++ old))
                            (Z.of_nat (List.length pre)) cs
    = Ok (U8.of_buffer (pre ++ payloads cs)).
Proof.
  induction 1 as [|c cs Hc Hcs IH]; intros pre old Hold.
  - cbn in Hold. apply length_zero_iff_nil in Hold. subst old.
    reflexivity.
  - cbn [Unchunkifier.merge_loop]. rewrite (slice_from_1_payload c Hc).
    rewrite payloads_cons in *.
    rewrite length_app in Hold.
    rewrite <- (firstn_skipn (List.length (payload c)) old).
    rewrite (U8Facts.set_of_buffer pre (firstn (List.length (payload c)) old)
               (skipn (List.length (payload c)) old) (payload c))
      by (rewrite length_firstn; lia).
    cbn [rbind].
    destruct Hc as [Hwf Hlen]. pose proof (payload_length c Hwf) as Hp.
    replace (Z.of_nat (List.length pre) + (U8.length c - 1))
      with (Z.of_nat (List.length (pre ++ payload c)))
      by (rewrite length_app; lia).
    rewrite (app_assoc pre (payload c) (skipn _ old)).
    rewrite IH by (rewrite length_skipn; lia).
    rewrite <- app_assoc. reflexivity.
Qed.

(** [merge] on an object whose bookkeeping is right. *)
Lemma merge_Consistent (u : Unchunkifier.t) :
  Consistent u -> Unchunkifier.done u = true ->
  Unchunkifier.merged u = None ->
  Unchunkifier.merge u
  = (Ok (U8.of_buffer (payloads (Unchunkifier.chunks u))),
     {| Unchunkifier.chunks := Unchunkifier.chunks u;
        Unchunkifier.length := Unchunkifier.length u;
        Unchunkifier.done := Unchunkifier.done u;
        Unchunkifier.merged :=
          Some (U8.of_buffer (payloads (Unchunkifier.chunks u))) |}).
Proof.
  intros [Hcs Hlen] Hdone Hmerged. unfold Unchunkifier.merge.
  rewrite Hdone, Hmerged. cbn [negb].
  unfold U8.alloc, U8.ArrayBuffer. rewrite Hlen.
  destruct (Z.ltb_spec (Z.of_nat (List.length (payloads (Unchunkifier.chunks u)))) 0);
    [lia|].
  cbn [rbind]. rewrite Nat2Z.id.
  pose proof (merge_loop_payloads _ Hcs []
                (repeat x00 (List.length (payloads (Unchunkifier.chunks u))))
                (repeat_length _ _)) as Hm.
  cbn [app List.length] in Hm. change (Z.of_nat 0) with 0 in Hm.
  rewrite Hm. reflexivity.
Qed.

(** What [add] does to the object, whatever it returns or throws. *)
Lemma add_cases (u : Unchunkifier.t) (a : Uint8Array) :
  snd (Unchunkifier.add u a) = u
  \/ (Unchunkifier.done u = false /\ U8.length a <> 0
      /\ (snd (Unchunkifier.add u a) = Unchunkifier.pushed u a
          \/ snd (Unchunkifier.add u a)
             = Unchunkifier.set_done (Unchunkifier.pushed u a))).
Proof.
  unfold Unchunkifier.add.
  destruct (Unchunkifier.done u); [now left|].
  destruct (Z.eqb_spec (U8.length a) 0) as [|Hne]; [now left|].
  right. split; [reflexivity|]. split; [exact Hne|].
  destruct (U8.getUint8 (U8.buffer a) 0) as [f|e]; [|now left].
  destruct (Byte.eqb f x00); [now right|].
  destruct (Byte.eqb f x01); now left.
Qed.

Lemma add_Consistent (u : Unchunkifier.t) (a : Uint8Array) :
  U8.wf a -> Consistent u -> Consistent (snd (Unchunkifier.add u a)).
Proof.
  intros Hwf [Hcs Hlen].
  assert (Hpushed : U8.length a <> 0 ->
                    Forall Pushable (Unchunkifier.chunks u ++ [a])
                    /\ Unchunkifier.length u + (U8.length a - 1)
                       = Z.of_nat (List.length
                                     (payloads (Unchunkifier.chunks u ++ [a])))).
  { intros Hne. assert (1 <= U8.length a) by (unfold U8.length in *; lia).
    split.
    - apply Forall_app. split; [exact Hcs|]. constructor; [|constructor].
      split; assumption.
    - rewrite payloads_app, length_app, Hlen.
      rewrite payloads_one.
      pose proof (payload_length a Hwf). lia. }
  destruct (add_cases u a) as [->|[_ [Hne [->| ->]]]];
    [split; assumption | exact (Hpushed Hne) | exact (Hpushed Hne)].
Qed.

Lemma add_merged (u : Unchunkifier.t) (a : Uint8Array) :
  Unchunkifier.merged (snd (Unchunkifier.add u a)) = Unchunkifier.merged u.
Proof.
  destruct (add_cases u a) as [->|[_ [_ [->| ->]]]]; reflexivity.
Qed.

Lemma feed_Consistent (l : list Uint8Array) :
  Forall U8.wf l ->
  forall u, Consistent u ->
    Consistent (snd (feed u l))
    /\ Unchunkifier.merged (snd (feed u l)) = Unchunkifier.merged u.
Proof.
  induction 1 as [|a l Ha Hl IH]; intros u Hu; cbn [feed].
  - split; [exact Hu | reflexivity].
  - pose proof (add_Consistent u a Ha Hu) as Hc.
    pose proof (add_merged u a) as Hm.
    destruct (Unchunkifier.add u a) as [[v|e] u1]; cbn [snd] in *.
    + destruct (IH u1 Hc) as [H1 H2]. split; [exact H1 | congruence].
    + split; assumption.
Qed.

Lemma new_Consistent : Consistent Unchunkifier.new.
Proof. split; [constructor | reflexivity]. Qed.

(** The payloads that an accepted chunk adds. *)
Lemma add_ok_payloads (u u1 : Unchunkifier.t) (a : Uint8Array) (v : value) :
  Unchunkifier.add u a = (Ok v, u1) ->
  payloads (Unchunkifier.chunks u1)
  = payloads (Unchunkifier.chunks u) ++ payload a.
Proof.
  unfold Unchunkifier.add.
  destruct (Unchunkifier.done u); [discriminate|].
  destruct (Z.eqb_spec (U8.length a) 0) as [H0|Hne].
  - intros H. injection H as _ <-.
    rewrite (payload_of_empty a H0). now rewrite app_nil_r.
  - assert (Hp : payloads (Unchunkifier.chunks u ++ [a])
                 = payloads (Unchunkifier.chunks u) ++ payload a).
    { now rewrite payloads_app, payloads_one. }
    destruct (U8.getUint8 (U8.buffer a) 0) as [f|e]; [|discriminate].
    destruct (Byte.eqb f x00); [intros H; injection H as _ <-; exact Hp|].
    destruct (Byte.eqb f x01); [intros H; injection H as _ <-; exact Hp|].
    discriminate.
Qed.

Lemma feed_ok_payloads (l : list Uint8Array) :
  forall u u', feed u l = (Ok tt, u') ->
    payloads (Unchunkifier.chunks u')
    = payloads (Unchunkifier.chunks u) ++ payloads l.
Proof.
  induction l as [|a l IH]; intros u u' H; cbn [feed] in H.
  - injection H as <-. change (payloads []) with (@nil byte).
    now rewrite app_nil_r.
  - destruct (Unchunkifier.add u a) as [[v|e] u1] eqn:Ha; [|discriminate].
    rewrite (IH u1 u' H), (add_ok_payloads u u1 a v Ha).
    rewrite payloads_cons. now rewrite app_assoc.
Qed.

Lemma Chunked_sizes (k : nat) (r : list byte) (l : list Uint8Array) :
  Chunked k r l ->
  (1 <= k)%nat
  /\ l <> []
  /\ Forall (fun ch => 2 <= U8.length ch <= Z.of_nat k + 1) l.
Proof.
  induction 1 as [r Hr | p r l Hp Hne Hch [Hk [_ IH]]].
  - split; [lia|]. split; [discriminate|]. constructor; [|constructor].
    rewrite U8Facts.length_of_buffer. cbn [List.length]. lia.
  - split; [exact Hk|]. split; [discriminate|]. constructor; [|exact IH].
    rewrite U8Facts.length_of_buffer. cbn [List.length]. lia.
Qed.

End ChunkingFacts.

(** X1. The constructor of [Chunkifier] refuses an empty array first and
    a chunk size below 2 next, each with its [RangeError]; for every
    other input [getChunks] returns (no typed-array operation in its loop
    goes out of bounds), the list is not empty, and no chunk is longer
    than the chunk size or carries the flag byte only. *)
Theorem chunk_outcome (buf : Uint8Array) (C : Z) :
  U8.wf buf ->
  (U8.length buf < 1 ->
   chunk buf C = Throw (RangeError "Array may not be empty"))
  /\ (1 <= U8.length buf -> C < 2 ->
      chunk buf C = Throw (RangeError "Chunk size must be larger than 1"))
  /\ (1 <= U8.length buf -> 2 <= C ->
      exists l, chunk buf C = Ok l
                /\ l <> []
                /\ Forall (fun ch => 2 <= U8.length ch <= C) l).
Proof.
  intros Hwf. split; [|split].
  - intros Hlen. unfold chunk, Chunkifier.new.
    destruct (Z_lt_dec (U8.length buf) 1); [reflexivity | lia].
  - intros Hlen HC. unfold chunk, Chunkifier.new.
    destruct (Z_lt_dec (U8.length buf) 1); [lia|].
    destruct (Z_lt_dec C 2); [reflexivity | lia].
  - intros Hlen HC.
    destruct (ChunkifierFacts.chunk_Chunked buf C Hwf Hlen HC) as [l [Hl Hch]].
    destruct (ChunkingFacts.Chunked_sizes _ _ _ Hch) as [_ [Hne Hall]].
    exists l. split; [exact Hl|]. split; [exact Hne|].
    eapply Forall_impl; [|exact Hall]. cbv beta. intros ch. lia.
Qed.

Lemma chunk_outcome_witness :
  exists l, chunk (u8 [1; 2; 3; 4; 5; 6]%nat) 5 = Ok l
            /\ l <> []
            /\ Forall (fun ch => 2 <= U8.length ch <= 5) l.
Proof.
  apply (proj2 (proj2 (chunk_outcome (u8 [1; 2; 3; 4; 5; 6]%nat) 5
                         ltac:(unfold U8.wf; cbn; lia)))).
  - cbn. lia.
  - lia.
Defined.

(** X2. [getChunks] builds the chunks once: the first call on a fresh
    object fills the cache and leaves the array and the chunk size alone,
    and a second call returns the same list without changing the
    object. *)
Theorem getChunks_cached (c : Chunkifier.t) :
  U8.wf (Chunkifier.array c) ->
  Chunkifier.chunks c = None ->
  exists l c',
    Chunkifier.getChunks c = (Ok l, c')
    /\ Chunkifier.chunks c' = Some l
    /\ Chunkifier.array c' = Chunkifier.array c
    /\ Chunkifier.chunkSize c' = Chunkifier.chunkSize c
    /\ Chunkifier.getChunks c' = (Ok l, c').
Proof.
  intros Hwf Hnone.
  pose proof (Chunkifier.array_nonempty c) as Ha.
  pose proof (Chunkifier.chunkSize_large c) as HC.
  destruct (ChunkifierFacts.getChunks_loop_Chunked c Hwf
              (Z.to_nat (U8.length (Chunkifier.array c)
                         - Chunkifier.offset c 0)) 0 [])
    as [l [Hl _]]; try lia; try reflexivity.
  { unfold Chunkifier.hasNext, Chunkifier.offset. apply Z.ltb_lt. lia. }
  unfold Chunkifier.getChunks at 1. rewrite Hnone, Hl. cbn [app rbind].
  eexists l, _. split; [reflexivity|].
  cbn [Chunkifier.chunks Chunkifier.array Chunkifier.chunkSize].
  repeat split; reflexivity.
Qed.

Lemma getChunks_cached_witness :
  exists l c',
    Chunkifier.getChunks chunkifier_123 = (Ok l, c')
    /\ Chunkifier.chunks c' = Some l
    /\ Chunkifier.array c' = Chunkifier.array chunkifier_123
    /\ Chunkifier.chunkSize c' = Chunkifier.chunkSize chunkifier_123
    /\ Chunkifier.getChunks c' = (Ok l, c').
Proof.
  apply (getChunks_cached chunkifier_123).
  - unfold U8.wf. cbn. lia.
  - reflexivity.
Defined.

(** X3. What [add] returns tells whether the chunks are complete: when it
    returns a boolean [b], the object was not complete, the chunk was not
    empty and has been pushed with its payload counted, the byte read at
    the head of the chunk's buffer is 0 for [true] and 1 for [false], and
    the completion flag of the object is [b] afterwards. *)
Theorem add_returns_completion
        (u u' : Unchunkifier.t) (a : Uint8Array) (b : bool) :
  Unchunkifier.add u a = (Ok (JsBoolean b), u') ->
  Unchunkifier.done u = false
  /\ U8.length a <> 0
  /\ U8.getUint8 (U8.buffer a) 0 = Ok (if b then x00 else x01)
  /\ Unchunkifier.done u' = b
  /\ Unchunkifier.chunks u' = Unchunkifier.chunks u ++ [a]
  /\ Unchunkifier.length u' = Unchunkifier.length u + (U8.length a - 1)
  /\ Unchunkifier.merged u' = Unchunkifier.merged u.
Proof.
  unfold Unchunkifier.add.
  destruct (Unchunkifier.done u) eqn:Hd; [discriminate|].
  destruct (Z.eqb_spec (U8.length a) 0) as [|Hne]; [discriminate|].
  destruct (U8.getUint8 (U8.buffer a) 0) as [f|e]; [|discriminate].
  destruct (Byte.eqb f x00) eqn:E0.
  - intros H. injection H as <- <-. apply Byte.byte_dec_bl in E0. subst f.
    repeat split; try reflexivity; assumption.
  - destruct (Byte.eqb f x01) eqn:E1; [|discriminate].
    intros H. injection H as <- <-. apply Byte.byte_dec_bl in E1. subst f.
    repeat split; try reflexivity; assumption.
Qed.

Lemma add_returns_completion_witness :
  Unchunkifier.done Unchunkifier.new = false
  /\ U8.length (u8 [0; 5; 6]%nat) <> 0
  /\ U8.getUint8 (U8.buffer (u8 [0; 5; 6]%nat)) 0 = Ok x00
  /\ Unchunkifier.done
       (Unchunkifier.set_done
          (Unchunkifier.pushed Unchunkifier.new (u8 [0; 5; 6]%nat))) = true
  /\ Unchunkifier.chunks
       (Unchunkifier.set_done
          (Unchunkifier.pushed Unchunkifier.new (u8 [0; 5; 6]%nat)))
     = Unchunkifier.chunks Unchunkifier.new ++ [u8 [0; 5; 6]%nat]
  /\ Unchunkifier.length
       (Unchunkifier.set_done
          (Unchunkifier.pushed Unchunkifier.new (u8 [0; 5; 6]%nat)))
     = Unchunkifier.length Unchunkifier.new
       + (U8.length (u8 [0; 5; 6]%nat) - 1)
  /\ Unchunkifier.merged
       (Unchunkifier.set_done
          (Unchunkifier.pushed Unchunkifier.new (u8 [0; 5; 6]%nat)))
     = Unchunkifier.merged Unchunkifier.new.
Proof.
  apply (add_returns_completion Unchunkifier.new _ (u8 [0; 5; 6]%nat) true).
  reflexivity.
Defined.

(** X4. Once [add] has returned [true], every further [add], also of an
    empty chunk, throws "Cannot add more chunks, already complete" and
    leaves the object as it is. *)
Theorem add_after_completion_rejected
        (u u' : Unchunkifier.t) (a : Uint8Array) :
  Unchunkifier.add u a = (Ok (JsBoolean true), u') ->
  forall b,
    Unchunkifier.add u' b
    = (Throw (Error "Cannot add more chunks, already complete"), u').
Proof.
  intros Hadd b.
  assert (Hd : Unchunkifier.done u' = true).
  { revert Hadd. unfold Unchunkifier.add.
    destruct (Unchunkifier.done u); [discriminate|].
    destruct (U8.length a =? 0); [discriminate|].
    destruct (U8.getUint8 (U8.buffer a) 0) as [f|e]; [|discriminate].
    destruct (Byte.eqb f x00).
    - intros H. injection H as <-. reflexivity.
    - destruct (Byte.eqb f x01); discriminate. }
  unfold Unchunkifier.add. now rewrite Hd.
Qed.

(** The test "cannot add after done", with an empty chunk. *)
Lemma add_after_completion_rejected_witness :
  Unchunkifier.add
    (Unchunkifier.set_done
       (Unchunkifier.pushed Unchunkifier.new (u8 [0; 5; 6]%nat))) (u8 [])
  = (Throw (Error "Cannot add more chunks, already complete"),
     Unchunkifier.set_done
       (Unchunkifier.pushed Unchunkifier.new (u8 [0; 5; 6]%nat))).
Proof.
  apply (add_after_completion_rejected Unchunkifier.new _ (u8 [0; 5; 6]%nat)).
  reflexivity.
Defined.

(** X5. Any chunks that a fresh [Unchunkifier] accepts up to completion,
    of whatever sizes and wherever they lie in their buffers, merge into
    the concatenation of their payloads (each chunk without its first
    byte), in a buffer of its own. *)
Theorem dechunk_concatenates_payloads
        (l : list Uint8Array) (u : Unchunkifier.t) :
  Forall U8.wf l ->
  feed Unchunkifier.new l = (Ok tt, u) ->
  Unchunkifier.done u = true ->
  dechunk l = Ok (U8.of_buffer (payloads l)).
Proof.
  intros Hwf Hfeed Hdone.
  destruct (ChunkingFacts.feed_Consistent l Hwf Unchunkifier.new
              ChunkingFacts.new_Consistent) as [Hc Hm].
  pose proof (ChunkingFacts.feed_ok_payloads l _ _ Hfeed) as Hp.
  unfold dechunk. rewrite Hfeed in *. cbn [snd rbind] in *.
  rewrite (ChunkingFacts.merge_Consistent u Hc Hdone Hm). cbn [fst].
  rewrite Hp. reflexivity.
Qed.

(** The test "merges differently sized chunks". *)
Lemma dechunk_concatenates_payloads_witness :
  dechunk [u8 [1; 1; 2; 3]; u8 [1; 4]; u8 [0; 5; 6]]%nat
  = Ok (U8.of_buffer
          (payloads [u8 [1; 1; 2; 3]; u8 [1; 4]; u8 [0; 5; 6]]%nat)).
Proof.
  apply (dechunk_concatenates_payloads
           [u8 [1; 1; 2; 3]; u8 [1; 4]; u8 [0; 5; 6]]%nat
           (snd (feed Unchunkifier.new
                      [u8 [1; 1; 2; 3]; u8 [1; 4]; u8 [0; 5; 6]]%nat))).
  - repeat constructor; unfold U8.wf; cbn; lia.
  - reflexivity.
  - reflexivity.
Defined.

(** X6. On an [Unchunkifier] that has been fed any arrays from new,
    whether every [add] returned or one threw, [merge] fails exactly
    when the object is not complete, with "Chunks not yet complete" and
    no change; when the object is complete it returns the payloads of
    the chunks pushed and caches them.  No typed-array operation of
    [merge] goes out of bounds. *)
Theorem merge_after_feed
        (l : list Uint8Array) (r : result unit) (u : Unchunkifier.t) :
  Forall U8.wf l ->
  feed Unchunkifier.new l = (r, u) ->
  (Unchunkifier.done u = false ->
   Unchunkifier.merge u = (Throw (Error "Chunks not yet complete"), u))
  /\ (Unchunkifier.done u = true ->
      exists u',
        Unchunkifier.merge u
        = (Ok (U8.of_buffer (payloads (Unchunkifier.chunks u))), u')
        /\ Unchunkifier.merged u'
           = Some (U8.of_buffer (payloads (Unchunkifier.chunks u)))
        /\ Unchunkifier.chunks u' = Unchunkifier.chunks u
        /\ Unchunkifier.length u' = Unchunkifier.length u
        /\ Unchunkifier.done u' = true).
Proof.
  intros Hwf Hfeed.
  destruct (ChunkingFacts.feed_Consistent l Hwf Unchunkifier.new
              ChunkingFacts.new_Consistent) as [Hc Hm].
  rewrite Hfeed in *. cbn [snd] in *. split.
  - intros Hd. unfold Unchunkifier.merge. now rewrite Hd.
  - intros Hd. eexists. split;
      [exact (ChunkingFacts.merge_Consistent u Hc Hd Hm)|].
    cbn [Unchunkifier.merged Unchunkifier.chunks Unchunkifier.length
         Unchunkifier.done].
    repeat split; try reflexivity. exact Hd.
Qed.

(** The test "cannot merge before done". *)
Lemma merge_after_feed_witness :
  Unchunkifier.merge
    (snd (feed Unchunkifier.new [u8 [1; 1; 2]; u8 [1; 3; 4]]%nat))
  = (Throw (Error "Chunks not yet complete"),
     snd (feed Unchunkifier.new [u8 [1; 1; 2]; u8 [1; 3; 4]]%nat)).
Proof.
  apply (proj1 (merge_after_feed [u8 [1; 1; 2]; u8 [1; 3; 4]]%nat
                  (Ok tt) _
                  ltac:(repeat constructor; unfold U8.wf; cbn; lia)
                  eq_refl)).
  reflexivity.
Defined.

(** X7. [merge] caches its result: after a call that returned, a second
    call returns the same array and leaves the object as it is. *)
Theorem merge_cached (u u' : Unchunkifier.t) (m : Uint8Array) :
  Unchunkifier.merge u = (Ok m, u') ->
  Unchunkifier.merge u' = (Ok m, u')
  /\ Unchunkifier.chunks u' = Unchunkifier.chunks u
  /\ Unchunkifier.length u' = Unchunkifier.length u
  /\ Unchunkifier.done u' = true.
Proof.
  unfold Unchunkifier.merge.
  destruct (Unchunkifier.done u) eqn:Hd; cbn [negb]; [|discriminate].
  destruct (Unchunkifier.merged u) as [m0|] eqn:Hm.
  - intros H. injection H as <- <-. rewrite Hd, Hm. cbn [negb].
    repeat split; reflexivity || assumption.
  - destruct (rbind _ _) as [array|e]; [|discriminate].
    intros H. injection H as <- <-.
    cbn [Unchunkifier.done Unchunkifier.merged Unchunkifier.chunks
         Unchunkifier.length].
    cbn [negb]. repeat split; reflexivity.
Qed.

Lemma merge_cached_witness :
  let u := snd (feed Unchunkifier.new [u8 [1; 1; 2]; u8 [0; 3]]%nat) in
  let u' := snd (Unchunkifier.merge u) in
  Unchunkifier.merge u' = (Ok (u8 [1; 2; 3]%nat), u')
  /\ Unchunkifier.chunks u' = Unchunkifier.chunks u
  /\ Unchunkifier.length u' = Unchunkifier.length u
  /\ Unchunkifier.done u' = true.
Proof.
  cbv zeta.
  apply (merge_cached
           (snd (feed Unchunkifier.new [u8 [1; 1; 2]; u8 [0; 3]]%nat))).
  reflexivity.
Defined.

(** ** More on the combined sequence *)

(** X8. While its sequence number is a 32-bit number, a combined
    sequence counts: a call of [next()] that returns has added exactly
    one to the number made of overflow and sequence number, hands back
    the pair that the object holds afterwards, and leaves the sequence
    number a 32-bit number. *)
Theorem next_counts_up (c r c' : CombinedSequence.t) :
  0 <= CombinedSequence.sequenceNumber c
       < CombinedSequence.SEQUENCE_NUMBER_MAX ->
  CombinedSequence.next c = (Ok r, c') ->
  r = c'
  /\ combined_value c' = combined_value c + 1
  /\ 0 <= CombinedSequence.sequenceNumber c'
          < CombinedSequence.SEQUENCE_NUMBER_MAX.
Proof.
  intros Hrange Hnext.
  destruct (CombinedSequenceFacts.next_returns c r c' Hnext)
    as [Hr [_ [[Hlt [Hs Ho]]|[Hge [Hs Ho]]]]];
    (split; [exact Hr|]); unfold combined_value; rewrite Hs, Ho;
    unfold CombinedSequence.SEQUENCE_NUMBER_MAX in *; split; lia.
Qed.

Lemma next_counts_up_witness :
  CombinedSequence.mk 0 8 = CombinedSequence.mk 0 8
  /\ combined_value (CombinedSequence.mk 0 8)
     = combined_value (CombinedSequence.mk 0xFFFFFFFF 7) + 1
  /\ 0 <= CombinedSequence.sequenceNumber (CombinedSequence.mk 0 8)
          < CombinedSequence.SEQUENCE_NUMBER_MAX.
Proof.
  apply (next_counts_up (CombinedSequence.mk 0xFFFFFFFF 7)).
  - cbn. unfold CombinedSequence.SEQUENCE_NUMBER_MAX. lia.
  - reflexivity.
Defined.

(** X9. The failure of [next()] does not stick.  When [next()] throws, it
    is the error 'overflow-overflow', and the object has already been
    moved on to sequence number 0 with an overflow counter at or beyond
    [OVERFLOW_MAX]; the next call returns, with sequence number 1 and
    that overflow counter. *)
Theorem next_failure_not_sticky (c c' : CombinedSequence.t) (e : exn) :
  CombinedSequence.next c = (Throw e, c') ->
  e = Error "overflow-overflow"
  /\ c' = {| CombinedSequence.sequenceNumber := 0;
             CombinedSequence.overflow := CombinedSequence.overflow c + 1 |}
  /\ CombinedSequence.OVERFLOW_MAX <= CombinedSequence.overflow c'
  /\ CombinedSequence.next c'
     = (Ok {| CombinedSequence.sequenceNumber := 1;
              CombinedSequence.overflow := CombinedSequence.overflow c' |},
        {| CombinedSequence.sequenceNumber := 1;
           CombinedSequence.overflow := CombinedSequence.overflow c' |}).
Proof.
  unfold CombinedSequence.next at 1.
  destruct (CombinedSequence.sequenceNumber c + 1
            >=? CombinedSequence.SEQUENCE_NUMBER_MAX); [|discriminate].
  cbn [CombinedSequence.overflow CombinedSequence.sequenceNumber].
  destruct (Z.geb_spec (CombinedSequence.overflow c + 1)
                       CombinedSequence.OVERFLOW_MAX) as [Ho|Ho];
    [|discriminate].
  intros H. injection H as <- <-.
  split; [reflexivity|]. split; [reflexivity|].
  cbn [CombinedSequence.overflow]. split; [lia|]. reflexivity.
Qed.

Lemma next_failure_not_sticky_witness :
  Error "overflow-overflow" = Error "overflow-overflow"
  /\ CombinedSequence.mk 0 0x100000
     = {| CombinedSequence.sequenceNumber := 0;
          CombinedSequence.overflow :=
            CombinedSequence.overflow
              (CombinedSequence.mk 0xFFFFFFFF 0xFFFFF) + 1 |}
  /\ CombinedSequence.OVERFLOW_MAX
     <= CombinedSequence.overflow (CombinedSequence.mk 0 0x100000)
  /\ CombinedSequence.next (CombinedSequence.mk 0 0x100000)
     = (Ok {| CombinedSequence.sequenceNumber := 1;
              CombinedSequence.overflow :=
                CombinedSequence.overflow (CombinedSequence.mk 0 0x100000) |},
        {| CombinedSequence.sequenceNumber := 1;
           CombinedSequence.overflow :=
             CombinedSequence.overflow (CombinedSequence.mk 0 0x100000) |}).
Proof.
  apply (next_failure_not_sticky (CombinedSequence.mk 0xFFFFFFFF 0xFFFFF)).
  reflexivity.
Defined.

(** ** More on [buildPacket] *)

Module PacketFacts.
Import Signaling.

Section WithCollaborators.
Context {E : Collaborators}.

(** The encryption step of [buildPacket] leaves the engine alone. *)
Lemma buildPacket_box_state (message : Message) (receiver : Z)
      (data nonceBytes : list byte) (s : Sys) :
  snd (buildPacket_box message receiver data nonceBytes s) = s.
Proof.
  revert s.
  change (Keeps (fun s : Sys => s)
                (buildPacket_box message receiver data nonceBytes)).
  unfold buildPacket_box.
  apply KeepsFacts.keeps_bind; [apply KeepsFacts.keeps_self|intros s].
  destruct (receiver =? SALTYRTC_ADDR_SERVER); [apply KeepsFacts.keeps_call|].
  destruct (receiver =? SALTYRTC_ADDR_INITIATOR).
  { destruct (Msg.type_is message T_token); [apply KeepsFacts.keeps_call|].
    destruct (Msg.type_is message T_key); [apply KeepsFacts.keeps_call|].
    apply KeepsFacts.keeps_bind; [apply KeepsFacts.keeps_deref|intros].
    apply KeepsFacts.keeps_call. }
  destruct (is_responder_address receiver); [|apply KeepsFacts.keeps_throw].
  apply KeepsFacts.keeps_bind.
  { unfold responders_get.
    apply KeepsFacts.keeps_bind; [apply KeepsFacts.keeps_self|intros].
    apply KeepsFacts.keeps_bind; [apply KeepsFacts.keeps_deref|intros].
    apply KeepsFacts.keeps_deref. }
  intros r. destruct (Msg.type_is message T_key); apply KeepsFacts.keeps_call.
Qed.

(** [buildPacket] from the sequence number on. *)
Lemma buildPacket_after_csn (message : Message) (receiver : Z)
      (encrypt : bool) (s s1 : Sys) (csn : CombinedSequence.t) :
  buildPacket_csn receiver s = (Ok csn, s1) ->
  buildPacket message receiver encrypt s
  = (match cookiePair (this s1) with
     | None => Throw (TypeError "this.cookiePair is null")
     | Some cp =>
       let nonceBytes := packet_nonce (this s1) (CookiePair.ours cp) csn
                                      receiver in
       let data := msgpack_encode message in
       if encrypt then
         box <- fst (buildPacket_box message receiver data nonceBytes s1) ;;
         Ok (Box.toUint8Array box)
       else Ok (nonceBytes ++ data)
     end, s1).
Proof.
  intros Hcsn. unfold buildPacket.
  rewrite (Run.bind_ok _ _ _ _ _ Hcsn).
  unfold buildPacket_nonce, mbind at 1 2 3, self, deref, ret, throw.
  destruct (cookiePair (this s1)) as [cp|]; [|reflexivity].
  cbv zeta. unfold packet_nonce.
  destruct encrypt; [|reflexivity].
  unfold mbind.
  pose proof (buildPacket_box_state message receiver
                (msgpack_encode message)
                (Nonce_toArrayBuffer
                   (Nonce.mk (CookiePair.ours cp)
                             (CombinedSequence.overflow csn)
                             (CombinedSequence.sequenceNumber csn)
                             (address (this s1)) receiver)) s1) as Hst.
  destruct (buildPacket_box _ _ _ _ s1) as [[box|e] s2];
    cbn [snd fst rbind] in *; subst s2; reflexivity.
Qed.

(** The choice of the sequence number, seen from its outcome. *)
Lemma buildPacket_csn_initiator (s : Sys) :
  buildPacket_csn SALTYRTC_ADDR_INITIATOR s
  = (fst (CombinedSequence.next (initiatorCombinedSequence (this s))),
     {| this := set_initiatorCombinedSequence (this s)
                  (snd (CombinedSequence.next
                          (initiatorCombinedSequence (this s))));
        world := world s |}).
Proof.
  unfold buildPacket_csn, initiatorCombinedSequence_next.
  change (SALTYRTC_ADDR_INITIATOR =? SALTYRTC_ADDR_SERVER) with false.
  change (SALTYRTC_ADDR_INITIATOR =? SALTYRTC_ADDR_INITIATOR) with true.
  cbv beta iota.
  destruct (CombinedSequence.next _); reflexivity.
Qed.

Lemma next_ok_same (c r c' : CombinedSequence.t) :
  CombinedSequence.next c = (Ok r, c') ->
  r = c' /\ CombinedSequence.lex_lt c c'.
Proof.
  intros H. destruct (CombinedSequenceFacts.next_returns c r c' H)
    as [Hr [Hlt _]]. now split.
Qed.

(** A packet for a responder, when the map holds it and the encryption
    succeeds. *)
Lemma buildPacket_responder_run (message : Message) (receiver : Z)
      (s : Sys) (rs : JsMap.t Responder.t) (r : Responder.t)
      (cp : CookiePair.t) (box : Box.t) :
  is_responder_address receiver = true ->
  responders (this s) = Some rs ->
  JsMap.get rs receiver = Some r ->
  cookiePair (this s) = Some cp ->
  (if Msg.type_is message T_key then
     KeyStore_encrypt (permanentKey (this s)) (msgpack_encode message)
       (packet_nonce (this s) (CookiePair.ours cp)
                     (Responder.combinedSequence r) receiver)
       (Responder.permanentKey r)
   else
     KeyStore_encrypt (Responder.keyStore r) (msgpack_encode message)
       (packet_nonce (this s) (CookiePair.ours cp)
                     (Responder.combinedSequence r) receiver)
       (Responder.sessionKey r)) = Ok box ->
  buildPacket message receiver true s = (Ok (Box.toUint8Array box), s).
Proof.
  intros Ha Hrs Hr Hcp Henc.
  rewrite (buildPacket_after_csn _ _ _ _ _ _
             (BuildPacketFacts.buildPacket_csn_responder receiver s rs r
                Ha Hrs Hr)).
  rewrite Hcp. cbv zeta.
  unfold buildPacket_box, responders_get, mbind, self, deref, ret.
  destruct (BuildPacketFacts.responder_address_not_server receiver Ha)
    as [-> ->].
  rewrite Ha, Hrs, Hr.
  destruct (Msg.type_is message T_key); rewrite Henc; reflexivity.
Qed.

(** An unencrypted packet for the server, when [next()] succeeds. *)
Lemma buildPacket_server_plain_run (message : Message) (s : Sys)
      (cp : CookiePair.t) (c1 : CombinedSequence.t) :
  cookiePair (this s) = Some cp ->
  CombinedSequence.next (serverCombinedSequence (this s)) = (Ok c1, c1) ->
  buildPacket message SALTYRTC_ADDR_SERVER false s
  = (Ok (packet_nonce (this s) (CookiePair.ours cp) c1 SALTYRTC_ADDR_SERVER
         ++ msgpack_encode message),
     {| this := set_serverCombinedSequence (this s) c1;
        world := world s |}).
Proof.
  intros Hcp Hnext.
  pose proof (BuildPacketFacts.buildPacket_csn_server s) as Hcsn.
  rewrite Hnext in Hcsn. cbn [fst snd] in Hcsn.
  rewrite (buildPacket_after_csn _ _ _ _ _ _ Hcsn).
  cbn [this cookiePair set_serverCombinedSequence].
  rewrite Hcp. reflexivity.
Qed.

(** A packet for the initiator, when [next()] and the encryption
    succeed. *)
Lemma buildPacket_initiator_run (message : Message) (s : Sys)
      (cp : CookiePair.t) (c1 : CombinedSequence.t) (box : Box.t) :
  cookiePair (this s) = Some cp ->
  CombinedSequence.next (initiatorCombinedSequence (this s)) = (Ok c1, c1) ->
  (if Msg.type_is message T_token then
     AuthToken_encrypt (authToken (this s)) (msgpack_encode message)
       (packet_nonce (this s) (CookiePair.ours cp) c1
                     SALTYRTC_ADDR_INITIATOR)
   else if Msg.type_is message T_key then
     KeyStore_encrypt (permanentKey (this s)) (msgpack_encode message)
       (packet_nonce (this s) (CookiePair.ours cp) c1
                     SALTYRTC_ADDR_INITIATOR)
       (initiatorPermanentKey (this s))
   else
     match sessionKey (this s) with
     | Some ks =>
       KeyStore_encrypt ks (msgpack_encode message)
         (packet_nonce (this s) (CookiePair.ours cp) c1
                       SALTYRTC_ADDR_INITIATOR)
         (initiatorSessionKey (this s))
     | None => Throw (TypeError "this.sessionKey is null")
     end) = Ok box ->
  buildPacket message SALTYRTC_ADDR_INITIATOR true s
  = (Ok (Box.toUint8Array box),
     {| this := set_initiatorCombinedSequence (this s) c1;
        world := world s |}).
Proof.
  intros Hcp Hnext Henc.
  pose proof (buildPacket_csn_initiator s) as Hcsn.
  rewrite Hnext in Hcsn. cbn [fst snd] in Hcsn.
  rewrite (buildPacket_after_csn _ _ _ _ _ _ Hcsn).
  cbn [this cookiePair set_initiatorCombinedSequence].
  rewrite Hcp. cbv zeta.
  unfold buildPacket_box, mbind, self, deref, ret.
  change (SALTYRTC_ADDR_INITIATOR =? SALTYRTC_ADDR_SERVER) with false.
  change (SALTYRTC_ADDR_INITIATOR =? SALTYRTC_ADDR_INITIATOR) with true.
  cbn [this authToken permanentKey initiatorPermanentKey sessionKey
       initiatorSessionKey set_initiatorCombinedSequence].
  change (packet_nonce (set_initiatorCombinedSequence (this s) c1))
    with (packet_nonce (this s)).
  destruct (Msg.type_is message T_token); [rewrite Henc; reflexivity|].
  destruct (Msg.type_is message T_key); [rewrite Henc; reflexivity|].
  destruct (sessionKey (this s)) as [ks|]; [|discriminate Henc].
  cbv beta iota. rewrite Henc. reflexivity.
Qed.

End WithCollaborators.
End PacketFacts.

(** X10. For a receiver in 0x02..0xff, [buildPacket] leaves the engine and
    its world exactly as they were, whether it returns a packet or
    throws: no combined sequence of a responder is ever advanced by
    it. *)
Theorem buildPacket_responder_leaves_engine {E : Collaborators}
        (message : Message) (receiver : Z) (encrypt : bool)
        (s : Signaling.Sys) :
  Signaling.is_responder_address receiver = true ->
  snd (Signaling.buildPacket message receiver encrypt s) = s.
Proof.
  intros Ha. unfold Signaling.buildPacket, Signaling.buildPacket_csn.
  destruct (BuildPacketFacts.responder_address_not_server receiver Ha)
    as [-> ->].
  rewrite Ha.
  unfold Signaling.responders_get, Signaling.buildPacket_nonce, mbind,
    Signaling.self, deref, ret, throw.
  destruct (Signaling.responders (Signaling.this s)) as [rs|];
    [|reflexivity].
  destruct (JsMap.get rs receiver) as [r|]; [|reflexivity].
  destruct (Signaling.cookiePair (Signaling.this s)) as [cp|];
    [|reflexivity].
  destruct encrypt; [|reflexivity].
  match goal with
  | |- context [Signaling.buildPacket_box ?m ?r ?d ?n s] =>
    pose proof (PacketFacts.buildPacket_box_state m r d n s) as Hst;
      destruct (Signaling.buildPacket_box m r d n s) as [[box|e] s2]
  end; cbn [snd] in *; exact Hst.
Qed.

Lemma buildPacket_responder_leaves_engine_witness :
  snd (Signaling.buildPacket (E := Scenario.E)
         (Auth Scenario.responderCookie) 2 true Scenario.key_received)
  = Scenario.key_received.
Proof.
  apply (buildPacket_responder_leaves_engine (E := Scenario.E)).
  reflexivity.
Defined.

(** X11. Whatever the message, the receiver and the outcome, [buildPacket]
    changes nothing but the server combined sequence and the initiator
    combined sequence of the engine: the world (the WebSocket, the
    random sources, the calls to the client) and every other field are
    as before.  Nothing is sent by [buildPacket] itself. *)
Theorem buildPacket_frame {E : Collaborators}
        (message : Message) (receiver : Z) (encrypt : bool)
        (s : Signaling.Sys) :
  exists c1 c2,
    snd (Signaling.buildPacket message receiver encrypt s)
    = {| Signaling.this :=
           Signaling.set_initiatorCombinedSequence
             (Signaling.set_serverCombinedSequence (Signaling.this s) c1) c2;
         Signaling.world := Signaling.world s |}.
Proof.
  pose proof (KeepsFacts.keeps_buildPacket
                (fun s : Signaling.Sys =>
                   {| Signaling.this :=
                        Signaling.set_initiatorCombinedSequence
                          (Signaling.set_serverCombinedSequence
                             (Signaling.this s) (CombinedSequence.mk 0 0))
                          (CombinedSequence.mk 0 0);
                      Signaling.world := Signaling.world s |})
                (fun _ _ => eq_refl) (fun _ _ => eq_refl)
                message receiver encrypt s) as H.
  destruct (Signaling.buildPacket message receiver encrypt s) as [r s'].
  cbn [snd] in *.
  exists (Signaling.serverCombinedSequence (Signaling.this s')),
         (Signaling.initiatorCombinedSequence (Signaling.this s')).
  destruct s' as [t' w']. destruct s as [t w]. destruct t', t.
  cbn in H. injection H as -> -> -> -> -> -> -> -> -> -> -> -> -> -> -> ->.
  reflexivity.
Qed.

(** X12. A packet that [buildPacket] returns for the server carries the
    pair that [next()] of the server combined sequence has returned,
    which is strictly greater than the pair before and is the one the
    engine holds afterwards; its nonce has our cookie, our address as
    source and 0x00 as destination; an encrypted packet is the box made
    with our permanent key for the server key, an unencrypted one the
    nonce followed by the encoded message. *)
Theorem buildPacket_server_packet {E : Collaborators}
        (message : Message) (encrypt : bool)
        (s s' : Signaling.Sys) (p : list byte) :
  Signaling.buildPacket message Signaling.SALTYRTC_ADDR_SERVER encrypt s
  = (Ok p, s') ->
  exists (c1 : CombinedSequence.t) (cp : CookiePair.t),
    CombinedSequence.next
      (Signaling.serverCombinedSequence (Signaling.this s)) = (Ok c1, c1)
    /\ CombinedSequence.lex_lt
         (Signaling.serverCombinedSequence (Signaling.this s)) c1
    /\ s' = {| Signaling.this :=
                 Signaling.set_serverCombinedSequence (Signaling.this s) c1;
               Signaling.world := Signaling.world s |}
    /\ Signaling.cookiePair (Signaling.this s) = Some cp
    /\ if encrypt then
         exists box,
           KeyStore_encrypt (Signaling.permanentKey (Signaling.this s))
             (msgpack_encode message)
             (packet_nonce (Signaling.this s) (CookiePair.ours cp) c1
                           Signaling.SALTYRTC_ADDR_SERVER)
             (Signaling.serverKey (Signaling.this s)) = Ok box
           /\ p = Box.toUint8Array box
       else
         p = packet_nonce (Signaling.this s) (CookiePair.ours cp) c1
                          Signaling.SALTYRTC_ADDR_SERVER
             ++ msgpack_encode message.
Proof.
  intros H.
  pose proof (BuildPacketFacts.buildPacket_csn_server s) as Hcsn.
  destruct (CombinedSequence.next
              (Signaling.serverCombinedSequence (Signaling.this s)))
    as [[c1|e] c'] eqn:Hnext; cbn [fst snd] in Hcsn.
  - destruct (PacketFacts.next_ok_same _ _ _ Hnext) as [-> Hlt].
    rewrite (PacketFacts.buildPacket_after_csn _ _ _ _ _ _ Hcsn) in H.
    cbn [Signaling.this Signaling.cookiePair
         Signaling.set_serverCombinedSequence] in H.
    destruct (Signaling.cookiePair (Signaling.this s)) as [cp|] eqn:Hcp;
      [|discriminate H].
    exists c', cp. split; [reflexivity|]. split; [exact Hlt|].
    cbv zeta in H. destruct encrypt.
    + unfold Signaling.buildPacket_box, mbind, Signaling.self in H.
      change (Signaling.SALTYRTC_ADDR_SERVER =? Signaling.SALTYRTC_ADDR_SERVER)
        with true in H.
      cbn [Signaling.this Signaling.permanentKey Signaling.serverKey
           Signaling.set_serverCombinedSequence] in H.
      destruct (KeyStore_encrypt _ _ _ _) as [box|e] eqn:Henc;
        cbn [call ret throw fst rbind] in H; [|discriminate H].
      injection H as <- <-.
      split; [reflexivity|]. split; [reflexivity|].
      exists box. split; [first [exact Henc | reflexivity] | reflexivity].
    + injection H as <- <-.
      split; [reflexivity|]. split; reflexivity.
  - unfold Signaling.buildPacket in H. unfold mbind at 1 in H.
    rewrite Hcsn in H. discriminate H.
Qed.

Lemma buildPacket_server_packet_witness :
  exists (c1 : CombinedSequence.t) (cp : CookiePair.t),
    CombinedSequence.next
      (Signaling.serverCombinedSequence
         (Signaling.this Scenario.key_received)) = (Ok c1, c1)
    /\ CombinedSequence.lex_lt
         (Signaling.serverCombinedSequence
            (Signaling.this Scenario.key_received)) c1
    /\ snd (Signaling.buildPacket (E := Scenario.E) (DropResponder 3)
              Signaling.SALTYRTC_ADDR_SERVER true Scenario.key_received)
       = {| Signaling.this :=
              Signaling.set_serverCombinedSequence
                (Signaling.this Scenario.key_received) c1;
            Signaling.world := Signaling.world Scenario.key_received |}
    /\ Signaling.cookiePair (Signaling.this Scenario.key_received) = Some cp
    /\ exists box,
         KeyStore_encrypt (Collaborators := Scenario.E)
           (Signaling.permanentKey (Signaling.this Scenario.key_received))
           (msgpack_encode (Collaborators := Scenario.E) (DropResponder 3))
           (packet_nonce (E := Scenario.E)
              (Signaling.this Scenario.key_received)
              (CookiePair.ours cp) c1 Signaling.SALTYRTC_ADDR_SERVER)
           (Signaling.serverKey (Signaling.this Scenario.key_received))
         = Ok box
         /\ Reference.Nonce_toArrayBuffer (Nonce.mk Scenario.ours 0 104 1 0)
            ++ Scenario.server_tag
            ++ Reference.msgpack_encode (DropResponder 3)
            = Box.toUint8Array box.
Proof.
  apply (buildPacket_server_packet (E := Scenario.E) (DropResponder 3) true
           Scenario.key_received).
  vm_compute. reflexivity.
Defined.

(** X13. A packet that [buildPacket] returns for the initiator (receiver
    0x01) carries the pair that [next()] of the initiator combined
    sequence has returned, strictly greater than the pair before, and is
    the box that the message type selects: a token message is sealed with
    the auth token, a key message with our permanent key for the
    initiator's permanent key, every other message with our session key
    for the initiator's session key. *)
Theorem buildPacket_initiator_packet {E : Collaborators}
        (message : Message) (s s' : Signaling.Sys) (p : list byte) :
  Signaling.buildPacket message Signaling.SALTYRTC_ADDR_INITIATOR true s
  = (Ok p, s') ->
  exists (c1 : CombinedSequence.t) (cp : CookiePair.t) (box : Box.t),
    CombinedSequence.next
      (Signaling.initiatorCombinedSequence (Signaling.this s)) = (Ok c1, c1)
    /\ CombinedSequence.lex_lt
         (Signaling.initiatorCombinedSequence (Signaling.this s)) c1
    /\ s' = {| Signaling.this :=
                 Signaling.set_initiatorCombinedSequence (Signaling.this s) c1;
               Signaling.world := Signaling.world s |}
    /\ Signaling.cookiePair (Signaling.this s) = Some cp
    /\ p = Box.toUint8Array box
    /\ let nonceBytes :=
           packet_nonce (Signaling.this s) (CookiePair.ours cp) c1
                        Signaling.SALTYRTC_ADDR_INITIATOR in
       if Msg.type_is message T_token then
         AuthToken_encrypt (Signaling.authToken (Signaling.this s))
           (msgpack_encode message) nonceBytes = Ok box
       else if Msg.type_is message T_key then
         KeyStore_encrypt (Signaling.permanentKey (Signaling.this s))
           (msgpack_encode message) nonceBytes
           (Signaling.initiatorPermanentKey (Signaling.this s)) = Ok box
       else
         exists ks,
           Signaling.sessionKey (Signaling.this s) = Some ks
           /\ KeyStore_encrypt ks (msgpack_encode message) nonceBytes
                (Signaling.initiatorSessionKey (Signaling.this s)) = Ok box.
Proof.
  intros H.
  pose proof (PacketFacts.buildPacket_csn_initiator s) as Hcsn.
  destruct (CombinedSequence.next
              (Signaling.initiatorCombinedSequence (Signaling.this s)))
    as [[c1|e] c'] eqn:Hnext; cbn [fst snd] in Hcsn.
  - destruct (PacketFacts.next_ok_same _ _ _ Hnext) as [-> Hlt].
    rewrite (PacketFacts.buildPacket_after_csn _ _ _ _ _ _ Hcsn) in H.
    cbn [Signaling.this Signaling.cookiePair
         Signaling.set_initiatorCombinedSequence] in H.
    destruct (Signaling.cookiePair (Signaling.this s)) as [cp|] eqn:Hcp;
      [|discriminate H].
    cbv zeta in H.
    unfold Signaling.buildPacket_box, mbind, Signaling.self, deref, ret,
      throw in H.
    change (Signaling.SALTYRTC_ADDR_INITIATOR =? Signaling.SALTYRTC_ADDR_SERVER)
      with false in H.
    change (Signaling.SALTYRTC_ADDR_INITIATOR
            =? Signaling.SALTYRTC_ADDR_INITIATOR) with true in H.
    cbn [Signaling.this Signaling.authToken Signaling.permanentKey
         Signaling.initiatorPermanentKey Signaling.sessionKey
         Signaling.initiatorSessionKey
         Signaling.set_initiatorCombinedSequence] in H.
    change (packet_nonce (Signaling.set_initiatorCombinedSequence
                            (Signaling.this s) c'))
      with (packet_nonce (Signaling.this s)) in H.
    cbv zeta.
    destruct (Msg.type_is message T_token).
    { destruct (AuthToken_encrypt _ _ _) as [box|e] eqn:Henc;
        cbn [call ret throw fst rbind] in H; [|discriminate H].
      injection H as <- <-. exists c', cp, box. repeat split; assumption. }
    destruct (Msg.type_is message T_key).
    { destruct (KeyStore_encrypt _ _ _ _) as [box|e] eqn:Henc;
        cbn [call ret throw fst rbind] in H; [|discriminate H].
      injection H as <- <-. exists c', cp, box. repeat split; assumption. }
    destruct (Signaling.sessionKey (Signaling.this s)) as [ks|];
      [|discriminate H].
    cbv beta iota in H.
    destruct (KeyStore_encrypt _ _ _ _) as [box|e] eqn:Henc;
      cbn [call ret throw fst rbind] in H; [|discriminate H].
    injection H as <- <-. exists c', cp, box.
    repeat (split; [reflexivity || assumption|]).
    exists ks. split; [reflexivity | exact Henc].
  - unfold Signaling.buildPacket in H. unfold mbind at 1 in H.
    rewrite Hcsn in H. discriminate H.
Qed.

(** In the run of the responder, the token is sealed with the auth
    token. *)
Lemma buildPacket_initiator_packet_witness :
  exists (c1 : CombinedSequence.t) (cp : CookiePair.t) (box : Box.t),
    CombinedSequence.next
      (Signaling.initiatorCombinedSequence
         (Signaling.this ResponderScenario.waiting)) = (Ok c1, c1)
    /\ CombinedSequence.lex_lt
         (Signaling.initiatorCombinedSequence
            (Signaling.this ResponderScenario.waiting)) c1
    /\ snd (Signaling.buildPacket (E := ResponderScenario.E)
              (Token [x08]) Signaling.SALTYRTC_ADDR_INITIATOR true
              ResponderScenario.waiting)
       = {| Signaling.this :=
              Signaling.set_initiatorCombinedSequence
                (Signaling.this ResponderScenario.waiting) c1;
            Signaling.world := Signaling.world ResponderScenario.waiting |}
    /\ Signaling.cookiePair (Signaling.this ResponderScenario.waiting)
       = Some cp
    /\ Box.toUint8Array ResponderRun.token_box = Box.toUint8Array box
    /\ AuthToken_encrypt (Collaborators := ResponderScenario.E)
         (Signaling.authToken (Signaling.this ResponderScenario.waiting))
         (msgpack_encode (Collaborators := ResponderScenario.E)
            (Token [x08]))
         (packet_nonce (E := ResponderScenario.E)
            (Signaling.this ResponderScenario.waiting)
            (CookiePair.ours cp) c1 Signaling.SALTYRTC_ADDR_INITIATOR)
       = Ok box.
Proof.
  apply (buildPacket_initiator_packet (E := ResponderScenario.E)
           (Token [x08]) ResponderScenario.waiting).
  vm_compute. reflexivity.
Defined.

(** X14. A packet that [buildPacket] returns for a responder (receiver in
    0x02..0xff) carries in its nonce the pair that the combined sequence
    of that responder holds, as it is, and is the box that the message
    type selects: a key message is sealed with our permanent key for the
    responder's permanent key, every other message with the session key
    store of that responder for the responder's session key. *)
Theorem buildPacket_responder_packet {E : Collaborators}
        (message : Message) (receiver : Z)
        (s s' : Signaling.Sys) (p : list byte) :
  Signaling.is_responder_address receiver = true ->
  Signaling.buildPacket message receiver true s = (Ok p, s') ->
  exists (rs : JsMap.t Responder.t) (r : Responder.t) (cp : CookiePair.t)
         (box : Box.t),
    Signaling.responders (Signaling.this s) = Some rs
    /\ JsMap.get rs receiver = Some r
    /\ Signaling.cookiePair (Signaling.this s) = Some cp
    /\ p = Box.toUint8Array box
    /\ let nonceBytes :=
           packet_nonce (Signaling.this s) (CookiePair.ours cp)
                        (Responder.combinedSequence r) receiver in
       if Msg.type_is message T_key then
         KeyStore_encrypt (Signaling.permanentKey (Signaling.this s))
           (msgpack_encode message) nonceBytes
           (Responder.permanentKey r) = Ok box
       else
         KeyStore_encrypt (Responder.keyStore r)
           (msgpack_encode message) nonceBytes
           (Responder.sessionKey r) = Ok box.
Proof.
  intros Ha H.
  destruct (Signaling.responders (Signaling.this s)) as [rs|] eqn:Hrs.
  2:{ unfold Signaling.buildPacket, Signaling.buildPacket_csn in H.
      destruct (BuildPacketFacts.responder_address_not_server receiver Ha)
        as [E0 E1].
      rewrite E0, E1, Ha in H.
      unfold Signaling.responders_get, mbind, Signaling.self, deref, throw
        in H.
      rewrite Hrs in H. discriminate H. }
  destruct (JsMap.get rs receiver) as [r|] eqn:Hr.
  2:{ unfold Signaling.buildPacket, Signaling.buildPacket_csn in H.
      destruct (BuildPacketFacts.responder_address_not_server receiver Ha)
        as [E0 E1].
      rewrite E0, E1, Ha in H.
      unfold Signaling.responders_get, mbind, Signaling.self, deref, throw,
        ret in H.
      rewrite Hrs, Hr in H. discriminate H. }
  rewrite (PacketFacts.buildPacket_after_csn _ _ _ _ _ _
             (BuildPacketFacts.buildPacket_csn_responder receiver s rs r
                Ha Hrs Hr)) in H.
  destruct (Signaling.cookiePair (Signaling.this s)) as [cp|] eqn:Hcp;
    [|discriminate H].
  cbv zeta in H.
  unfold Signaling.buildPacket_box, Signaling.responders_get, mbind,
    Signaling.self, deref, ret in H.
  destruct (BuildPacketFacts.responder_address_not_server receiver Ha)
    as [E0 E1].
  rewrite E0, E1, Ha, Hrs, Hr in H. cbv zeta.
  exists rs, r, cp.
  destruct (Msg.type_is message T_key);
    (destruct (KeyStore_encrypt _ _ _ _) as [box|e] eqn:Henc;
     cbn [call ret throw fst rbind] in H; [|discriminate H]);
    injection H as <- _; exists box; repeat split; assumption.
Qed.

(** In the run of the initiator, the auth message for responder 0x02 is
    sealed with the key store drawn for that responder. *)
Lemma buildPacket_responder_packet_witness :
  exists (rs : JsMap.t Responder.t) (r : Responder.t) (cp : CookiePair.t)
         (box : Box.t),
    Signaling.responders (Signaling.this Scenario.key_received) = Some rs
    /\ JsMap.get rs 2 = Some r
    /\ Signaling.cookiePair (Signaling.this Scenario.key_received) = Some cp
    /\ Scenario.frame Scenario.ours 1 2 103
         [Reference.shared_tag
            (KeyStore.publicKeyBytes (Scenario.key_of 16)) [x52]]
         (Auth Scenario.responderCookie)
       = Box.toUint8Array box
    /\ KeyStore_encrypt (Collaborators := Scenario.E) (Responder.keyStore r)
         (msgpack_encode (Collaborators := Scenario.E)
            (Auth Scenario.responderCookie))
         (packet_nonce (E := Scenario.E)
            (Signaling.this Scenario.key_received) (CookiePair.ours cp)
            (Responder.combinedSequence r) 2)
         (Responder.sessionKey r) = Ok box.
Proof.
  apply (buildPacket_responder_packet (E := Scenario.E)
           (Auth Scenario.responderCookie) 2 Scenario.key_received
           Scenario.key_received).
  - reflexivity.
  - vm_compute. reflexivity.
Defined.

(** X15. For a receiver that is neither the server, nor the initiator,
    nor a responder address, [buildPacket] throws 'bad-receiver' before it
    looks at anything else, and the engine is as before. *)
Theorem buildPacket_bad_receiver {E : Collaborators}
        (message : Message) (receiver : Z) (encrypt : bool)
        (s : Signaling.Sys) :
  receiver < 0 \/ 0xff < receiver ->
  Signaling.buildPacket message receiver encrypt s
  = (Throw (Thrown "bad-receiver"), s).
Proof.
  intros Hr. unfold Signaling.buildPacket, Signaling.buildPacket_csn,
               Signaling.is_responder_address,
               Signaling.SALTYRTC_ADDR_SERVER,
               Signaling.SALTYRTC_ADDR_INITIATOR.
  destruct (Z.eqb_spec receiver 0); [lia|].
  destruct (Z.eqb_spec receiver 1); [lia|].
  destruct (Z.geb_spec receiver 2); destruct (Z.leb_spec receiver 255);
    try lia; reflexivity.
Qed.

Lemma buildPacket_bad_receiver_witness :
  Signaling.buildPacket (E := Scenario.E) NewInitiator 256 true
                        Scenario.key_received
  = (Throw (Thrown "bad-receiver"), Scenario.key_received).
Proof.
  apply (buildPacket_bad_receiver (E := Scenario.E)). right. lia.
Defined.

(** ** More on the peer handshake *)

Module MapFacts.

Lemma set_set_same {V} (m : JsMap.t V) (k : Z) (v1 v2 : V) :
  JsMap.set (JsMap.set m k v1) k v2 = JsMap.set m k v2.
Proof.
  induction m as [|[k' v'] m IH]; cbn [JsMap.set].
  - now rewrite Z.eqb_refl.
  - destruct (k' =? k) eqn:Hk; cbn [JsMap.set]; rewrite Hk;
      [reflexivity | now rewrite IH].
Qed.

Lemma set_absent {V} (m : JsMap.t V) (k : Z) (v : V) :
  JsMap.get m k = None -> JsMap.set m k v = m ++ [(k, v)].
Proof.
  induction m as [|[k' v'] m IH]; cbn [JsMap.set JsMap.get app];
    [reflexivity|].
  destruct (k' =? k); [discriminate|]. intros H. now rewrite IH.
Qed.

End MapFacts.

(** X16. The initiator drops a frame from a responder address that its
    map does not hold: the handler returns, nothing is decrypted, sent
    or changed, and the connection is not reset. *)
Theorem unknown_responder_frame_dropped {E : Collaborators}
        (s : Signaling.Sys) (buffer : list byte) (n : Nonce.t)
        (rs : JsMap.t Responder.t) :
  Signaling.role (Signaling.this s) = Signaling.role_initiator ->
  Nonce_fromArrayBuffer (firstn 24 buffer) = Ok n ->
  Nonce.destination n = Signaling.address (Signaling.this s) ->
  Signaling.is_responder_address (Nonce.source n) = true ->
  Signaling.responders (Signaling.this s) = Some rs ->
  JsMap.get rs (Nonce.source n) = None ->
  Signaling.onPeerHandshakeMessage buffer s = (Ok tt, s).
Proof.
  intros Hrole Hn Hd Ha Hrs Hr.
  rewrite (PeerHandshakeFacts.onPeerHandshakeMessage_dispatch buffer s n Hn Hd).
  destruct (BuildPacketFacts.responder_address_not_server _ Ha) as [-> ->].
  rewrite Ha. unfold Signaling.onPeerHandshakeMessage_responder.
  PeerHandshakeFacts.mstep. rewrite Hrole. PeerHandshakeFacts.mstep.
  rewrite Hrs. PeerHandshakeFacts.mstep. rewrite Hr. reflexivity.
Qed.

Lemma unknown_responder_frame_dropped_witness :
  Signaling.onPeerHandshakeMessage (E := Scenario.E)
    (Scenario.token_from 9 [x49]) Scenario.key_received
  = (Ok tt, Scenario.key_received).
Proof.
  apply (unknown_responder_frame_dropped (E := Scenario.E)
           Scenario.key_received (Scenario.token_from 9 [x49])
           (Nonce.mk Scenario.responderCookie 0 1 9 1)
           Scenario.responders_held).
  - reflexivity.
  - vm_compute. reflexivity.
  - reflexivity.
  - reflexivity.
  - vm_compute. reflexivity.
  - vm_compute. reflexivity.
Defined.

(** X17. A new-responder message from the server registers the responder:
    for an identity that the map does not hold, a fresh record (state
    'new', no keys of the peer, a key store and a combined sequence of
    its own, drawn in this order) is appended to the map under that
    identity; for an identity that the map holds, nothing changes.
    Nothing is sent either way. *)
Theorem new_responder_registered {E : Collaborators}
        (s : Signaling.Sys) (buffer : list byte) (n : Nonce.t)
        (box : Box.t) (plain : list byte) (id : Z)
        (rs : JsMap.t Responder.t) :
  Nonce_fromArrayBuffer (firstn 24 buffer) = Ok n ->
  Nonce.destination n = Signaling.address (Signaling.this s) ->
  Nonce.source n = Signaling.SALTYRTC_ADDR_SERVER ->
  Box_fromUint8Array buffer nacl_box_nonceLength = Ok box ->
  KeyStore_decrypt (Signaling.permanentKey (Signaling.this s)) box
                   (Signaling.serverKey (Signaling.this s)) = Ok plain ->
  msgpack_decode plain = Ok (NewResponder id) ->
  Signaling.responders (Signaling.this s) = Some rs ->
  Signaling.onPeerHandshakeMessage buffer s
  = (Ok tt,
     if JsMap.has rs id then s
     else
       let w := Signaling.world s in
       {| Signaling.this :=
            Signaling.set_responders (Signaling.this s)
              (Some (rs ++ [(id,
                {| Responder.id := id;
                   Responder.permanentKey := None;
                   Responder.sessionKey := None;
                   Responder.keyStore :=
                     World.keyStores w (World.keyStoresDrawn w);
                   Responder.state := Responder.new;
                   Responder.combinedSequence :=
                     CombinedSequence.new
                       (World.uint32s w (World.uint32sDrawn w)) |})]));
          Signaling.world :=
            snd (World.randomUint32 (snd (World.new_KeyStore w))) |}).
Proof.
  intros Hn Hd Hsrc Hbox Hdec Hmsg Hrs.
  rewrite (PeerHandshakeFacts.onPeerHandshakeMessage_dispatch buffer s n Hn Hd).
  rewrite Hsrc.
  change (Signaling.SALTYRTC_ADDR_SERVER =? Signaling.SALTYRTC_ADDR_SERVER)
    with true. cbv iota.
  unfold Signaling.onPeerHandshakeMessage_server.
  rewrite Hbox. PeerHandshakeFacts.mstep. rewrite Hdec.
  PeerHandshakeFacts.mstep.
  rewrite (PeerHandshakeFacts.decodeMessage_ok _ _ Hmsg ltac:(discriminate)).
  PeerHandshakeFacts.mstep. rewrite Hrs. PeerHandshakeFacts.mstep.
  unfold JsMap.has.
  destruct (JsMap.get rs id) as [r|] eqn:Hr; cbn [negb]; [reflexivity|].
  PeerHandshakeFacts.mstep. unfold Signaling.draw.
  cbn [Responder.create World.new_KeyStore World.new_CombinedSequence
       World.randomUint32 Signaling.world Signaling.this fst snd
       World.keyStores World.keyStoresDrawn World.uint32s
       World.uint32sDrawn].
  rewrite (MapFacts.set_absent rs id _ Hr). reflexivity.
Qed.

Lemma new_responder_registered_witness :
  Signaling.onPeerHandshakeMessage (E := Scenario.E)
    Scenario.new_responder_4 Scenario.peer_handshake_start
  = (Ok tt,
     let w := Signaling.world Scenario.peer_handshake_start in
     {| Signaling.this :=
          Signaling.set_responders
            (Signaling.this Scenario.peer_handshake_start)
            (Some (match Signaling.responders
                           (Signaling.this Scenario.peer_handshake_start) with
                   | Some rs => rs
                   | None => []
                   end ++ [(4,
              {| Responder.id := 4;
                 Responder.permanentKey := None;
                 Responder.sessionKey := None;
                 Responder.keyStore :=
                   World.keyStores w (World.keyStoresDrawn w);
                 Responder.state := Responder.new;
                 Responder.combinedSequence :=
                   CombinedSequence.new
                     (World.uint32s w (World.uint32sDrawn w)) |})]));
        Signaling.world :=
          snd (World.randomUint32 (snd (World.new_KeyStore w))) |}).
Proof.
  apply (new_responder_registered (E := Scenario.E)
           Scenario.peer_handshake_start Scenario.new_responder_4
           (Nonce.mk Scenario.serverCookie 0 3 0 1)
           (Box.mk (firstn 24 Scenario.new_responder_4)
                   (skipn 24 Scenario.new_responder_4))
           (Reference.msgpack_encode (NewResponder 4)) 4
           (match Signaling.responders
                    (Signaling.this Scenario.peer_handshake_start) with
            | Some rs => rs
            | None => []
            end)).
  - vm_compute. reflexivity.
  - reflexivity.
  - reflexivity.
  - vm_compute. reflexivity.
  - vm_compute. reflexivity.
  - vm_compute. reflexivity.
  - vm_compute. reflexivity.
Defined.

(** X18. Every other message from the server (a decoded message with a
    type that is neither 'new-responder' nor 'new-initiator') is ignored
    during the peer handshake: the handler returns and nothing has
    changed. *)
Theorem server_message_ignored {E : Collaborators}
        (s : Signaling.Sys) (buffer : list byte) (n : Nonce.t)
        (box : Box.t) (plain : list byte) (msg : Message) :
  Nonce_fromArrayBuffer (firstn 24 buffer) = Ok n ->
  Nonce.destination n = Signaling.address (Signaling.this s) ->
  Nonce.source n = Signaling.SALTYRTC_ADDR_SERVER ->
  Box_fromUint8Array buffer nacl_box_nonceLength = Ok box ->
  KeyStore_decrypt (Signaling.permanentKey (Signaling.this s)) box
                   (Signaling.serverKey (Signaling.this s)) = Ok plain ->
  msgpack_decode plain = Ok msg ->
  Msg.type msg <> None ->
  Msg.type_is msg T_new_responder = false ->
  Msg.type_is msg T_new_initiator = false ->
  Signaling.onPeerHandshakeMessage buffer s = (Ok tt, s).
Proof.
  intros Hn Hd Hsrc Hbox Hdec Hmsg Hty H1 H2.
  rewrite (PeerHandshakeFacts.onPeerHandshakeMessage_dispatch buffer s n Hn Hd).
  rewrite Hsrc.
  change (Signaling.SALTYRTC_ADDR_SERVER =? Signaling.SALTYRTC_ADDR_SERVER)
    with true. cbv iota.
  unfold Signaling.onPeerHandshakeMessage_server.
  rewrite Hbox. PeerHandshakeFacts.mstep. rewrite Hdec.
  PeerHandshakeFacts.mstep.
  rewrite (PeerHandshakeFacts.decodeMessage_ok _ _ Hmsg Hty).
  PeerHandshakeFacts.mstep.
  destruct msg; try reflexivity; discriminate.
Qed.

Lemma server_message_ignored_witness :
  Signaling.onPeerHandshakeMessage (E := Scenario.E)
    (Scenario.frame Scenario.serverCookie 0 1 4 Scenario.server_tag
                    (DropResponder 3))
    Scenario.key_received
  = (Ok tt, Scenario.key_received).
Proof.
  apply (server_message_ignored (E := Scenario.E) Scenario.key_received
           (Scenario.frame Scenario.serverCookie 0 1 4 Scenario.server_tag
                           (DropResponder 3))
           (Nonce.mk Scenario.serverCookie 0 4 0 1)
           (Box.mk (firstn 24 (Scenario.frame Scenario.serverCookie 0 1 4
                                 Scenario.server_tag (DropResponder 3)))
                   (skipn 24 (Scenario.frame Scenario.serverCookie 0 1 4
                                Scenario.server_tag (DropResponder 3))))
           (Reference.msgpack_encode (DropResponder 3)) (DropResponder 3)).
  - vm_compute. reflexivity.
  - reflexivity.
  - reflexivity.
  - vm_compute. reflexivity.
  - vm_compute. reflexivity.
  - vm_compute. reflexivity.
  - discriminate.
  - reflexivity.
  - reflexivity.
Defined.

(** X19. The initiator accepts the token of a responder in state 'new':
    when the frame opens under the auth token and holds a token message,
    the record of that responder gets the key of the message as the
    responder's permanent key and the state 'token-received', and one
    packet is sent: our key message with the public key of the key store
    drawn for that responder, sealed with our permanent key for the
    permanent key just stored, under a nonce that carries the responder's
    combined sequence as it is.  Nothing else changes. *)
Theorem initiator_accepts_token {E : Collaborators}
        (s : Signaling.Sys) (ref : nat) (buffer : list byte) (n : Nonce.t)
        (rs : JsMap.t Responder.t) (r : Responder.t) (box : Box.t)
        (plain k : list byte) (cp : CookiePair.t) (reply : Box.t) :
  Signaling.ws (Signaling.this s) = Some ref ->
  Signaling.role (Signaling.this s) = Signaling.role_initiator ->
  Nonce_fromArrayBuffer (firstn 24 buffer) = Ok n ->
  Nonce.destination n = Signaling.address (Signaling.this s) ->
  Signaling.is_responder_address (Nonce.source n) = true ->
  Signaling.responders (Signaling.this s) = Some rs ->
  JsMap.get rs (Nonce.source n) = Some r ->
  Responder.id r = Nonce.source n ->
  Responder.state r = Responder.new ->
  Box_fromUint8Array buffer nacl_secretbox_nonceLength = Ok box ->
  AuthToken_decrypt (Signaling.authToken (Signaling.this s)) box = Ok plain ->
  msgpack_decode plain = Ok (Token k) ->
  Signaling.cookiePair (Signaling.this s) = Some cp ->
  KeyStore_encrypt (Signaling.permanentKey (Signaling.this s))
    (msgpack_encode (Key (KeyStore.publicKeyArray (Responder.keyStore r))))
    (packet_nonce (Signaling.this s) (CookiePair.ours cp)
                  (Responder.combinedSequence r) (Nonce.source n))
    (Some k) = Ok reply ->
  Signaling.onPeerHandshakeMessage buffer s
  = (Ok tt,
     {| Signaling.this :=
          Signaling.set_responders (Signaling.this s)
            (Some (JsMap.set rs (Nonce.source n)
                     (Responder.set_state (Responder.set_permanentKey r k)
                                          Responder.token_received)));
        Signaling.world :=
          World.set_socket (Signaling.world s) ref
            (WebSocket.send (World.sockets (Signaling.world s) ref)
                            (Box.toUint8Array reply)) |}).
Proof.
  intros Hws Hrole Hn Hd Ha Hrs Hr Hid Hst Hbox Hdec Hmsg Hcp Henc.
  rewrite (PeerHandshakeFacts.onPeerHandshakeMessage_dispatch buffer s n Hn Hd).
  destruct (BuildPacketFacts.responder_address_not_server _ Ha) as [-> ->].
  rewrite Ha. unfold Signaling.onPeerHandshakeMessage_responder.
  PeerHandshakeFacts.mstep. rewrite Hrole. PeerHandshakeFacts.mstep.
  rewrite Hrs. PeerHandshakeFacts.mstep. rewrite Hr, Hst, Hbox.
  PeerHandshakeFacts.mstep.
  rewrite (PeerHandshakeFacts.decrypt_ok box
             (Signaling.with_AuthToken (Signaling.authToken (Signaling.this s)))
             plain Hdec).
  PeerHandshakeFacts.mstep.
  rewrite (PeerHandshakeFacts.decodeMessage_ok _ _ Hmsg ltac:(discriminate)).
  PeerHandshakeFacts.mstep.
  rewrite (PeerHandshakeFacts.assertType_ok (Token k) T_token eq_refl).
  PeerHandshakeFacts.mstep. cbn [Msg.key Uint8Array_from].
  PeerHandshakeFacts.mstep. unfold Signaling.responder_assign.
  PeerHandshakeFacts.mstep. rewrite Hrs, Hr. PeerHandshakeFacts.mstep.
  rewrite JsMapFacts.get_set_same, MapFacts.set_set_same.
  PeerHandshakeFacts.mstep. rewrite Hid.
  match goal with
  | |- context [Signaling.buildPacket ?m ?rcv true ?s1] =>
    rewrite (PacketFacts.buildPacket_responder_run m rcv s1
               (JsMap.set rs (Nonce.source n)
                  (Responder.set_state (Responder.set_permanentKey r k)
                                       Responder.token_received))
               (Responder.set_state (Responder.set_permanentKey r k)
                                    Responder.token_received)
               cp reply Ha eq_refl (JsMapFacts.get_set_same _ _ _) Hcp Henc)
  end.
  unfold Signaling.ws_send.
  rewrite (Run.on_ws_some _ _ ref) by exact Hws.
  reflexivity.
Qed.

Lemma initiator_accepts_token_witness :
  Signaling.onPeerHandshakeMessage (E := Scenario.E)
    (Scenario.token_from 2 [x42]) InitiatorRun.registered
  = (Ok tt,
     {| Signaling.this :=
          Signaling.set_responders (Signaling.this InitiatorRun.registered)
            (Some (JsMap.set (InitiatorRun.held InitiatorRun.registered) 2
                     (Responder.set_state
                        (Responder.set_permanentKey
                           InitiatorRun.responder_2_new [x42])
                        Responder.token_received)));
        Signaling.world :=
          World.set_socket (Signaling.world InitiatorRun.registered) 0
            (WebSocket.send
               (World.sockets (Signaling.world InitiatorRun.registered) 0)
               (Box.toUint8Array InitiatorRun.key_for_2)) |}).
Proof.
  apply (initiator_accepts_token (E := Scenario.E)
           InitiatorRun.registered 0 (Scenario.token_from 2 [x42])
           (Nonce.mk Scenario.responderCookie 0 1 2 1)
           (InitiatorRun.held InitiatorRun.registered)
           InitiatorRun.responder_2_new
           (Box.mk (firstn 24 (Scenario.token_from 2 [x42]))
                   (skipn 24 (Scenario.token_from 2 [x42])))
           (Reference.msgpack_encode (Token [x42])) [x42]
           Scenario.cookies_held InitiatorRun.key_for_2).
  - reflexivity.
  - reflexivity.
  - vm_compute. reflexivity.
  - reflexivity.
  - reflexivity.
  - vm_compute. reflexivity.
  - vm_compute. reflexivity.
  - reflexivity.
  - reflexivity.
  - vm_compute. reflexivity.
  - vm_compute. reflexivity.
  - vm_compute. reflexivity.
  - vm_compute. reflexivity.
  - vm_compute. reflexivity.
Defined.

(** X20. The initiator accepts the key of a responder in state
    'token-received': when the frame opens under our permanent key and
    the responder's permanent key, holds a key message, and its nonce
    does not carry our own cookie, the record of that responder gets the
    key of the message as the responder's session key and the state
    'key-received', and one packet is sent: our auth message that echoes
    the cookie of the frame's nonce, sealed with the key store of that
    responder for the session key just stored.  Nothing else changes. *)
Theorem initiator_accepts_key {E : Collaborators}
        (s : Signaling.Sys) (ref : nat) (buffer : list byte) (n : Nonce.t)
        (rs : JsMap.t Responder.t) (r : Responder.t) (box : Box.t)
        (plain k : list byte) (cp : CookiePair.t) (reply : Box.t) :
  Signaling.ws (Signaling.this s) = Some ref ->
  Signaling.role (Signaling.this s) = Signaling.role_initiator ->
  Nonce_fromArrayBuffer (firstn 24 buffer) = Ok n ->
  Nonce.destination n = Signaling.address (Signaling.this s) ->
  Signaling.is_responder_address (Nonce.source n) = true ->
  Signaling.responders (Signaling.this s) = Some rs ->
  JsMap.get rs (Nonce.source n) = Some r ->
  Responder.id r = Nonce.source n ->
  Responder.state r = Responder.token_received ->
  Box_fromUint8Array buffer nacl_box_nonceLength = Ok box ->
  KeyStore_decrypt (Signaling.permanentKey (Signaling.this s)) box
                   (Responder.permanentKey r) = Ok plain ->
  msgpack_decode plain = Ok (Key k) ->
  Signaling.cookiePair (Signaling.this s) = Some cp ->
  Cookie.equals (Nonce.cookie n) (CookiePair.ours cp) = false ->
  KeyStore_encrypt (Responder.keyStore r)
    (msgpack_encode (Auth (Cookie.asArray (Nonce.cookie n))))
    (packet_nonce (Signaling.this s) (CookiePair.ours cp)
                  (Responder.combinedSequence r) (Nonce.source n))
    (Some k) = Ok reply ->
  Signaling.onPeerHandshakeMessage buffer s
  = (Ok tt,
     {| Signaling.this :=
          Signaling.set_responders (Signaling.this s)
            (Some (JsMap.set rs (Nonce.source n)
                     (Responder.set_state (Responder.set_sessionKey r k)
                                          Responder.key_received)));
        Signaling.world :=
          World.set_socket (Signaling.world s) ref
            (WebSocket.send (World.sockets (Signaling.world s) ref)
                            (Box.toUint8Array reply)) |}).
Proof.
  intros Hws Hrole Hn Hd Ha Hrs Hr Hid Hst Hbox Hdec Hmsg Hcp Hck Henc.
  rewrite (PeerHandshakeFacts.onPeerHandshakeMessage_dispatch buffer s n Hn Hd).
  destruct (BuildPacketFacts.responder_address_not_server _ Ha) as [-> ->].
  rewrite Ha. unfold Signaling.onPeerHandshakeMessage_responder.
  PeerHandshakeFacts.mstep. rewrite Hrole. PeerHandshakeFacts.mstep.
  rewrite Hrs. PeerHandshakeFacts.mstep. rewrite Hr, Hst, Hbox.
  PeerHandshakeFacts.mstep.
  rewrite (PeerHandshakeFacts.decrypt_ok box
             (Signaling.with_KeyStore
                (Some (Signaling.permanentKey (Signaling.this s)))
                (Responder.permanentKey r))
             plain Hdec).
  PeerHandshakeFacts.mstep.
  rewrite (PeerHandshakeFacts.decodeMessage_ok _ _ Hmsg ltac:(discriminate)).
  PeerHandshakeFacts.mstep.
  rewrite (PeerHandshakeFacts.assertType_ok (Key k) T_key eq_refl).
  PeerHandshakeFacts.mstep. cbn [Msg.key Uint8Array_from].
  PeerHandshakeFacts.mstep. unfold Signaling.responder_assign.
  PeerHandshakeFacts.mstep. rewrite Hrs, Hr. PeerHandshakeFacts.mstep.
  rewrite JsMapFacts.get_set_same, MapFacts.set_set_same.
  PeerHandshakeFacts.mstep. rewrite Hcp. PeerHandshakeFacts.mstep.
  rewrite Hck. PeerHandshakeFacts.mstep. rewrite Hid.
  match goal with
  | |- context [Signaling.buildPacket ?m ?rcv true ?s1] =>
    rewrite (PacketFacts.buildPacket_responder_run m rcv s1
               (JsMap.set rs (Nonce.source n)
                  (Responder.set_state (Responder.set_sessionKey r k)
                                       Responder.key_received))
               (Responder.set_state (Responder.set_sessionKey r k)
                                    Responder.key_received)
               cp reply Ha eq_refl (JsMapFacts.get_set_same _ _ _) Hcp Henc)
  end.
  unfold Signaling.ws_send.
  rewrite (Run.on_ws_some _ _ ref) by exact Hws.
  reflexivity.
Qed.

Lemma initiator_accepts_key_witness :
  Signaling.onPeerHandshakeMessage (E := Scenario.E)
    Scenario.key_from_2 InitiatorRun.tokens_received
  = (Ok tt,
     {| Signaling.this :=
          Signaling.set_responders
            (Signaling.this InitiatorRun.tokens_received)
            (Some (JsMap.set (InitiatorRun.held InitiatorRun.tokens_received)
                     2
                     (Responder.set_state
                        (Responder.set_sessionKey
                           InitiatorRun.responder_2_token [x52])
                        Responder.key_received)));
        Signaling.world :=
          World.set_socket (Signaling.world InitiatorRun.tokens_received) 0
            (WebSocket.send
               (World.sockets
                  (Signaling.world InitiatorRun.tokens_received) 0)
               (Box.toUint8Array InitiatorRun.auth_for_2)) |}).
Proof.
  apply (initiator_accepts_key (E := Scenario.E)
           InitiatorRun.tokens_received 0 Scenario.key_from_2
           (Nonce.mk Scenario.responderCookie 0 2 2 1)
           (InitiatorRun.held InitiatorRun.tokens_received)
           InitiatorRun.responder_2_token
           (Box.mk (firstn 24 Scenario.key_from_2)
                   (skipn 24 Scenario.key_from_2))
           (Reference.msgpack_encode (Key [x52])) [x52]
           Scenario.cookies_held InitiatorRun.auth_for_2).
  - reflexivity.
  - reflexivity.
  - vm_compute. reflexivity.
  - reflexivity.
  - reflexivity.
  - vm_compute. reflexivity.
  - vm_compute. reflexivity.
  - reflexivity.
  - reflexivity.
  - vm_compute. reflexivity.
  - vm_compute. reflexivity.
  - vm_compute. reflexivity.
  - vm_compute. reflexivity.
  - vm_compute. reflexivity.
  - vm_compute. reflexivity.
Defined.

(** ** The peer handshake of the responder *)

Module ResponderFacts.
Import Signaling.

Lemma initiator_source :
  (SALTYRTC_ADDR_INITIATOR =? SALTYRTC_ADDR_SERVER) = false
  /\ (SALTYRTC_ADDR_INITIATOR =? SALTYRTC_ADDR_INITIATOR) = true.
Proof. split; reflexivity. Qed.

End ResponderFacts.

(** X21. The responder accepts the key of the initiator after it has sent
    its token: when the frame from 0x01 opens under our permanent key
    and the initiator's permanent key and holds a key message, the key
    of the message becomes the initiator's session key, a fresh key
    store is drawn as our session key, and one packet is sent: our key
    message with the public key of that key store, sealed with our
    permanent key for the initiator's permanent key under the next pair
    of the initiator combined sequence.  The handshake state becomes
    'key-sent'. *)
Theorem responder_accepts_key {E : Collaborators}
        (s : Signaling.Sys) (ref : nat) (buffer : list byte) (n : Nonce.t)
        (box : Box.t) (plain : list byte) (nonce : Nonce.t) (k : list byte)
        (cp : CookiePair.t) (c1 : CombinedSequence.t) (reply : Box.t) :
  Signaling.ws (Signaling.this s) = Some ref ->
  Signaling.role (Signaling.this s) = Signaling.role_responder ->
  Nonce_fromArrayBuffer (firstn 24 buffer) = Ok n ->
  Nonce.destination n = Signaling.address (Signaling.this s) ->
  Nonce.source n = Signaling.SALTYRTC_ADDR_INITIATOR ->
  Box_fromUint8Array buffer nacl_box_nonceLength = Ok box ->
  Signaling.initiatorHandshakeState (Signaling.this s)
  = Some Signaling.token_sent ->
  KeyStore_decrypt (Signaling.permanentKey (Signaling.this s)) box
                   (Signaling.initiatorPermanentKey (Signaling.this s))
  = Ok plain ->
  Nonce_fromArrayBuffer (Box.nonce box) = Ok nonce ->
  msgpack_decode plain = Ok (Key k) ->
  Signaling.cookiePair (Signaling.this s) = Some cp ->
  CombinedSequence.next
    (Signaling.initiatorCombinedSequence (Signaling.this s)) = (Ok c1, c1) ->
  KeyStore_encrypt (Signaling.permanentKey (Signaling.this s))
    (msgpack_encode
       (Key (KeyStore.publicKeyArray
               (World.keyStores (Signaling.world s)
                  (World.keyStoresDrawn (Signaling.world s))))))
    (packet_nonce (Signaling.this s) (CookiePair.ours cp) c1
                  Signaling.SALTYRTC_ADDR_INITIATOR)
    (Signaling.initiatorPermanentKey (Signaling.this s)) = Ok reply ->
  Signaling.onPeerHandshakeMessage buffer s
  = (Ok tt,
     {| Signaling.this :=
          Signaling.set_initiatorHandshakeState
            (Signaling.set_initiatorCombinedSequence
               (Signaling.set_sessionKey
                  (Signaling.set_initiatorSessionKey (Signaling.this s)
                                                     (Some k))
                  (Some (World.keyStores (Signaling.world s)
                           (World.keyStoresDrawn (Signaling.world s)))))
               c1)
            (Some Signaling.key_sent);
        Signaling.world :=
          World.set_socket (snd (World.new_KeyStore (Signaling.world s))) ref
            (WebSocket.send (World.sockets (Signaling.world s) ref)
                            (Box.toUint8Array reply)) |}).
Proof.
  intros Hws Hrole Hn Hd Hsrc Hbox Hihs Hdec Hnonce Hmsg Hcp Hnext Henc.
  rewrite (PeerHandshakeFacts.onPeerHandshakeMessage_dispatch buffer s n Hn Hd).
  rewrite Hsrc.
  destruct ResponderFacts.initiator_source as [-> ->].
  unfold Signaling.onPeerHandshakeMessage_initiator.
  PeerHandshakeFacts.mstep. rewrite Hrole. PeerHandshakeFacts.mstep.
  rewrite Hbox. PeerHandshakeFacts.mstep. rewrite Hihs.
  rewrite (PeerHandshakeFacts.decrypt_ok box
             (Signaling.with_KeyStore
                (Some (Signaling.permanentKey (Signaling.this s)))
                (Signaling.initiatorPermanentKey (Signaling.this s)))
             plain Hdec).
  PeerHandshakeFacts.mstep. rewrite Hnonce. PeerHandshakeFacts.mstep.
  rewrite (PeerHandshakeFacts.decodeMessage_ok _ _ Hmsg ltac:(discriminate)).
  PeerHandshakeFacts.mstep. rewrite Hihs.
  rewrite (PeerHandshakeFacts.assertType_ok (Key k) T_key eq_refl).
  PeerHandshakeFacts.mstep. cbn [Msg.key Uint8Array_new].
  unfold Signaling.draw. cbn [World.new_KeyStore Signaling.world].
  PeerHandshakeFacts.mstep.
  match goal with
  | |- context [Signaling.buildPacket ?m _ true ?s1] =>
    rewrite (PacketFacts.buildPacket_initiator_run m s1 cp c1 reply
               Hcp Hnext Henc)
  end.
  unfold Signaling.ws_send.
  erewrite Run.on_ws_some by (PeerHandshakeFacts.mstep; exact Hws).
  PeerHandshakeFacts.mstep.
  cbn [World.sockets World.set_socket]. reflexivity.
Qed.

Lemma responder_accepts_key_witness :
  let s := ResponderScenario.sent_token in
  Signaling.onPeerHandshakeMessage (E := ResponderScenario.E)
    ResponderScenario.key_from_initiator s
  = (Ok tt,
     {| Signaling.this :=
          Signaling.set_initiatorHandshakeState
            (Signaling.set_initiatorCombinedSequence
               (Signaling.set_sessionKey
                  (Signaling.set_initiatorSessionKey (Signaling.this s)
                                                     (Some [x60]))
                  (Some (World.keyStores (Signaling.world s)
                           (World.keyStoresDrawn (Signaling.world s)))))
               (CombinedSequence.mk 103 0))
            (Some Signaling.key_sent);
        Signaling.world :=
          World.set_socket (snd (World.new_KeyStore (Signaling.world s))) 0
            (WebSocket.send (World.sockets (Signaling.world s) 0)
                            (Box.toUint8Array ResponderRun.key_box)) |}).
Proof.
  cbv zeta.
  apply (responder_accepts_key (E := ResponderScenario.E)
           ResponderScenario.sent_token 0
           ResponderScenario.key_from_initiator
           (Nonce.mk ResponderScenario.initiatorCookie 0 1 1 5)
           (Box.mk (firstn 24 ResponderScenario.key_from_initiator)
                   (skipn 24 ResponderScenario.key_from_initiator))
           (Reference.msgpack_encode (Key [x60]))
           (Nonce.mk ResponderScenario.initiatorCookie 0 1 1 5)
           [x60] Scenario.cookies_held (CombinedSequence.mk 103 0)
           ResponderRun.key_box).
  - reflexivity.
  - reflexivity.
  - vm_compute. reflexivity.
  - reflexivity.
  - reflexivity.
  - vm_compute. reflexivity.
  - reflexivity.
  - vm_compute. reflexivity.
  - vm_compute. reflexivity.
  - vm_compute. reflexivity.
  - vm_compute. reflexivity.
  - vm_compute. reflexivity.
  - vm_compute. reflexivity.
Defined.

(** X22. The responder completes the handshake on the auth message of the
    initiator: after 'key-sent', when the frame from 0x01 opens under
    our session key and the initiator's session key, holds an auth
    message whose your_cookie is our cookie, and the cookie of the box's
    nonce is not ours, the handshake state becomes 'auth-received', our
    auth message that echoes the initiator's cookie is sent sealed with
    the session keys under the next pair of the initiator combined
    sequence, the handler of the peer handshake is replaced by
    [onMessage], the state becomes 'open' and the client is told once
    that the connection stands. *)
Theorem responder_accepts_auth {E : Collaborators}
        (s : Signaling.Sys) (ref : nat) (buffer : list byte) (n : Nonce.t)
        (box : Box.t) (plain : list byte) (nonce : Nonce.t) (c : list byte)
        (cookie : Cookie.t) (cp : CookiePair.t) (ks : KeyStore.t)
        (c1 : CombinedSequence.t) (reply : Box.t) :
  Signaling.ws (Signaling.this s) = Some ref ->
  Signaling.role (Signaling.this s) = Signaling.role_responder ->
  Nonce_fromArrayBuffer (firstn 24 buffer) = Ok n ->
  Nonce.destination n = Signaling.address (Signaling.this s) ->
  Nonce.source n = Signaling.SALTYRTC_ADDR_INITIATOR ->
  Box_fromUint8Array buffer nacl_box_nonceLength = Ok box ->
  Signaling.initiatorHandshakeState (Signaling.this s)
  = Some Signaling.key_sent ->
  Signaling.sessionKey (Signaling.this s) = Some ks ->
  KeyStore_decrypt ks box
                   (Signaling.initiatorSessionKey (Signaling.this s))
  = Ok plain ->
  Nonce_fromArrayBuffer (Box.nonce box) = Ok nonce ->
  msgpack_decode plain = Ok (Auth c) ->
  Cookie_from (Some c) = Ok cookie ->
  Signaling.cookiePair (Signaling.this s) = Some cp ->
  Cookie.equals cookie (CookiePair.ours cp) = true ->
  Cookie.equals (Nonce.cookie nonce) (CookiePair.ours cp) = false ->
  CombinedSequence.next
    (Signaling.initiatorCombinedSequence (Signaling.this s)) = (Ok c1, c1) ->
  KeyStore_encrypt ks
    (msgpack_encode (Auth (Cookie.asArray (Nonce.cookie nonce))))
    (packet_nonce (Signaling.this s) (CookiePair.ours cp) c1
                  Signaling.SALTYRTC_ADDR_INITIATOR)
    (Signaling.initiatorSessionKey (Signaling.this s)) = Ok reply ->
  exists s',
    Signaling.onPeerHandshakeMessage buffer s = (Ok tt, s')
    /\ Signaling.this s'
       = Signaling.set_state
           (Signaling.set_initiatorCombinedSequence
              (Signaling.set_initiatorHandshakeState
                 (Signaling.this s) (Some Signaling.auth_received))
              c1)
           Signaling.open
    /\ WebSocket.sent (World.sockets (Signaling.world s') ref)
       = WebSocket.sent (World.sockets (Signaling.world s) ref)
         ++ [Box.toUint8Array reply]
    /\ WebSocket.handles (World.sockets (Signaling.world s') ref)
                         Listener.onPeerHandshakeMessage = false
    /\ WebSocket.handles (World.sockets (Signaling.world s') ref)
                         Listener.onMessage = true
    /\ WebSocket.closed (World.sockets (Signaling.world s') ref)
       = WebSocket.closed (World.sockets (Signaling.world s) ref)
    /\ World.onConnectedCalls (Signaling.world s')
       = S (World.onConnectedCalls (Signaling.world s)).
Proof.
  intros Hws Hrole Hn Hd Hsrc Hbox Hihs Hks Hdec Hnonce Hmsg Hck Hcp Heq
         Hne Hnext Henc.
  rewrite (PeerHandshakeFacts.onPeerHandshakeMessage_dispatch buffer s n Hn Hd).
  rewrite Hsrc.
  destruct ResponderFacts.initiator_source as [-> ->].
  unfold Signaling.onPeerHandshakeMessage_initiator.
  PeerHandshakeFacts.mstep. rewrite Hrole. PeerHandshakeFacts.mstep.
  rewrite Hbox. PeerHandshakeFacts.mstep. rewrite Hihs, Hks.
  rewrite (PeerHandshakeFacts.decrypt_ok box
             (Signaling.with_KeyStore (Some ks)
                (Signaling.initiatorSessionKey (Signaling.this s)))
             plain Hdec).
  PeerHandshakeFacts.mstep. rewrite Hnonce. PeerHandshakeFacts.mstep.
  rewrite (PeerHandshakeFacts.decodeMessage_ok _ _ Hmsg ltac:(discriminate)).
  PeerHandshakeFacts.mstep. rewrite Hihs.
  rewrite (PeerHandshakeFacts.assertType_ok (Auth c) T_auth eq_refl).
  PeerHandshakeFacts.mstep. cbn [Msg.your_cookie]. rewrite Hck.
  PeerHandshakeFacts.mstep. rewrite Hcp. PeerHandshakeFacts.mstep.
  rewrite Heq. PeerHandshakeFacts.mstep.
  rewrite (Run.on_ws_some _ s ref Hws). PeerHandshakeFacts.mstep.
  erewrite Run.on_ws_some by (PeerHandshakeFacts.mstep; exact Hws).
  PeerHandshakeFacts.mstep. rewrite Hcp. PeerHandshakeFacts.mstep.
  rewrite Hne. PeerHandshakeFacts.mstep.
  match goal with
  | |- context [Signaling.buildPacket ?m _ true ?s1] =>
    rewrite (PacketFacts.buildPacket_initiator_run m s1 cp c1 reply
               Hcp Hnext)
  end.
  2:{ cbn [Msg.type_is Msg.type Signaling.this Signaling.sessionKey
           Signaling.initiatorSessionKey
           Signaling.set_initiatorHandshakeState].
      rewrite Hks. exact Henc. }
  unfold Signaling.ws_send.
  erewrite Run.on_ws_some by (PeerHandshakeFacts.mstep; exact Hws).
  PeerHandshakeFacts.mstep.
  eexists. split; [reflexivity|].
  PeerHandshakeFacts.mstep.
  split; [reflexivity|].
  cbn [World.onConnected World.sockets World.set_socket
       World.onConnectedCalls].
  rewrite !Nat.eqb_refl.
  cbn [WebSocket.send WebSocket.sent WebSocket.closed WebSocket.listeners
       WebSocket.addEventListener WebSocket.removeEventListener].
  split; [reflexivity|].
  split.
  { change (WebSocket.handles
              (WebSocket.send
                 (WebSocket.addEventListener
                    (WebSocket.removeEventListener
                       (World.sockets (Signaling.world s) ref) "message"
                       Listener.onPeerHandshakeMessage)
                    "message" Listener.onMessage)
                 (Box.toUint8Array reply))
              Listener.onPeerHandshakeMessage = false).
    unfold WebSocket.handles, WebSocket.send. cbn [WebSocket.listeners].
    now apply (WebSocketFacts.handles_after_remove_add
                 (World.sockets (Signaling.world s) ref)). }
  split.
  { unfold WebSocket.handles, WebSocket.send. cbn [WebSocket.listeners].
    apply (WebSocketFacts.handles_after_add
             (WebSocket.removeEventListener
                (World.sockets (Signaling.world s) ref) "message"
                Listener.onPeerHandshakeMessage)). }
  split; reflexivity.
Qed.

Lemma responder_accepts_auth_witness :
  exists s',
    Signaling.onPeerHandshakeMessage (E := ResponderScenario.E)
      ResponderScenario.auth_from_initiator ResponderScenario.sent_key
    = (Ok tt, s')
    /\ Signaling.this s'
       = Signaling.set_state
           (Signaling.set_initiatorCombinedSequence
              (Signaling.set_initiatorHandshakeState
                 (Signaling.this ResponderScenario.sent_key)
                 (Some Signaling.auth_received))
              (CombinedSequence.mk 104 0))
           Signaling.open
    /\ WebSocket.sent (World.sockets (Signaling.world s') 0)
       = WebSocket.sent
           (World.sockets (Signaling.world ResponderScenario.sent_key) 0)
         ++ [Box.toUint8Array ResponderRun.auth_box]
    /\ WebSocket.handles (World.sockets (Signaling.world s') 0)
                         Listener.onPeerHandshakeMessage = false
    /\ WebSocket.handles (World.sockets (Signaling.world s') 0)
                         Listener.onMessage = true
    /\ WebSocket.closed (World.sockets (Signaling.world s') 0)
       = WebSocket.closed
           (World.sockets (Signaling.world ResponderScenario.sent_key) 0)
    /\ World.onConnectedCalls (Signaling.world s')
       = S (World.onConnectedCalls
              (Signaling.world ResponderScenario.sent_key)).
Proof.
  apply (responder_accepts_auth (E := ResponderScenario.E)
           ResponderScenario.sent_key 0
           ResponderScenario.auth_from_initiator
           (Nonce.mk ResponderScenario.initiatorCookie 0 2 1 5)
           (Box.mk (firstn 24 ResponderScenario.auth_from_initiator)
                   (skipn 24 ResponderScenario.auth_from_initiator))
           (Reference.msgpack_encode (Auth Scenario.ours))
           (Nonce.mk ResponderScenario.initiatorCookie 0 2 1 5)
           Scenario.ours Scenario.ours Scenario.cookies_held
           (Scenario.key_of 16) (CombinedSequence.mk 104 0)
           ResponderRun.auth_box).
  - reflexivity.
  - reflexivity.
  - vm_compute. reflexivity.
  - reflexivity.
  - reflexivity.
  - vm_compute. reflexivity.
  - reflexivity.
  - vm_compute. reflexivity.
  - vm_compute. reflexivity.
  - vm_compute. reflexivity.
  - vm_compute. reflexivity.
  - reflexivity.
  - vm_compute. reflexivity.
  - vm_compute. reflexivity.
  - vm_compute. reflexivity.
  - vm_compute. reflexivity.
  - vm_compute. reflexivity.
Defined.

(** X23. When the server announces a new initiator, the responder records
    the initiator as connected and sends its token: a token message with
    our public permanent key, sealed with the auth token under the next
    pair of the initiator combined sequence.  The handshake state
    becomes 'token-sent'. *)
Theorem new_initiator_sends_token {E : Collaborators}
        (s : Signaling.Sys) (ref : nat) (buffer : list byte) (n : Nonce.t)
        (box : Box.t) (plain : list byte) (cp : CookiePair.t)
        (c1 : CombinedSequence.t) (reply : Box.t) :
  Signaling.ws (Signaling.this s) = Some ref ->
  Signaling.role (Signaling.this s) = Signaling.role_responder ->
  Nonce_fromArrayBuffer (firstn 24 buffer) = Ok n ->
  Nonce.destination n = Signaling.address (Signaling.this s) ->
  Nonce.source n = Signaling.SALTYRTC_ADDR_SERVER ->
  Box_fromUint8Array buffer nacl_box_nonceLength = Ok box ->
  KeyStore_decrypt (Signaling.permanentKey (Signaling.this s)) box
                   (Signaling.serverKey (Signaling.this s)) = Ok plain ->
  msgpack_decode plain = Ok NewInitiator ->
  Signaling.cookiePair (Signaling.this s) = Some cp ->
  CombinedSequence.next
    (Signaling.initiatorCombinedSequence (Signaling.this s)) = (Ok c1, c1) ->
  AuthToken_encrypt (Signaling.authToken (Signaling.this s))
    (msgpack_encode
       (Token (KeyStore.publicKeyArray
                 (Signaling.permanentKey (Signaling.this s)))))
    (packet_nonce (Signaling.this s) (CookiePair.ours cp) c1
                  Signaling.SALTYRTC_ADDR_INITIATOR) = Ok reply ->
  Signaling.onPeerHandshakeMessage buffer s
  = (Ok tt,
     {| Signaling.this :=
          Signaling.set_initiatorHandshakeState
            (Signaling.set_initiatorCombinedSequence
               (Signaling.set_initiatorConnected (Signaling.this s)
                                                 (Some true))
               c1)
            (Some Signaling.token_sent);
        Signaling.world :=
          World.set_socket (Signaling.world s) ref
            (WebSocket.send (World.sockets (Signaling.world s) ref)
                            (Box.toUint8Array reply)) |}).
Proof.
  intros Hws Hrole Hn Hd Hsrc Hbox Hdec Hmsg Hcp Hnext Henc.
  rewrite (PeerHandshakeFacts.onPeerHandshakeMessage_dispatch buffer s n Hn Hd).
  rewrite Hsrc.
  change (Signaling.SALTYRTC_ADDR_SERVER =? Signaling.SALTYRTC_ADDR_SERVER)
    with true. cbv iota.
  unfold Signaling.onPeerHandshakeMessage_server.
  rewrite Hbox. PeerHandshakeFacts.mstep. rewrite Hdec.
  PeerHandshakeFacts.mstep.
  rewrite (PeerHandshakeFacts.decodeMessage_ok _ _ Hmsg ltac:(discriminate)).
  PeerHandshakeFacts.mstep. unfold Signaling.sendToken.
  PeerHandshakeFacts.mstep.
  match goal with
  | |- context [Signaling.buildPacket ?m _ true ?s1] =>
    rewrite (PacketFacts.buildPacket_initiator_run m s1 cp c1 reply
               Hcp Hnext Henc)
  end.
  PeerHandshakeFacts.mstep. rewrite Hrole. PeerHandshakeFacts.mstep.
  unfold Signaling.ws_send.
  erewrite Run.on_ws_some by (PeerHandshakeFacts.mstep; exact Hws).
  reflexivity.
Qed.

Lemma new_initiator_sends_token_witness :
  let s := ResponderScenario.waiting in
  Signaling.onPeerHandshakeMessage (E := ResponderScenario.E)
    ResponderScenario.new_initiator s
  = (Ok tt,
     {| Signaling.this :=
          Signaling.set_initiatorHandshakeState
            (Signaling.set_initiatorCombinedSequence
               (Signaling.set_initiatorConnected (Signaling.this s)
                                                 (Some true))
               (CombinedSequence.mk 102 0))
            (Some Signaling.token_sent);
        Signaling.world :=
          World.set_socket (Signaling.world s) 0
            (WebSocket.send (World.sockets (Signaling.world s) 0)
                            (Box.toUint8Array ResponderRun.token_box)) |}).
Proof.
  cbv zeta.
  apply (new_initiator_sends_token (E := ResponderScenario.E)
           ResponderScenario.waiting 0 ResponderScenario.new_initiator
           (Nonce.mk Scenario.serverCookie 0 3 0 5)
           (Box.mk (firstn 24 ResponderScenario.new_initiator)
                   (skipn 24 ResponderScenario.new_initiator))
           (Reference.msgpack_encode NewInitiator)
           Scenario.cookies_held (CombinedSequence.mk 102 0)
           ResponderRun.token_box).
  - reflexivity.
  - reflexivity.
  - vm_compute. reflexivity.
  - reflexivity.
  - reflexivity.
  - vm_compute. reflexivity.
  - vm_compute. reflexivity.
  - vm_compute. reflexivity.
  - vm_compute. reflexivity.
  - vm_compute. reflexivity.
  - vm_compute. reflexivity.
Defined.

(** ** More on connecting and on the server handshake *)

Module ConnectFacts.
Import Signaling.

(** [initWebsocket] on any engine. *)
Lemma initWebsocket_run (s : Sys) :
  initWebsocket s
  = (Ok tt,
     {| this := set_state (set_ws (this s)
                             (Some (World.nextSocket (world s))))
                          ws_connecting;
        world :=
          World.set_socket
            (World.set_socket
               (World.set_socket
                  (World.set_socket
                     (snd (World.new_WebSocket (world s)))
                     (World.nextSocket (world s))
                     (WebSocket.addEventListener WebSocket.fresh
                        "open" Listener.onOpen))
                  (World.nextSocket (world s))
                  (WebSocket.addEventListener
                     (WebSocket.addEventListener WebSocket.fresh
                        "open" Listener.onOpen)
                     "error" Listener.onError))
               (World.nextSocket (world s))
               (WebSocket.addEventListener
                  (WebSocket.addEventListener
                     (WebSocket.addEventListener WebSocket.fresh
                        "open" Listener.onOpen)
                     "error" Listener.onError)
                  "close" Listener.onClose))
            (World.nextSocket (world s))
            (WebSocket.addEventListener
               (WebSocket.addEventListener
                  (WebSocket.addEventListener
                     (WebSocket.addEventListener WebSocket.fresh
                        "open" Listener.onOpen)
                     "error" Listener.onError)
                  "close" Listener.onClose)
               "message" Listener.onInitServerHandshake) |}).
Proof.
  unfold initWebsocket, on_ws, draw.
  cbv beta iota zeta delta [mbind call ret throw self assign act deref].
  cbn [World.new_WebSocket world this fst snd ws set_ws World.sockets
       World.set_socket].
  rewrite !Nat.eqb_refl. reflexivity.
Qed.

End ConnectFacts.

Module ConnectRun.

(** [connect()] on any engine: the engine after, and the WebSocket it
    holds. *)
Lemma connect_state (s : Signaling.Sys) :
  exists s',
    Signaling.connect s = (Ok tt, s')
    /\ Signaling.this s'
       = Signaling.set_state
           (Signaling.set_ws
              (Signaling.set_serverCombinedSequence (Signaling.this s)
                 (CombinedSequence.new
                    (World.uint32s (Signaling.world s)
                       (World.uint32sDrawn (Signaling.world s)))))
              (Some (World.nextSocket (Signaling.world s))))
           Signaling.ws_connecting
    /\ WebSocket.sent (World.sockets (Signaling.world s')
                                     (World.nextSocket (Signaling.world s)))
       = [].
Proof.
  unfold Signaling.connect.
  rewrite (Run.bind_ok _ _ _ _ _ (Run.resetConnection_run s)).
  rewrite ConnectFacts.initWebsocket_run.
  eexists. split; [reflexivity|].
  cbn [Signaling.this Signaling.world].
  destruct (Signaling.ws (Signaling.this s)) as [old|];
    (split; [reflexivity|]);
    cbn [World.sockets World.set_socket]; rewrite Nat.eqb_refl;
    reflexivity.
Qed.

End ConnectRun.

(** X24. [connect()] on any engine: a fresh WebSocket is created and
    becomes [ws], with the handlers for open, error and close and with
    [onInitServerHandshake] as its only message handler; nothing has been
    sent on it and it is not closed; the WebSocket held before, if any,
    has been closed; the state is 'ws-connecting' and the server combined
    sequence is a fresh one.  Every other field of the engine is kept,
    among them the address and the cookie pair. *)
Theorem connect_run (s : Signaling.Sys) :
  exists s',
    Signaling.connect s = (Ok tt, s')
    /\ Signaling.this s'
       = Signaling.set_state
           (Signaling.set_ws
              (Signaling.set_serverCombinedSequence (Signaling.this s)
                 (CombinedSequence.new
                    (World.uint32s (Signaling.world s)
                       (World.uint32sDrawn (Signaling.world s)))))
              (Some (World.nextSocket (Signaling.world s))))
           Signaling.ws_connecting
    /\ World.sockets (Signaling.world s')
                     (World.nextSocket (Signaling.world s))
       = {| WebSocket.listeners :=
              [("open", Listener.onOpen); ("error", Listener.onError);
               ("close", Listener.onClose);
               ("message", Listener.onInitServerHandshake)];
            WebSocket.sent := [];
            WebSocket.closed := false |}
    /\ World.nextSocket (Signaling.world s')
       = S (World.nextSocket (Signaling.world s))
    /\ (forall ref,
          ref <> World.nextSocket (Signaling.world s) ->
          World.sockets (Signaling.world s') ref
          = if match Signaling.ws (Signaling.this s) with
               | Some old => Nat.eqb ref old
               | None => false
               end
            then WebSocket.close (World.sockets (Signaling.world s) ref)
            else World.sockets (Signaling.world s) ref).
Proof.
  unfold Signaling.connect.
  rewrite (Run.bind_ok _ _ _ _ _ (Run.resetConnection_run s)).
  rewrite ConnectFacts.initWebsocket_run.
  eexists. split; [reflexivity|].
  cbn [Signaling.this Signaling.world].
  destruct (Signaling.ws (Signaling.this s)) as [old|];
    (split; [reflexivity|]);
    (split; [cbn [World.sockets World.set_socket]; rewrite Nat.eqb_refl;
             reflexivity|]);
    (split; [reflexivity|]);
    intros ref Hne; apply Nat.eqb_neq in Hne;
    cbn [World.sockets World.set_socket World.new_WebSocket
         World.randomUint32 World.nextSocket snd];
    rewrite Hne; try reflexivity.
  destruct (Nat.eqb_spec ref old) as [->|]; reflexivity.
Qed.

(** X25. [connect()] does not reset the address of the engine, and the
    server handshake checks the destination of server-hello against that
    address: after [connect()] on an engine whose address differs from
    the destination of the server-hello nonce (so for a server-hello
    addressed to 0x00 on an engine that had been given its address by an
    earlier handshake), [onInitServerHandshake] throws
    'bad-nonce-destination'.  The state is 'server-handshake' then, no
    key of the server has been stored and no cookie pair set, and nothing
    has been sent. *)
Theorem reconnect_refuses_server_hello {E : Collaborators}
        (s : Signaling.Sys) (fuel : nat) (buffer : list byte)
        (n : Nonce.t) (m : Message) :
  Nonce_fromArrayBuffer (firstn 24 buffer) = Ok n ->
  msgpack_decode (skipn 24 buffer) = Ok m ->
  Nonce.destination n <> Signaling.address (Signaling.this s) ->
  exists s2,
    Signaling.onInitServerHandshake_begin fuel buffer
      (snd (Signaling.connect s))
    = Some (Throw (Thrown "bad-nonce-destination"), s2)
    /\ Signaling.state (Signaling.this s2) = Signaling.server_handshake
    /\ Signaling.address (Signaling.this s2)
       = Signaling.address (Signaling.this s)
    /\ Signaling.serverKey (Signaling.this s2)
       = Signaling.serverKey (Signaling.this s)
    /\ Signaling.cookiePair (Signaling.this s2)
       = Signaling.cookiePair (Signaling.this s)
    /\ WebSocket.sent (World.sockets (Signaling.world s2)
                                     (World.nextSocket (Signaling.world s)))
       = [].
Proof.
  intros Hn Hm Hd.
  destruct (ConnectRun.connect_state s) as [s1 [Hrun [Hthis Hsock]]].
  rewrite Hrun. cbn [snd].
  assert (Hws : Signaling.ws (Signaling.this s1)
                = Some (World.nextSocket (Signaling.world s)))
    by (rewrite Hthis; reflexivity).
  unfold Signaling.onInitServerHandshake_begin.
  rewrite (Run.bind_ok _ _ _ _ _ (Run.on_ws_some _ s1 _ Hws)).
  unfold Signaling.assign, Signaling.serverHandshake_begin,
    Signaling.serverHandshake_serverHello.
  cbn [Signaling.this Signaling.world].
  rewrite Hn. cbv zeta. rewrite Hm.
  PeerHandshakeFacts.mstep. unfold Signaling.validateNonce.
  PeerHandshakeFacts.mstep.
  apply Z.eqb_neq in Hd.
  replace (Signaling.address (Signaling.this s1))
    with (Signaling.address (Signaling.this s))
    by (rewrite Hthis; reflexivity).
  rewrite Hd. cbn [negb].
  eexists. split; [reflexivity|].
  cbn [Signaling.this Signaling.world Signaling.state Signaling.address
       Signaling.serverKey Signaling.cookiePair Signaling.set_state].
  rewrite Hthis.
  repeat (split; [reflexivity|]).
  cbn [World.sockets World.set_socket]. rewrite Nat.eqb_refl.
  exact Hsock.
Qed.

(** In the run of the initiator the address is 0x01 after the server
    handshake, and a server-hello for 0x00 is refused after a
    reconnect. *)
Lemma reconnect_refuses_server_hello_witness :
  exists s2,
    Signaling.onInitServerHandshake_begin (E := Scenario.E) 2
      Scenario.server_hello (snd (Signaling.connect Scenario.key_received))
    = Some (Throw (Thrown "bad-nonce-destination"), s2)
    /\ Signaling.state (Signaling.this s2) = Signaling.server_handshake
    /\ Signaling.address (Signaling.this s2)
       = Signaling.address (Signaling.this Scenario.key_received)
    /\ Signaling.serverKey (Signaling.this s2)
       = Signaling.serverKey (Signaling.this Scenario.key_received)
    /\ Signaling.cookiePair (Signaling.this s2)
       = Signaling.cookiePair (Signaling.this Scenario.key_received)
    /\ WebSocket.sent
         (World.sockets (Signaling.world s2)
            (World.nextSocket (Signaling.world Scenario.key_received)))
       = [].
Proof.
  apply (reconnect_refuses_server_hello (E := Scenario.E)
           Scenario.key_received 2 Scenario.server_hello
           (Nonce.mk Scenario.serverCookie 0 1 0 0)
           (ServerHello Scenario.serverPublicKey)).
  - vm_compute. reflexivity.
  - vm_compute. reflexivity.
  - vm_compute. discriminate.
Defined.

Module ServerAuthFacts.
Import Signaling.

Lemma keys_fresh (w : World.t) (ids : list Z) :
  forall i, JsMap.keys (fresh_responders w i ids) = ids.
Proof.
  unfold JsMap.keys.
  induction ids as [|id rest IH]; intros i; cbn [fresh_responders map fst];
    [reflexivity | now rewrite IH].
Qed.

Lemma fresh_are_new (w : World.t) (ids : list Z) :
  forall i,
    Forall (fun e : Z * Responder.t =>
              Responder.id (snd e) = fst e
              /\ Responder.state (snd e) = Responder.new
              /\ Responder.permanentKey (snd e) = None
              /\ Responder.sessionKey (snd e) = None)
           (fresh_responders w i ids).
Proof.
  induction ids as [|id rest IH]; intros i; cbn [fresh_responders];
    constructor; [|apply IH].
  cbn. repeat split.
Qed.

Lemma get_app_none {V} (m1 m2 : JsMap.t V) (k : Z) :
  JsMap.get m1 k = None -> JsMap.get (m1 ++ m2) k = JsMap.get m2 k.
Proof.
  induction m1 as [|[k' v'] m1 IH]; cbn [JsMap.get app]; [reflexivity|].
  destruct (k' =? k); [discriminate | exact IH].
Qed.

Section WithCollaborators.
Context {E : Collaborators}.

(** The loop that stores the responders of server-auth: one fresh record
    per identity, appended in order. *)
Lemma storeResponders_run (w0 : World.t) (ids : list Z) :
  forall (i : nat) (s : Sys) (rs0 : JsMap.t Responder.t),
    responders (this s) = Some rs0 ->
    NoDup ids ->
    (forall id, In id ids -> JsMap.get rs0 id = None) ->
    World.keyStores (world s) = World.keyStores w0 ->
    World.uint32s (world s) = World.uint32s w0 ->
    World.keyStoresDrawn (world s) = (World.keyStoresDrawn w0 + i)%nat ->
    World.uint32sDrawn (world s) = (World.uint32sDrawn w0 + i)%nat ->
    exists w',
      storeResponders ids s
      = (Ok tt,
         {| this := set_responders (this s)
                      (Some (rs0 ++ fresh_responders w0 i ids));
            world := w' |})
      /\ World.sockets w' = World.sockets (world s)
      /\ World.nextSocket w' = World.nextSocket (world s)
      /\ World.cookiesDrawn w' = World.cookiesDrawn (world s)
      /\ World.onConnectedCalls w' = World.onConnectedCalls (world s)
      /\ World.keyStoresDrawn w'
         = (World.keyStoresDrawn (world s) + List.length ids)%nat.
Proof.
  induction ids as [|id rest IH];
    intros i s rs0 Hrs Hnd Hnone Hks Hus Hkd Hud.
  - exists (world s). cbn [storeResponders fresh_responders ret].
    rewrite app_nil_r. split.
    + destruct s as [t w]. destruct t. cbn in Hrs |- *. now subst.
    + cbn [List.length]. repeat split. lia.
  - cbn [storeResponders fresh_responders].
    inversion Hnd as [|? ? Hnotin Hnd']; subst.
    unfold draw.
    cbv beta iota zeta delta [mbind ret self deref assign].
    cbn [Responder.create World.new_KeyStore World.new_CombinedSequence
         World.randomUint32 this world fst snd responders
         World.keyStores World.keyStoresDrawn World.uint32s
         World.uint32sDrawn].
    rewrite Hrs.
    rewrite (MapFacts.set_absent rs0 id _ (Hnone id (or_introl eq_refl))).
    match goal with
    | |- context [storeResponders rest ?s1] =>
      destruct (IH (S i) s1
                   (rs0 ++ [(id, fresh_responder w0 i id)]))
        as [w' [Hrun [H1 [H2 [H3 [H4 H5]]]]]]
    end.
    + cbn [this responders set_responders]. unfold fresh_responder.
      rewrite Hks, Hus, Hkd, Hud. reflexivity.
    + exact Hnd'.
    + intros id' Hin. rewrite get_app_none by (apply Hnone; now right).
      cbn [JsMap.get]. destruct (Z.eqb_spec id id') as [->|]; [|reflexivity].
      contradiction.
    + exact Hks.
    + exact Hus.
    + cbn [world World.keyStoresDrawn]. lia.
    + cbn [world World.uint32sDrawn]. lia.
    + exists w'. split.
      * rewrite Hrun. cbn [this set_responders].
        rewrite <- app_assoc. reflexivity.
      * cbn [world World.sockets World.nextSocket World.cookiesDrawn
             World.onConnectedCalls World.keyStoresDrawn List.length] in *.
        repeat split; try assumption. lia.
Qed.

End WithCollaborators.
End ServerAuthFacts.

(** X26. The initiator ends the server handshake on a valid server-auth:
    when the message is longer than a nonce, opens under our permanent
    key and the server key, comes from 0x00 for 0x01 and echoes our
    cookie, the map of responders holds one fresh record (state 'new', no
    keys of the peer) for every identity that the message lists, in the
    order of the list; the address is 0x01, the state 'peer-handshake',
    the one-shot handler of the [await] is gone and
    [onPeerHandshakeMessage] handles the messages from now on.  Nothing
    is sent. *)
Theorem server_auth_registers_responders {E : Collaborators}
        (s : Signaling.Sys) (ref : nat) (bytes : list byte) (box : Box.t)
        (plain : list byte) (nonce : Nonce.t) (c : list byte)
        (ids : list Z) (ic : option bool) (cookie : Cookie.t)
        (cp : CookiePair.t) :
  Signaling.ws (Signaling.this s) = Some ref ->
  Signaling.role (Signaling.this s) = Signaling.role_initiator ->
  24 < Z.of_nat (List.length bytes) ->
  Box_fromUint8Array bytes nacl_box_nonceLength = Ok box ->
  KeyStore_decrypt (Signaling.permanentKey (Signaling.this s)) box
                   (Signaling.serverKey (Signaling.this s)) = Ok plain ->
  Nonce_fromArrayBuffer (Box.nonce box) = Ok nonce ->
  Nonce.destination nonce = Signaling.SALTYRTC_ADDR_INITIATOR ->
  Nonce.source nonce = Signaling.SALTYRTC_ADDR_SERVER ->
  msgpack_decode plain = Ok (ServerAuth c (Some ids) ic) ->
  Cookie_from (Some c) = Ok cookie ->
  Signaling.cookiePair (Signaling.this s) = Some cp ->
  Cookie.equals cookie (CookiePair.ours cp) = true ->
  NoDup ids ->
  exists s',
    Signaling.onInitServerHandshake_resume bytes s = (Ok tt, s')
    /\ Signaling.this s'
       = Signaling.set_state
           (Signaling.set_responders
              (Signaling.set_address (Signaling.this s)
                                     Signaling.SALTYRTC_ADDR_INITIATOR)
              (Some (fresh_responders (Signaling.world s) 0 ids)))
           Signaling.peer_handshake
    /\ JsMap.keys (fresh_responders (Signaling.world s) 0 ids) = ids
    /\ Forall (fun e : Z * Responder.t =>
                 Responder.id (snd e) = fst e
                 /\ Responder.state (snd e) = Responder.new
                 /\ Responder.permanentKey (snd e) = None
                 /\ Responder.sessionKey (snd e) = None)
              (fresh_responders (Signaling.world s) 0 ids)
    /\ WebSocket.handles (World.sockets (Signaling.world s') ref)
                         Listener.onPeerHandshakeMessage = true
    /\ WebSocket.handles (World.sockets (Signaling.world s') ref)
                         Listener.recvMessageEvent_handler = false
    /\ WebSocket.sent (World.sockets (Signaling.world s') ref)
       = WebSocket.sent (World.sockets (Signaling.world s) ref)
    /\ World.keyStoresDrawn (Signaling.world s')
       = (World.keyStoresDrawn (Signaling.world s) + List.length ids)%nat.
Proof.
  intros Hws Hrole Hlen Hbox Hdec Hnonce Hdst Hsrc Hmsg Hck Hcp Heq Hnd.
  unfold Signaling.onInitServerHandshake_resume,
    Signaling.serverHandshake_serverAuth.
  PeerHandshakeFacts.mstep.
  rewrite (Run.on_ws_some _ s ref Hws).
  destruct (Z.leb_spec (Z.of_nat (List.length bytes)) 24) as [|_]; [lia|].
  PeerHandshakeFacts.mstep. rewrite Hbox. PeerHandshakeFacts.mstep.
  rewrite Hdec. PeerHandshakeFacts.mstep. rewrite Hnonce.
  PeerHandshakeFacts.mstep. rewrite Hrole. PeerHandshakeFacts.mstep.
  unfold Signaling.validateNonce. PeerHandshakeFacts.mstep.
  rewrite Hdst, Hsrc.
  change (Signaling.SALTYRTC_ADDR_INITIATOR =? Signaling.SALTYRTC_ADDR_INITIATOR)
    with true.
  change (Signaling.SALTYRTC_ADDR_SERVER =? Signaling.SALTYRTC_ADDR_SERVER)
    with true.
  PeerHandshakeFacts.mstep. unfold Signaling.decodeMessage.
  PeerHandshakeFacts.mstep. rewrite Hmsg. PeerHandshakeFacts.mstep.
  cbn [Msg.type Msg.type_is]. PeerHandshakeFacts.mstep.
  cbn [Msg.your_cookie Signaling.Msg_responders]. rewrite Hck. PeerHandshakeFacts.mstep. rewrite Hcp.
  PeerHandshakeFacts.mstep. rewrite Heq. PeerHandshakeFacts.mstep.
  rewrite Hrole. PeerHandshakeFacts.mstep.
  match goal with
  | |- context [Signaling.storeResponders ids ?s1] =>
    destruct (ServerAuthFacts.storeResponders_run (Signaling.world s) ids
                0 s1 [])
      as [w' [Hrun [H1 [H2 [H3 [H4 H5]]]]]]
  end; try reflexivity; try assumption.
  { cbn [Signaling.world World.set_socket World.keyStoresDrawn]. lia. }
  { cbn [Signaling.world World.set_socket World.uint32sDrawn]. lia. }
  rewrite Hrun. PeerHandshakeFacts.mstep.
  rewrite Hrole. PeerHandshakeFacts.mstep.
  erewrite Run.on_ws_some by (PeerHandshakeFacts.mstep; exact Hws).
  eexists. split; [reflexivity|].
  PeerHandshakeFacts.mstep. cbn [app].
  split; [reflexivity|].
  split; [apply ServerAuthFacts.keys_fresh|].
  split; [apply ServerAuthFacts.fresh_are_new|].
  cbn [Signaling.world World.sockets World.set_socket World.keyStoresDrawn]
    in *.
  rewrite Nat.eqb_refl, H1, H5. cbn [World.sockets World.set_socket].
  rewrite Nat.eqb_refl.
  split; [apply WebSocketFacts.handles_after_add|].
  split; [now apply WebSocketFacts.handles_after_remove_add|].
  split; reflexivity.
Qed.

Lemma server_auth_registers_responders_witness :
  exists s',
    Signaling.onInitServerHandshake_resume (E := Scenario.E)
      Scenario.server_auth Scenario.hello_done = (Ok tt, s')
    /\ Signaling.this s'
       = Signaling.set_state
           (Signaling.set_responders
              (Signaling.set_address (Signaling.this Scenario.hello_done)
                                     Signaling.SALTYRTC_ADDR_INITIATOR)
              (Some (fresh_responders
                       (Signaling.world Scenario.hello_done) 0 [2; 3])))
           Signaling.peer_handshake
    /\ JsMap.keys (fresh_responders
                     (Signaling.world Scenario.hello_done) 0 [2; 3])
       = [2; 3]
    /\ Forall (fun e : Z * Responder.t =>
                 Responder.id (snd e) = fst e
                 /\ Responder.state (snd e) = Responder.new
                 /\ Responder.permanentKey (snd e) = None
                 /\ Responder.sessionKey (snd e) = None)
              (fresh_responders
                 (Signaling.world Scenario.hello_done) 0 [2; 3])
    /\ WebSocket.handles (World.sockets (Signaling.world s') 0)
                         Listener.onPeerHandshakeMessage = true
    /\ WebSocket.handles (World.sockets (Signaling.world s') 0)
                         Listener.recvMessageEvent_handler = false
    /\ WebSocket.sent (World.sockets (Signaling.world s') 0)
       = WebSocket.sent
           (World.sockets (Signaling.world Scenario.hello_done) 0)
    /\ World.keyStoresDrawn (Signaling.world s')
       = (World.keyStoresDrawn (Signaling.world Scenario.hello_done)
          + List.length [2; 3])%nat.
Proof.
  apply (server_auth_registers_responders (E := Scenario.E)
           Scenario.hello_done 0 Scenario.server_auth
           (Box.mk (firstn 24 Scenario.server_auth)
                   (skipn 24 Scenario.server_auth))
           (Reference.msgpack_encode
              (ServerAuth Scenario.ours (Some [2; 3]) None))
           (Nonce.mk Scenario.serverCookie 0 2 0 1)
           Scenario.ours [2; 3] None Scenario.ours Scenario.cookies_held).
  - reflexivity.
  - reflexivity.
  - vm_compute. reflexivity.
  - vm_compute. reflexivity.
  - vm_compute. reflexivity.
  - vm_compute. reflexivity.
  - reflexivity.
  - reflexivity.
  - vm_compute. reflexivity.
  - reflexivity.
  - vm_compute. reflexivity.
  - vm_compute. reflexivity.
  - repeat constructor; cbn; intuition discriminate.
Defined.

(** X27. The responder takes its address from server-auth: for a valid
    server-auth from 0x00 whose nonce names a destination in 0x02..0xff,
    that destination becomes the address of the engine, the
    [initiator_connected] field of the message is stored, the state
    becomes 'peer-handshake' and the handshake state 'new' (no token is
    sent unless the initiator is reported as connected), and
    [onPeerHandshakeMessage] handles the messages from now on.  For a
    destination outside 0x02..0xff the message is refused with
    'bad-nonce-destination', although it was authentic, and the address
    stays as it was. *)
Theorem server_auth_assigns_address {E : Collaborators}
        (s : Signaling.Sys) (ref : nat) (bytes : list byte) (box : Box.t)
        (plain : list byte) (nonce : Nonce.t) (c : list byte)
        (rsp : option (list Z)) (ic : option bool) (cookie : Cookie.t)
        (cp : CookiePair.t) :
  Signaling.ws (Signaling.this s) = Some ref ->
  Signaling.role (Signaling.this s) = Signaling.role_responder ->
  24 < Z.of_nat (List.length bytes) ->
  Box_fromUint8Array bytes nacl_box_nonceLength = Ok box ->
  KeyStore_decrypt (Signaling.permanentKey (Signaling.this s)) box
                   (Signaling.serverKey (Signaling.this s)) = Ok plain ->
  Nonce_fromArrayBuffer (Box.nonce box) = Ok nonce ->
  Nonce.source nonce = Signaling.SALTYRTC_ADDR_SERVER ->
  msgpack_decode plain = Ok (ServerAuth c rsp ic) ->
  Cookie_from (Some c) = Ok cookie ->
  Signaling.cookiePair (Signaling.this s) = Some cp ->
  Cookie.equals cookie (CookiePair.ours cp) = true ->
  ic <> Some true ->
  (0x02 <= Nonce.destination nonce <= 0xff ->
   exists s',
     Signaling.onInitServerHandshake_resume bytes s = (Ok tt, s')
     /\ Signaling.this s'
        = Signaling.set_initiatorHandshakeState
            (Signaling.set_state
               (Signaling.set_initiatorConnected
                  (Signaling.set_address (Signaling.this s)
                                         (Nonce.destination nonce))
                  ic)
               Signaling.peer_handshake)
            (Some Signaling.ihs_new)
     /\ WebSocket.handles (World.sockets (Signaling.world s') ref)
                          Listener.onPeerHandshakeMessage = true
     /\ WebSocket.handles (World.sockets (Signaling.world s') ref)
                          Listener.recvMessageEvent_handler = false
     /\ WebSocket.sent (World.sockets (Signaling.world s') ref)
        = WebSocket.sent (World.sockets (Signaling.world s) ref))
  /\ (Nonce.destination nonce < 0x02 \/ 0xff < Nonce.destination nonce ->
      Signaling.onInitServerHandshake_resume bytes s
      = (Throw (Thrown "bad-nonce-destination"),
         {| Signaling.this := Signaling.this s;
            Signaling.world :=
              World.set_socket (Signaling.world s) ref
                (WebSocket.removeEventListener
                   (World.sockets (Signaling.world s) ref) "message"
                   Listener.recvMessageEvent_handler) |})).
Proof.
  intros Hws Hrole Hlen Hbox Hdec Hnonce Hsrc Hmsg Hck Hcp Heq Hic.
  unfold Signaling.onInitServerHandshake_resume,
    Signaling.serverHandshake_serverAuth.
  PeerHandshakeFacts.mstep.
  rewrite (Run.on_ws_some _ s ref Hws).
  destruct (Z.leb_spec (Z.of_nat (List.length bytes)) 24) as [|_]; [lia|].
  PeerHandshakeFacts.mstep. rewrite Hbox. PeerHandshakeFacts.mstep.
  rewrite Hdec. PeerHandshakeFacts.mstep. rewrite Hnonce.
  PeerHandshakeFacts.mstep. rewrite Hrole. PeerHandshakeFacts.mstep.
  unfold Signaling.validateNonce. PeerHandshakeFacts.mstep.
  rewrite Hsrc.
  change (Signaling.SALTYRTC_ADDR_SERVER =? Signaling.SALTYRTC_ADDR_SERVER)
    with true.
  PeerHandshakeFacts.mstep.
  split.
  - intros [Hlo Hhi].
    destruct (Z.gtb_spec (Nonce.destination nonce) 255) as [|_]; [lia|].
    destruct (Z.ltb_spec (Nonce.destination nonce) 2) as [|_]; [lia|].
    cbn [orb]. PeerHandshakeFacts.mstep. unfold Signaling.decodeMessage.
    PeerHandshakeFacts.mstep. rewrite Hmsg. PeerHandshakeFacts.mstep.
    cbn [Msg.type Msg.type_is]. PeerHandshakeFacts.mstep.
    cbn [Msg.your_cookie Signaling.Msg_initiator_connected]. rewrite Hck.
    PeerHandshakeFacts.mstep. rewrite Hcp. PeerHandshakeFacts.mstep.
    rewrite Heq. PeerHandshakeFacts.mstep. rewrite Hrole.
    PeerHandshakeFacts.mstep. rewrite Hrole. PeerHandshakeFacts.mstep.
    destruct ic as [[|]|]; [contradiction Hic; reflexivity| |];
      (erewrite Run.on_ws_some by (PeerHandshakeFacts.mstep; exact Hws);
       eexists; split; [reflexivity|];
       PeerHandshakeFacts.mstep; split; [reflexivity|];
       cbn [World.sockets World.set_socket]; rewrite !Nat.eqb_refl;
       split; [apply WebSocketFacts.handles_after_add|];
       split; [now apply WebSocketFacts.handles_after_remove_add|];
       reflexivity).
  - intros Hout.
    replace ((Nonce.destination nonce >? 255)
             || (Nonce.destination nonce <? 2)) with true.
    2:{ symmetry. apply orb_true_iff.
        destruct Hout; [right; apply Z.ltb_lt | left; apply Z.gtb_lt]; lia. }
    reflexivity.
Qed.

Lemma server_auth_assigns_address_witness :
  exists s',
    Signaling.onInitServerHandshake_resume (E := ResponderScenario.E)
      ResponderScenario.server_auth_alone ResponderScenario.hello_done
    = (Ok tt, s')
    /\ Signaling.this s'
       = Signaling.set_initiatorHandshakeState
           (Signaling.set_state
              (Signaling.set_initiatorConnected
                 (Signaling.set_address
                    (Signaling.this ResponderScenario.hello_done) 5)
                 (Some false))
              Signaling.peer_handshake)
           (Some Signaling.ihs_new)
    /\ WebSocket.handles (World.sockets (Signaling.world s') 0)
                         Listener.onPeerHandshakeMessage = true
    /\ WebSocket.handles (World.sockets (Signaling.world s') 0)
                         Listener.recvMessageEvent_handler = false
    /\ WebSocket.sent (World.sockets (Signaling.world s') 0)
       = WebSocket.sent
           (World.sockets (Signaling.world ResponderScenario.hello_done) 0).
Proof.
  refine (proj1 (server_auth_assigns_address (E := ResponderScenario.E)
                   ResponderScenario.hello_done 0
                   ResponderScenario.server_auth_alone
                   (Box.mk (firstn 24 ResponderScenario.server_auth_alone)
                           (skipn 24 ResponderScenario.server_auth_alone))
                   (Reference.msgpack_encode
                      (ServerAuth Scenario.ours None (Some false)))
                   (Nonce.mk Scenario.serverCookie 0 2 0 5)
                   Scenario.ours None (Some false) Scenario.ours
                   Scenario.cookies_held
                   _ _ _ _ _ _ _ _ _ _ _ _) _).
  - reflexivity.
  - reflexivity.
  - vm_compute. reflexivity.
  - vm_compute. reflexivity.
  - vm_compute. reflexivity.
  - vm_compute. reflexivity.
  - reflexivity.
  - vm_compute. reflexivity.
  - reflexivity.
  - vm_compute. reflexivity.
  - vm_compute. reflexivity.
  - discriminate.
  - cbn. lia.
Defined.

(** X28. A server-auth of at most 24 bytes is refused with
    'bad-message-length' before anything of it is parsed.  The one-shot
    handler of the [await] has been removed by then and nothing else has
    changed: the engine stays in the state it had, with no handler for
    the messages of the server handshake. *)
Theorem server_auth_too_short {E : Collaborators}
        (s : Signaling.Sys) (ref : nat) (bytes : list byte) :
  Signaling.ws (Signaling.this s) = Some ref ->
  Z.of_nat (List.length bytes) <= 24 ->
  Signaling.onInitServerHandshake_resume bytes s
  = (Throw (Thrown "bad-message-length"),
     {| Signaling.this := Signaling.this s;
        Signaling.world :=
          World.set_socket (Signaling.world s) ref
            (WebSocket.removeEventListener
               (World.sockets (Signaling.world s) ref) "message"
               Listener.recvMessageEvent_handler) |}).
Proof.
  intros Hws Hlen.
  unfold Signaling.onInitServerHandshake_resume,
    Signaling.serverHandshake_serverAuth.
  PeerHandshakeFacts.mstep.
  rewrite (Run.on_ws_some _ s ref Hws).
  destruct (Z.leb_spec (Z.of_nat (List.length bytes)) 24) as [_|]; [|lia].
  reflexivity.
Qed.

Lemma server_auth_too_short_witness :
  Signaling.onInitServerHandshake_resume (E := Scenario.E)
    (firstn 24 Scenario.server_auth) Scenario.hello_done
  = (Throw (Thrown "bad-message-length"),
     {| Signaling.this := Signaling.this Scenario.hello_done;
        Signaling.world :=
          World.set_socket (Signaling.world Scenario.hello_done) 0
            (WebSocket.removeEventListener
               (World.sockets (Signaling.world Scenario.hello_done) 0)
               "message" Listener.recvMessageEvent_handler) |}).
Proof.
  apply (server_auth_too_short (E := Scenario.E) Scenario.hello_done 0).
  - reflexivity.
  - vm_compute. discriminate.
Defined.

(** X29. A server-auth that does not echo our cookie is refused with
    'bad-cookie' after it has been decrypted and decoded: no responder is
    stored and the state is not advanced, but the address assigned on
    the way (0x01 for the initiator) stays. *)
Theorem server_auth_bad_cookie {E : Collaborators}
        (s : Signaling.Sys) (ref : nat) (bytes : list byte) (box : Box.t)
        (plain : list byte) (nonce : Nonce.t) (c : list byte)
        (rsp : option (list Z)) (ic : option bool) (cookie : Cookie.t)
        (cp : CookiePair.t) :
  Signaling.ws (Signaling.this s) = Some ref ->
  Signaling.role (Signaling.this s) = Signaling.role_initiator ->
  24 < Z.of_nat (List.length bytes) ->
  Box_fromUint8Array bytes nacl_box_nonceLength = Ok box ->
  KeyStore_decrypt (Signaling.permanentKey (Signaling.this s)) box
                   (Signaling.serverKey (Signaling.this s)) = Ok plain ->
  Nonce_fromArrayBuffer (Box.nonce box) = Ok nonce ->
  Nonce.destination nonce = Signaling.SALTYRTC_ADDR_INITIATOR ->
  Nonce.source nonce = Signaling.SALTYRTC_ADDR_SERVER ->
  msgpack_decode plain = Ok (ServerAuth c rsp ic) ->
  Cookie_from (Some c) = Ok cookie ->
  Signaling.cookiePair (Signaling.this s) = Some cp ->
  Cookie.equals cookie (CookiePair.ours cp) = false ->
  Signaling.onInitServerHandshake_resume bytes s
  = (Throw (Thrown "bad-cookie"),
     {| Signaling.this :=
          Signaling.set_address (Signaling.this s)
                                Signaling.SALTYRTC_ADDR_INITIATOR;
        Signaling.world :=
          World.set_socket (Signaling.world s) ref
            (WebSocket.removeEventListener
               (World.sockets (Signaling.world s) ref) "message"
               Listener.recvMessageEvent_handler) |}).
Proof.
  intros Hws Hrole Hlen Hbox Hdec Hnonce Hdst Hsrc Hmsg Hck Hcp Hne.
  unfold Signaling.onInitServerHandshake_resume,
    Signaling.serverHandshake_serverAuth.
  PeerHandshakeFacts.mstep.
  rewrite (Run.on_ws_some _ s ref Hws).
  destruct (Z.leb_spec (Z.of_nat (List.length bytes)) 24) as [|_]; [lia|].
  PeerHandshakeFacts.mstep. rewrite Hbox. PeerHandshakeFacts.mstep.
  rewrite Hdec. PeerHandshakeFacts.mstep. rewrite Hnonce.
  PeerHandshakeFacts.mstep. rewrite Hrole. PeerHandshakeFacts.mstep.
  unfold Signaling.validateNonce. PeerHandshakeFacts.mstep.
  rewrite Hdst, Hsrc.
  change (Signaling.SALTYRTC_ADDR_INITIATOR =? Signaling.SALTYRTC_ADDR_INITIATOR)
    with true.
  change (Signaling.SALTYRTC_ADDR_SERVER =? Signaling.SALTYRTC_ADDR_SERVER)
    with true.
  PeerHandshakeFacts.mstep. unfold Signaling.decodeMessage.
  PeerHandshakeFacts.mstep. rewrite Hmsg. PeerHandshakeFacts.mstep.
  cbn [Msg.type Msg.type_is]. PeerHandshakeFacts.mstep.
  cbn [Msg.your_cookie]. rewrite Hck.
  PeerHandshakeFacts.mstep. rewrite Hcp. PeerHandshakeFacts.mstep.
  rewrite Hne. reflexivity.
Qed.

Lemma server_auth_bad_cookie_witness :
  let bytes := Scenario.frame Scenario.serverCookie 0 1 2 Scenario.server_tag
                 (ServerAuth Scenario.serverCookie (Some [2; 3]) None) in
  Signaling.onInitServerHandshake_resume (E := Scenario.E) bytes
                                         Scenario.hello_done
  = (Throw (Thrown "bad-cookie"),
     {| Signaling.this :=
          Signaling.set_address (Signaling.this Scenario.hello_done)
                                Signaling.SALTYRTC_ADDR_INITIATOR;
        Signaling.world :=
          World.set_socket (Signaling.world Scenario.hello_done) 0
            (WebSocket.removeEventListener
               (World.sockets (Signaling.world Scenario.hello_done) 0)
               "message" Listener.recvMessageEvent_handler) |}).
Proof.
  cbv zeta.
  apply (server_auth_bad_cookie (E := Scenario.E) Scenario.hello_done 0
           (Scenario.frame Scenario.serverCookie 0 1 2 Scenario.server_tag
              (ServerAuth Scenario.serverCookie (Some [2; 3]) None))
           (Box.mk (firstn 24
                      (Scenario.frame Scenario.serverCookie 0 1 2
                         Scenario.server_tag
                         (ServerAuth Scenario.serverCookie (Some [2; 3])
                                     None)))
                   (skipn 24
                      (Scenario.frame Scenario.serverCookie 0 1 2
                         Scenario.server_tag
                         (ServerAuth Scenario.serverCookie (Some [2; 3])
                                     None))))
           (Reference.msgpack_encode
              (ServerAuth Scenario.serverCookie (Some [2; 3]) None))
           (Nonce.mk Scenario.serverCookie 0 2 0 1)
           Scenario.serverCookie (Some [2; 3]) None Scenario.serverCookie
           Scenario.cookies_held).
  - reflexivity.
  - reflexivity.
  - vm_compute. reflexivity.
  - vm_compute. reflexivity.
  - vm_compute. reflexivity.
  - vm_compute. reflexivity.
  - reflexivity.
  - reflexivity.
  - vm_compute. reflexivity.
  - reflexivity.
  - vm_compute. reflexivity.
  - vm_compute. reflexivity.
Defined.

(** X30. The responder answers an accepted server-hello (from 0x00, for
    our address, with a first random cookie that differs from the
    server's) with two packets in this order: client-hello with our
    public permanent key, not encrypted (the nonce followed by the
    encoded message), and client-auth that echoes the server's cookie,
    sealed with our permanent key for the key of server-hello.  The two
    packets carry successive pairs of the server combined sequence.
    The server key and the cookie pair are stored, the address becomes
    0x01 until server-auth assigns one, [onInitServerHandshake] is no
    longer registered and the one-shot handler of the [await] is. *)
Theorem server_hello_answered {E : Collaborators}
        (s : Signaling.Sys) (ref : nat) (fuel : nat) (buffer : list byte)
        (n : Nonce.t) (key : list byte) (c1 c2 : CombinedSequence.t)
        (reply : Box.t) :
  Signaling.ws (Signaling.this s) = Some ref ->
  Signaling.role (Signaling.this s) = Signaling.role_responder ->
  Nonce_fromArrayBuffer (firstn 24 buffer) = Ok n ->
  msgpack_decode (skipn 24 buffer) = Ok (ServerHello key) ->
  Nonce.destination n = Signaling.address (Signaling.this s) ->
  Nonce.source n = Signaling.SALTYRTC_ADDR_SERVER ->
  World.cookies (Signaling.world s) (World.cookiesDrawn (Signaling.world s))
  <> Nonce.cookie n ->
  CombinedSequence.next
    (Signaling.serverCombinedSequence (Signaling.this s)) = (Ok c1, c1) ->
  CombinedSequence.next c1 = (Ok c2, c2) ->
  KeyStore_encrypt (Signaling.permanentKey (Signaling.this s))
    (msgpack_encode (ClientAuth (Cookie.asArray (Nonce.cookie n))))
    (packet_nonce (Signaling.this s)
       (World.cookies (Signaling.world s)
                      (World.cookiesDrawn (Signaling.world s)))
       c2 Signaling.SALTYRTC_ADDR_SERVER)
    (Some key) = Ok reply ->
  exists s',
    Signaling.onInitServerHandshake_begin (S fuel) buffer s
    = Some (Ok tt, s')
    /\ Signaling.this s'
       = Signaling.set_address
           (Signaling.set_serverCombinedSequence
              (Signaling.set_cookiePair
                 (Signaling.set_serverKey
                    (Signaling.set_state (Signaling.this s)
                                         Signaling.server_handshake)
                    (Some key))
                 (Some (CookiePair.mk
                          (World.cookies (Signaling.world s)
                             (World.cookiesDrawn (Signaling.world s)))
                          (Nonce.cookie n))))
              c2)
           Signaling.SALTYRTC_ADDR_INITIATOR
    /\ WebSocket.sent (World.sockets (Signaling.world s') ref)
       = WebSocket.sent (World.sockets (Signaling.world s) ref)
         ++ [packet_nonce (Signaling.this s)
               (World.cookies (Signaling.world s)
                              (World.cookiesDrawn (Signaling.world s)))
               c1 Signaling.SALTYRTC_ADDR_SERVER
             ++ msgpack_encode
                  (ClientHello
                     (KeyStore.publicKeyArray
                        (Signaling.permanentKey (Signaling.this s))));
             Box.toUint8Array reply]
    /\ WebSocket.handles (World.sockets (Signaling.world s') ref)
                         Listener.recvMessageEvent_handler = true
    /\ WebSocket.handles (World.sockets (Signaling.world s') ref)
                         Listener.onInitServerHandshake = false
    /\ World.cookiesDrawn (Signaling.world s')
       = S (World.cookiesDrawn (Signaling.world s)).
Proof.
  intros Hws Hrole Hn Hm Hd Hsrc Hfresh Hnext1 Hnext2 Henc.
  unfold Signaling.onInitServerHandshake_begin.
  rewrite (Run.bind_ok _ _ _ _ _ (Run.on_ws_some _ s ref Hws)).
  unfold Signaling.assign at 1, Signaling.serverHandshake_begin,
    Signaling.serverHandshake_serverHello.
  cbn [Signaling.this Signaling.world].
  rewrite Hn. cbv zeta. rewrite Hm.
  PeerHandshakeFacts.mstep. unfold Signaling.validateNonce.
  PeerHandshakeFacts.mstep. rewrite Hd, Hsrc, Z.eqb_refl.
  change (Signaling.SALTYRTC_ADDR_SERVER =? 0) with true.
  cbn [negb Msg.type_is Msg.type Msg.key Uint8Array_new].
  cbn [Signaling.generateCookie World.new_Cookie World.set_socket
       World.cookies World.cookiesDrawn Signaling.this Signaling.world].
  apply KeepsFacts.Cookie_equals_false in Hfresh. rewrite Hfresh.
  unfold Signaling.serverHandshake_clientAuth.
  PeerHandshakeFacts.mstep. rewrite Hrole. PeerHandshakeFacts.mstep.
  match goal with
  | |- context [Signaling.buildPacket ?m _ false ?s1] =>
    rewrite (PacketFacts.buildPacket_server_plain_run m s1
               (CookiePair.mk
                  (World.cookies (Signaling.world s)
                     (World.cookiesDrawn (Signaling.world s)))
                  (Nonce.cookie n))
               c1 eq_refl Hnext1)
  end.
  unfold Signaling.ws_send.
  erewrite Run.on_ws_some by (PeerHandshakeFacts.mstep; exact Hws).
  PeerHandshakeFacts.mstep.
  match goal with
  | |- context [Signaling.buildPacket ?m _ true ?s1] =>
    rewrite (ElectionFacts.buildPacket_server_run m s1
               (CookiePair.mk
                  (World.cookies (Signaling.world s)
                     (World.cookiesDrawn (Signaling.world s)))
                  (Nonce.cookie n))
               c2 reply eq_refl Hnext2 Henc)
  end.
  erewrite Run.on_ws_some by (PeerHandshakeFacts.mstep; exact Hws).
  PeerHandshakeFacts.mstep.
  erewrite Run.on_ws_some by (PeerHandshakeFacts.mstep; exact Hws).
  eexists. split; [reflexivity|].
  PeerHandshakeFacts.mstep. split; [reflexivity|].
  cbn [World.sockets World.set_socket World.cookiesDrawn].
  rewrite !Nat.eqb_refl.
  cbn [WebSocket.send WebSocket.sent WebSocket.addEventListener
       WebSocket.removeEventListener].
  split; [rewrite <- app_assoc; reflexivity|].
  split; [apply WebSocketFacts.handles_after_add|].
  split; [|reflexivity].
  exact (WebSocketFacts.handles_after_remove_add
           (World.sockets (Signaling.world s) ref)
           Listener.onInitServerHandshake Listener.recvMessageEvent_handler
           eq_refl).
Qed.

(** In the run of the responder, for a server-hello with another cookie
    than the first one drawn. *)
Lemma server_hello_answered_witness :
  let s := ResponderScenario.connected in
  let ours := World.cookies (Signaling.world s)
                            (World.cookiesDrawn (Signaling.world s)) in
  exists s',
    Signaling.onInitServerHandshake_begin (E := ResponderScenario.E) 1
      ResponderRun.other_server_hello s
    = Some (Ok tt, s')
    /\ Signaling.this s'
       = Signaling.set_address
           (Signaling.set_serverCombinedSequence
              (Signaling.set_cookiePair
                 (Signaling.set_serverKey
                    (Signaling.set_state (Signaling.this s)
                                         Signaling.server_handshake)
                    (Some Scenario.serverPublicKey))
                 (Some (CookiePair.mk ours ResponderRun.otherCookie)))
              (CombinedSequence.mk 104 0))
           Signaling.SALTYRTC_ADDR_INITIATOR
    /\ WebSocket.sent (World.sockets (Signaling.world s') 0)
       = WebSocket.sent (World.sockets (Signaling.world s) 0)
         ++ [packet_nonce (E := ResponderScenario.E) (Signaling.this s) ours
               (CombinedSequence.mk 103 0) Signaling.SALTYRTC_ADDR_SERVER
             ++ msgpack_encode (Collaborators := ResponderScenario.E)
                  (ClientHello
                     (KeyStore.publicKeyArray
                        (Signaling.permanentKey (Signaling.this s))));
             Box.toUint8Array ResponderRun.client_auth_box]
    /\ WebSocket.handles (World.sockets (Signaling.world s') 0)
                         Listener.recvMessageEvent_handler = true
    /\ WebSocket.handles (World.sockets (Signaling.world s') 0)
                         Listener.onInitServerHandshake = false
    /\ World.cookiesDrawn (Signaling.world s')
       = S (World.cookiesDrawn (Signaling.world s)).
Proof.
  cbv zeta.
  apply (server_hello_answered (E := ResponderScenario.E)
           ResponderScenario.connected 0 0 ResponderRun.other_server_hello
           (Nonce.mk ResponderRun.otherCookie 0 1 0 0)
           Scenario.serverPublicKey
           (CombinedSequence.mk 103 0) (CombinedSequence.mk 104 0)
           ResponderRun.client_auth_box).
  - reflexivity.
  - reflexivity.
  - vm_compute. reflexivity.
  - vm_compute. reflexivity.
  - reflexivity.
  - reflexivity.
  - vm_compute. discriminate.
  - vm_compute. reflexivity.
  - vm_compute. reflexivity.
  - vm_compute. reflexivity.
Defined.
